(** * Identity & access provisioning of the Chart Breaker back end

    A shallow embedding of the registration workflow
    (request / verify / approve / reject / complete), of the login route and
    of the two Express middlewares [authenticateToken] and [requireRole],
    followed by the properties of the workflow.

    Conventions of the embedding.
    - A handler is a function from the store (the two Prisma tables it
      touches) and the request to the new store and the JSON response.
    - Library calls whose result the program cannot predict (the clock, the
      random generators, the generated primary keys) are read from an [Env]
      handed to each request; library functions (Joi's e-mail grammar,
      jsonwebtoken, bcrypt, the Unicode case mapping of the JavaScript
      engine) are fields of a [Platform].
    - A string is the UTF-8 encoding of its text; numbers computed by the
      program are IEEE 754 doubles ([SpecFloat], precision 53).
    - An exception raised inside a handler's [try] block is the handler's
      [catch] branch, i.e. the 500 response and no further write.
    - E-mail notifications never fail and never touch the store
      (services/emailService.js returns [true] on every path), so they do not
      appear in the state. *)

From Stdlib Require Import ZArith List String Ascii Bool Lia SpecFloat.
From Stdlib.Strings Require Import Byte.
From Stdlib Require Import DecimalString DecimalPos DecimalN DecimalFacts.
Import ListNotations.

Local Open Scope string_scope.
Local Open Scope list_scope.
Local Open Scope bool_scope.
Local Open Scope Z_scope.

(** ** JavaScript values *)

(** What [JSON.parse] can put in a property of [req.body], plus [undefined]
    for an absent property.  Numbers are restricted to integers; the
    properties of a nested object have distinct names. *)
#[local] Set Warnings "-register-all".
Inductive jsval : Type :=
| JUndefined
| JNull
| JBool (b : bool)
| JNum (n : Z)
| JStr (s : string)
| JArray (items : list jsval)
| JObject (props : list (string * jsval)).

(** JavaScript truthiness, as used by [!x], [x && y] and [x || y]. *)
Definition truthy (v : jsval) : bool :=
  match v with
  | JUndefined | JNull => false
  | JBool b => b
  | JNum n => negb (n =? 0)
  | JStr s => negb (s =? "")%string
  | JArray _ | JObject _ => true
  end.

(** [a || b] *)
Definition js_or (a b : jsval) : jsval := if truthy a then a else b.

(** A plain object: property names with their values. *)
Definition jsobj : Type := list (string * jsval).

Fixpoint get_prop (o : jsobj) (k : string) : jsval :=
  match o with
  | [] => JUndefined
  | (k', v) :: o' => if (k' =? k)%string then v else get_prop o' k
  end.

(** [roles.includes(x)] for an array of string literals. *)
Definition includes (l : list string) (x : string) : bool :=
  existsb (String.eqb x) l.

(** ** String helpers *)

(** The case mapping of ASCII text: A-Z are lowered, every other byte is
    kept.  It is [String.prototype.toLowerCase] on text without other cased
    letters, and the case mapping of the sample platform below; the routes
    take the full one from the [Platform]. *)
Definition lower_ascii (c : ascii) : ascii :=
  let n := nat_of_ascii c in
  if (andb (Nat.leb 65 n) (Nat.leb n 90)) then ascii_of_nat (n + 32) else c.

Fixpoint toLowerCase (s : string) : string :=
  match s with
  | EmptyString => EmptyString
  | String c t => String (lower_ascii c) (toLowerCase t)
  end.

(** [s.split(sep)] for a one-character separator; [cur] is the piece being
    read. *)
Fixpoint split_from (sep : ascii) (cur s : string) : list string :=
  match s with
  | EmptyString => [cur]
  | String c t =>
      if Ascii.eqb c sep then cur :: split_from sep "" t
      else split_from sep (cur ++ String c "")%string t
  end.

Definition split (sep : ascii) (s : string) : list string :=
  split_from sep "" s.

(** The number of UTF-16 code units a character contributes, read off the
    bytes of its UTF-8 encoding: a character of one, two or three bytes is
    one unit, a character of four bytes (first byte 0xF0 or more) is a
    surrogate pair; continuation bytes (0x80-0xBF) count for nothing. *)
Definition utf16_units (c : ascii) : nat :=
  let n := nat_of_ascii c in
  if Nat.ltb n 128 then 1%nat
  else if Nat.ltb n 192 then 0%nat
  else if Nat.ltb n 240 then 1%nat
  else 2%nat.

(** [s.length], which is also what Joi's [min], [max] and [length] count. *)
Fixpoint js_length (s : string) : nat :=
  match s with
  | EmptyString => 0%nat
  | String c t => (utf16_units c + js_length t)%nat
  end.

(** [n.toString()] for a non-negative integer. *)
Definition toString (n : Z) : string :=
  NilZero.string_of_uint (N.to_uint (Z.to_N n)).

Definition hex_digit (n : N) : ascii :=
  match n with
  | 0%N => "0" | 1%N => "1" | 2%N => "2" | 3%N => "3"
  | 4%N => "4" | 5%N => "5" | 6%N => "6" | 7%N => "7"
  | 8%N => "8" | 9%N => "9" | 10%N => "a" | 11%N => "b"
  | 12%N => "c" | 13%N => "d" | 14%N => "e" | _ => "f"
  end%char.

(** [buffer.toString('hex')] *)
Fixpoint to_hex (bs : list byte) : string :=
  match bs with
  | [] => ""
  | b :: t =>
      let n := Byte.to_N b in
      String (hex_digit (N.div n 16)) (String (hex_digit (N.modulo n 16)) (to_hex t))
  end.

(** ** Joi schemas *)

(** A validation failure: the offending key and Joi's error type. *)
Inductive joi_error : Type :=
| JoiError (path : string) (type : string).

(** [Joi.string()] with the rules the three schemas use; every key of the
    three schemas is [.required()]. *)
Record StringSchema : Type := mkStringSchema {
  rule_email : bool;
  rule_min : option nat;
  rule_max : option nat;
  rule_length : option nat;
  rule_valid : option (list string)
}.

Definition joi_string : StringSchema := mkStringSchema false None None None None.
Definition with_email (s : StringSchema) : StringSchema :=
  mkStringSchema true (rule_min s) (rule_max s) (rule_length s) (rule_valid s).
Definition with_min (n : nat) (s : StringSchema) : StringSchema :=
  mkStringSchema (rule_email s) (Some n) (rule_max s) (rule_length s) (rule_valid s).
Definition with_max (n : nat) (s : StringSchema) : StringSchema :=
  mkStringSchema (rule_email s) (rule_min s) (Some n) (rule_length s) (rule_valid s).
Definition with_length (n : nat) (s : StringSchema) : StringSchema :=
  mkStringSchema (rule_email s) (rule_min s) (rule_max s) (Some n) (rule_valid s).
Definition with_valid (vs : list string) (s : StringSchema) : StringSchema :=
  mkStringSchema (rule_email s) (rule_min s) (rule_max s) (rule_length s) (Some vs).

Definition ObjectSchema : Type := list (string * StringSchema).

(* Validation schemas of the registration router (src/routes/assessments.js, 434-450) *)
Definition requestRegistrationSchema : ObjectSchema :=
  [ ("email", with_email joi_string);
    ("firstName", with_max 100 (with_min 2 joi_string));
    ("lastName", with_max 100 (with_min 2 joi_string));
    ("role", with_valid ["INTAKE_STAFF"; "CLINICIAN"; "QA_REVIEWER"; "BILLER"] joi_string) ].

Definition verifyEmailSchema : ObjectSchema :=
  [ ("email", with_email joi_string);
    ("verificationCode", with_length 6 joi_string) ].

Definition completeRegistrationSchema : ObjectSchema :=
  [ ("email", with_email joi_string);
    ("password", with_min 8 joi_string);
    ("token", with_min 10 joi_string) ].

(* Validation schema of the login route (src/routes/auth.js, 9-12) *)
Definition loginSchema : ObjectSchema :=
  [ ("email", with_email joi_string);
    ("password", with_min 6 joi_string) ].

Section Joi.

(** Joi's e-mail grammar is library code. *)
Variable joi_email : string -> bool.

Definition check_rules (sc : StringSchema) (s : string) : option string :=
  if andb (rule_email sc) (negb (joi_email s)) then Some "string.email"
  else if match rule_min sc with Some n => Nat.ltb (js_length s) n | None => false end
  then Some "string.min"
  else if match rule_max sc with Some n => Nat.ltb n (js_length s) | None => false end
  then Some "string.max"
  else if match rule_length sc with Some n => negb (Nat.eqb (js_length s) n) | None => false end
  then Some "string.length"
  else None.

(** One required string key: presence, then the allow-list of [.valid()],
    then the base type, then the rules in order. *)
Definition validate_string (sc : StringSchema) (v : jsval) : string + string :=
  match v with
  | JUndefined => inl "any.required"
  | _ =>
      match rule_valid sc with
      | Some vs =>
          match v with
          | JStr s => if includes vs s then inr s else inl "any.only"
          | _ => inl "any.only"
          end
      | None =>
          match v with
          | JStr s =>
              if (s =? "")%string then inl "string.empty"
              else match check_rules sc s with
                   | Some e => inl e
                   | None => inr s
                   end
          | _ => inl "string.base"
          end
      end
  end.

(** The keys of the schema in order, stopping at the first error
    ([abortEarly]). *)
Fixpoint validate_keys (keys : ObjectSchema) (o : jsobj)
  : joi_error + list (string * string) :=
  match keys with
  | [] => inr []
  | (k, sc) :: keys' =>
      match validate_string sc (get_prop o k) with
      | inl e => inl (JoiError k e)
      | inr s =>
          match validate_keys keys' o with
          | inl e => inl e
          | inr vs => inr ((k, s) :: vs)
          end
      end
  end.

(** [schema.validate(req.body)]: known keys first, then any key the schema
    does not declare is refused. *)
Definition validate (keys : ObjectSchema) (o : jsobj)
  : joi_error + list (string * string) :=
  match validate_keys keys o with
  | inl e => inl e
  | inr vs =>
      match find (fun kv => negb (includes (map fst keys) (fst kv))) o with
      | Some (k, _) => inl (JoiError k "object.unknown")
      | None => inr vs
      end
  end.

End Joi.

(** The validated object: every declared key, as a string. *)
Fixpoint field (value : list (string * string)) (k : string) : option string :=
  match value with
  | [] => None
  | (k', s) :: t => if (k' =? k)%string then Some s else field t k
  end.

(** ** Data model *)

(** Modelled from the spec: the Prisma schema (model [User]) is not under
    src/; the columns are those of the spec's data model, which are also the
    ones the sources read and write ([id], [email], [passwordHash],
    [firstName], [lastName], [role], [isActive], [lastLogin]). *)
Module User.
Record t : Type := mk {
  id : string;
  email : string;
  passwordHash : string;
  firstName : string;
  lastName : string;
  role : string;
  isActive : bool;
  lastLogin : option Z
}.

(** Property read [u.k] on the row object returned by Prisma. *)
Definition prop (u : t) (k : string) : jsval :=
  if (k =? "id")%string then JStr (id u)
  else if (k =? "email")%string then JStr (email u)
  else if (k =? "passwordHash")%string then JStr (passwordHash u)
  else if (k =? "firstName")%string then JStr (firstName u)
  else if (k =? "lastName")%string then JStr (lastName u)
  else if (k =? "role")%string then JStr (role u)
  else if (k =? "isActive")%string then JBool (isActive u)
  else if (k =? "lastLogin")%string then
    match lastLogin u with Some t => JNum t | None => JNull end
  else JUndefined.
End User.

Inductive RegistrationStatus : Type := PENDING | APPROVED | REJECTED.

Definition status_eqb (a b : RegistrationStatus) : bool :=
  match a, b with
  | PENDING, PENDING | APPROVED, APPROVED | REJECTED, REJECTED => true
  | _, _ => false
  end.

(** Modelled from the spec: the Prisma schema (model
    [UserRegistrationRequest]) is not under src/; the columns are those of
    the spec's data model, named as the sources name them.  Dates are
    milliseconds since the epoch; [None] is SQL [NULL]. *)
Module UserRegistrationRequest.
Record t : Type := mk {
  id : string;
  email : string;
  firstName : string;
  lastName : string;
  role : string;
  status : RegistrationStatus;
  verificationCode : option string;
  verificationExpires : option Z;
  completionToken : option string;
  completionTokenExpires : option Z;
  approvedBy : option string;
  approvedAt : option Z;
  adminNotes : option string;
  requestedAt : Z
}.
End UserRegistrationRequest.
Module RR := UserRegistrationRequest.

(** The two tables behind [prisma.user] and
    [prisma.userRegistrationRequest]. *)
Record Store : Type := mkStore {
  prisma_user : list User.t;
  prisma_userRegistrationRequest : list RR.t
}.

(** ** The Prisma client *)

(** The row a unique [where] designates is the first one that matches. *)
Fixpoint update_first {A : Type} (p : A -> bool) (f : A -> A) (l : list A) : list A :=
  match l with
  | [] => []
  | x :: t => if p x then f x :: t else x :: update_first p f t
  end.

(** [prisma.<model>.update({ where, data })]; [None] is the exception Prisma
    raises when no row matches. *)
Definition prisma_update {A : Type} (p : A -> bool) (f : A -> A) (l : list A)
  : option (list A) :=
  match find p l with
  | Some _ => Some (update_first p f l)
  | None => None
  end.

Definition user_by_id (i : string) (u : User.t) : bool := (User.id u =? i)%string.
Definition user_by_email (e : string) (u : User.t) : bool := (User.email u =? e)%string.
Definition request_by_id (i : string) (r : RR.t) : bool := (RR.id r =? i)%string.
Definition request_by_email (e : string) (r : RR.t) : bool := (RR.email r =? e)%string.

(** [prisma.user.findUnique({ where: { email } })], compared as the database
    compares text: byte for byte. *)
Definition findUser_email (st : Store) (e : string) : option User.t :=
  find (user_by_email e) (prisma_user st).

(** [prisma.user.findUnique({ where: { id } })] with a value taken from
    untyped data: Prisma refuses (throws on) an [id] that is not a string. *)
Definition findUser_id (st : Store) (i : jsval) : option (option User.t) :=
  match i with
  | JStr s => Some (find (user_by_id s) (prisma_user st))
  | _ => None
  end.

Definition findRequest_email (st : Store) (e : string) : option RR.t :=
  find (request_by_email e) (prisma_userRegistrationRequest st).

Definition findRequest_id (st : Store) (i : string) : option RR.t :=
  find (request_by_id i) (prisma_userRegistrationRequest st).

(** [prisma.user.create({ data })]; [None] is the unique-constraint
    violation on [id] or [email]. *)
Definition createUser (u : User.t) (l : list User.t) : option (list User.t) :=
  if existsb (user_by_id (User.id u)) l || existsb (user_by_email (User.email u)) l
  then None
  else Some (l ++ [u]).

(** ** Environment of one request *)

Record Env : Type := mkEnv {
  (** [Date.now()] / [new Date()], constant during one request *)
  now : Z;
  (** [Math.random()], as the numerator of a fraction of 2^53 *)
  Math_random : Z;
  (** [crypto.randomBytes(n)] *)
  randomBytes : nat -> list byte;
  (** the primary key the database generates for a created row *)
  generated_id : string
}.

Inductive JwtResult : Type :=
| JwtPayload (claims : jsobj)
| JwtThrows (name : string).

Record Platform : Type := mkPlatform {
  joi_email : string -> bool;
  (** [jwt.verify(token, process.env.JWT_SECRET)] at a given time *)
  jwt_verify : string -> Z -> JwtResult;
  (** [jwt.sign(claims, process.env.JWT_SECRET, { expiresIn: '24h' })] *)
  jwt_sign : jsobj -> Z -> string;
  (** [bcrypt.hash(password, rounds)] *)
  bcrypt_hash : string -> nat -> string;
  bcrypt_compare : string -> string -> bool;
  (** whether [process.env.DATABASE_URL] is set *)
  DATABASE_URL : bool;
  (** [String.prototype.toLowerCase], with the engine's Unicode case
      mapping *)
  String_toLowerCase : string -> string
}.

(** ** Responses *)

Inductive Body : Type :=
| ErrorCode (error code : string)
| ErrorOnly (error : string)
| ValidationError (details : joi_error)
| InsufficientPermissions (required : list string) (current : string)
| Message (message : string)
| RequestSubmitted (requestId : string)
| EmailVerified (status : string)
| Authenticated (message token : string) (user : User.t).

Record Response : Type := mkResponse {
  statusCode : Z;
  json : Body
}.

Definition internal_error : Response :=
  mkResponse 500 (ErrorOnly "Internal server error").

(** ** Requests and middlewares (src/middleware/auth.js) *)

Record Request : Type := mkRequest {
  (** [req.headers['authorization']] *)
  authorization : option string;
  (** [req.params.requestId] *)
  requestId : string;
  (** [req.body], as [express.json()] leaves it *)
  body : jsobj;
  (** [req.user], set by [authenticateToken] *)
  user : option User.t
}.

Definition set_user (req : Request) (u : User.t) : Request :=
  mkRequest (authorization req) (requestId req) (body req) (Some u).

(** A middleware answers the request itself ([Some] response) or calls
    [next()] on the request it may have extended ([None]). *)
Definition Middleware : Type := Store -> Request -> Request * option Response.

(** [authHeader && authHeader.split(' ')[1]]; [None] is [undefined]. *)
Definition token_of (authHeader : option string) : option string :=
  match authHeader with
  | None => None
  | Some h => if (h =? "")%string then Some h else nth_error (split " " h) 1
  end.

Definition authenticateToken (P : Platform) (env : Env) : Middleware :=
  fun st req =>
    let missing := mkResponse 401 (ErrorCode "Access token required" "MISSING_TOKEN") in
    let invalid := mkResponse 403 (ErrorCode "Invalid token" "INVALID_TOKEN") in
    match token_of (authorization req) with
    | None => (req, Some missing)
    | Some token =>
        if (token =? "")%string then (req, Some missing)
        else
          match jwt_verify P token (now env) with
          | JwtThrows name =>
              if (name =? "TokenExpiredError")%string
              then (req, Some (mkResponse 401 (ErrorCode "Token expired" "TOKEN_EXPIRED")))
              else (req, Some invalid)
          | JwtPayload decoded =>
              (* Verify user still exists and is active *)
              match findUser_id st (get_prop decoded "userId") with
              | None => (req, Some invalid)
              | Some None =>
                  (req, Some (mkResponse 401 (ErrorCode "Invalid or inactive user" "INVALID_USER")))
              | Some (Some u) =>
                  if negb (User.isActive u)
                  then (req, Some (mkResponse 401 (ErrorCode "Invalid or inactive user" "INVALID_USER")))
                  else (set_user req u, None)
              end
          end
    end.

Definition requireRole (roles : list string) : Middleware :=
  fun st req =>
    match user req with
    | None =>
        (req, Some (mkResponse 401 (ErrorCode "Authentication required" "AUTH_REQUIRED")))
    | Some u =>
        if negb (includes roles (User.role u))
        then (req, Some (mkResponse 403 (InsufficientPermissions roles (User.role u))))
        else (req, None)
    end.

Definition Handler : Type := Store -> Request -> Store * Response.

(** [router.post(path, mw1, mw2, ..., handler)] *)
Fixpoint route (mws : list Middleware) (h : Handler) : Handler :=
  fun st req =>
    match mws with
    | [] => h st req
    | m :: mws' =>
        match m st req with
        | (req', None) => route mws' h st req'
        | (_, Some res) => (st, res)
        end
    end.

(** ** The registration router (src/routes/assessments.js, 422-924) *)

(** The double [Math.random()] returns: [k / 2^53] for the numerator [k]
    of the environment (every such fraction of [0, 1) is a double). *)
Definition random_double (env : Env) : spec_float :=
  match Math_random env with
  | Zpos k => S754_finite false k (-53)
  | _ => S754_zero false
  end.

(** A number literal with an integer value below 2^53. *)
Definition double_of_Z (n : Z) : spec_float :=
  match n with
  | Z0 => S754_zero false
  | Zpos p => S754_finite false p 0
  | Zneg p => S754_finite true p 0
  end.

(** [x * y] and [x + y] on doubles: the exact result rounded to the nearest
    double, ties to even. *)
Definition double_mul : spec_float -> spec_float -> spec_float := SFmul 53 1024.
Definition double_add : spec_float -> spec_float -> spec_float := SFadd 53 1024.

(** [Math.floor(x)] of a finite double, as the integer it denotes. *)
Definition Math_floor (x : spec_float) : Z :=
  match x with
  | S754_finite s m e =>
      if 0 <=? e then cond_Zopp s (Zpos m) * 2 ^ e
      else cond_Zopp s (Zpos m) / 2 ^ (- e)
  | _ => 0
  end.

(* Generate verification code *)
Definition generateVerificationCode (env : Env) : string :=
  toString (Math_floor (double_add (double_of_Z 100000)
                                   (double_mul (random_double env) (double_of_Z 900000)))).

(** services/emailService.js: every path returns [true]. *)
Definition sendVerificationEmail (email code firstName : string) : bool := true.

Definition validRoles : list string :=
  ["INTAKE_STAFF"; "CLINICIAN"; "QA_REVIEWER"; "BILLER"].

Definition is_empty (s : string) : bool := (s =? "")%string.

Definition with_requests (st : Store) (l : list RR.t) : Store :=
  mkStore (prisma_user st) l.

Definition with_users (st : Store) (l : list User.t) : Store :=
  mkStore l (prisma_userRegistrationRequest st).

(** The [update] branch of the upsert of /request-registration. *)
Definition reopen (firstName lastName role code : string) (expires t : Z) (r : RR.t) : RR.t :=
  RR.mk (RR.id r) (RR.email r) firstName lastName role PENDING
        (Some code) (Some expires)
        (RR.completionToken r) (RR.completionTokenExpires r)
        (RR.approvedBy r) (RR.approvedAt r) (RR.adminNotes r) t.

(** The [create] branch: the other columns take the defaults of the
    schema. *)
Definition fresh_request (i email firstName lastName role code : string) (expires t : Z) : RR.t :=
  RR.mk i email firstName lastName role PENDING
        (Some code) (Some expires) None None None None None t.

(** [prisma.userRegistrationRequest.upsert({ where: { email }, update, create })];
    [None] is the unique-constraint violation on the generated key. *)
Definition upsertRequest (env : Env) (email firstName lastName role code : string)
    (expires : Z) (l : list RR.t) : option (list RR.t * RR.t) :=
  match find (request_by_email email) l with
  | Some r =>
      Some (update_first (request_by_email email)
                         (reopen firstName lastName role code expires (now env)) l,
            reopen firstName lastName role code expires (now env) r)
  | None =>
      let r := fresh_request (generated_id env) email firstName lastName role code
                             expires (now env) in
      if existsb (request_by_id (generated_id env)) l then None
      else Some (l ++ [r], r)
  end.

(* Request registration (Step 1: User requests to register) *)
Definition request_registration (P : Platform) (env : Env) : Handler :=
  fun st req =>
    match validate (joi_email P) requestRegistrationSchema (body req) with
    | inl e => (st, mkResponse 400 (ValidationError e))
    | inr value =>
        match field value "email", field value "firstName",
              field value "lastName", field value "role" with
        | Some email, Some firstName, Some lastName, Some role =>
            (* Validate required fields *)
            if is_empty email || is_empty firstName || is_empty lastName || is_empty role
            then (st, mkResponse 400 (ErrorCode "All fields are required" "MISSING_FIELDS"))
            (* Validate role *)
            else if negb (includes validRoles role)
            then (st, mkResponse 400 (ErrorCode "Invalid role selected" "INVALID_ROLE"))
            else
              (* Check if user already exists *)
              match findUser_email st email with
              | Some _ =>
                  (st, mkResponse 400 (ErrorCode "User with this email already exists" "USER_EXISTS"))
              | None =>
                  (* Check if there's already a pending registration request *)
                  if match findRequest_email st email with
                     | Some existingRequest => status_eqb (RR.status existingRequest) PENDING
                     | None => false
                     end
                  then (st, mkResponse 400 (ErrorCode "Registration request already pending" "REQUEST_PENDING"))
                  else
                    let verificationCode := generateVerificationCode env in
                    let verificationExpires := now env + 24 * 60 * 60 * 1000 in
                    (* Create or update registration request *)
                    match upsertRequest env email firstName lastName role verificationCode
                                        verificationExpires (prisma_userRegistrationRequest st) with
                    | None => (st, internal_error)
                    | Some (l, registrationRequest) =>
                        let st' := with_requests st l in
                        if negb (sendVerificationEmail email verificationCode firstName)
                        then (st', mkResponse 500 (ErrorCode "Failed to send verification email" "EMAIL_SEND_FAILED"))
                        else (st', mkResponse 200 (RequestSubmitted (RR.id registrationRequest)))
                    end
              end
        | _, _, _, _ =>
            (st, mkResponse 400 (ErrorCode "All fields are required" "MISSING_FIELDS"))
        end
    end.

(** The [data] of the update of /verify-email. *)
Definition clear_code (r : RR.t) : RR.t :=
  RR.mk (RR.id r) (RR.email r) (RR.firstName r) (RR.lastName r) (RR.role r) (RR.status r)
        None None
        (RR.completionToken r) (RR.completionTokenExpires r)
        (RR.approvedBy r) (RR.approvedAt r) (RR.adminNotes r) (RR.requestedAt r).

(** [a !== b] between a nullable text column and a string. *)
Definition differs (a : option string) (b : string) : bool :=
  match a with
  | Some s => negb (s =? b)%string
  | None => true
  end.

(** [new Date() > d] for a nullable date column ([null] converts to 0). *)
Definition date_after (t : Z) (d : option Z) : bool :=
  match d with
  | Some e => e <? t
  | None => 0 <? t
  end.

(* Verify email (Step 2: User verifies email with code) *)
Definition verify_email (P : Platform) (env : Env) : Handler :=
  fun st req =>
    match validate (joi_email P) verifyEmailSchema (body req) with
    | inl e => (st, mkResponse 400 (ValidationError e))
    | inr value =>
        match field value "email", field value "verificationCode" with
        | Some email, Some verificationCode =>
            if is_empty email || is_empty verificationCode
            then (st, mkResponse 400 (ErrorCode "Email and verification code are required" "MISSING_FIELDS"))
            else
              (* Find registration request *)
              match findRequest_email st email with
              | None =>
                  (st, mkResponse 400 (ErrorCode "Registration request not found" "REQUEST_NOT_FOUND"))
              | Some registrationRequest =>
                  if negb (status_eqb (RR.status registrationRequest) PENDING)
                  then (st, mkResponse 400 (ErrorCode "Registration request is not pending" "REQUEST_NOT_PENDING"))
                  (* Check if verification code is correct and not expired *)
                  else if differs (RR.verificationCode registrationRequest) verificationCode
                  then (st, mkResponse 400 (ErrorCode "Invalid verification code" "INVALID_CODE"))
                  else if date_after (now env) (RR.verificationExpires registrationRequest)
                  then (st, mkResponse 400 (ErrorCode "Verification code has expired" "CODE_EXPIRED"))
                  else
                    match prisma_update (request_by_email email) clear_code
                                        (prisma_userRegistrationRequest st) with
                    | None => (st, internal_error)
                    | Some l =>
                        (with_requests st l, mkResponse 200 (EmailVerified "VERIFIED_PENDING_APPROVAL"))
                    end
              end
        | _, _ =>
            (st, mkResponse 400 (ErrorCode "Email and verification code are required" "MISSING_FIELDS"))
        end
    end.

(** The [data] of the update that ends /complete-registration. *)
Definition consume_token (r : RR.t) : RR.t :=
  RR.mk (RR.id r) (RR.email r) (RR.firstName r) (RR.lastName r) (RR.role r) APPROVED
        (RR.verificationCode r) (RR.verificationExpires r)
        None None
        (RR.approvedBy r) (RR.approvedAt r) (RR.adminNotes r) (RR.requestedAt r).

(** [!t || t !== given] on the stored completion token. *)
Definition token_mismatch (stored : option string) (given : string) : bool :=
  match stored with
  | None => true
  | Some t => is_empty t || negb (t =? given)%string
  end.

(** [d && new Date() > d] *)
Definition token_expired (t : Z) (d : option Z) : bool :=
  match d with
  | Some e => e <? t
  | None => false
  end.

Definition session_claims (u : User.t) : jsobj :=
  [ ("userId", JStr (User.id u)); ("email", JStr (User.email u)); ("role", JStr (User.role u)) ].

(* Complete registration (Step 3: User completes registration after admin approval) *)
Definition complete_registration (P : Platform) (env : Env) : Handler :=
  fun st req =>
    match validate (joi_email P) completeRegistrationSchema (body req) with
    | inl e => (st, mkResponse 400 (ValidationError e))
    | inr value =>
        match field value "email", field value "password", field value "token" with
        | Some email, Some password, Some completionToken =>
            if is_empty email || is_empty password || is_empty completionToken
            then (st, mkResponse 400 (ErrorCode "Email, password and token are required" "MISSING_FIELDS"))
            else
              (* Find approved registration request *)
              match findRequest_email st email with
              | None =>
                  (st, mkResponse 400 (ErrorCode "Registration request not found" "REQUEST_NOT_FOUND"))
              | Some registrationRequest =>
                  if negb (status_eqb (RR.status registrationRequest) APPROVED)
                  then (st, mkResponse 400 (ErrorCode "Registration request is not approved" "REQUEST_NOT_APPROVED"))
                  (* Validate completion token *)
                  else if token_mismatch (RR.completionToken registrationRequest) completionToken
                  then (st, mkResponse 400 (ErrorCode "Invalid or missing completion token" "INVALID_COMPLETION_TOKEN"))
                  else if token_expired (now env) (RR.completionTokenExpires registrationRequest)
                  then (st, mkResponse 400 (ErrorCode "Completion token has expired" "COMPLETION_TOKEN_EXPIRED"))
                  else
                    (* Check if user already exists *)
                    match findUser_email st email with
                    | Some _ => (st, mkResponse 400 (ErrorCode "User already exists" "USER_EXISTS"))
                    | None =>
                        (* Hash password *)
                        let passwordHash := bcrypt_hash P password 12 in
                        (* Create user *)
                        let u := User.mk (generated_id env) email passwordHash
                                         (RR.firstName registrationRequest)
                                         (RR.lastName registrationRequest)
                                         (RR.role registrationRequest) true None in
                        match createUser u (prisma_user st) with
                        | None => (st, internal_error)
                        | Some users =>
                            let st1 := with_users st users in
                            (* Update registration request status and invalidate token *)
                            match prisma_update (request_by_email email) consume_token
                                                (prisma_userRegistrationRequest st1) with
                            | None => (st1, internal_error)
                            | Some l =>
                                (with_requests st1 l,
                                 mkResponse 200
                                   (Authenticated "Registration completed successfully"
                                      (jwt_sign P (session_claims u) (now env)) u))
                            end
                        end
                    end
              end
        | _, _, _ =>
            (st, mkResponse 400 (ErrorCode "Email, password and token are required" "MISSING_FIELDS"))
        end
    end.

(** An argument of a Prisma [data] object: [undefined] leaves the column
    alone. *)
Inductive Arg (A : Type) : Type :=
| Keep
| Put (a : A).
Arguments Keep {A}.
Arguments Put {A} a.

Definition apply_arg {A : Type} (a : Arg A) (old : A) : A :=
  match a with
  | Keep => old
  | Put x => x
  end.

(** A scalar column of a Prisma [data] object written from an untyped
    value: [undefined] leaves the column alone; a value of the column's type
    sets it, given bare or as the update operation [{ set: value }], an
    object with that one property; anything else is refused by Prisma's
    argument validation ([None]: the call throws).  [of_type] says which
    values the column takes. *)
Definition scalar_arg {A : Type} (of_type : jsval -> option A) (v : jsval) : option (Arg A) :=
  match v with
  | JUndefined => Some Keep
  | JObject [(k, x)] =>
      if (k =? "set")%string then option_map Put (of_type x) else None
  | _ => option_map Put (of_type v)
  end.

(** A nullable text column takes a string or [null]. *)
Definition nullable_string_value (v : jsval) : option (option string) :=
  match v with
  | JNull => Some None
  | JStr s => Some (Some s)
  | _ => None
  end.

Definition nullable_string : jsval -> option (Arg (option string)) :=
  scalar_arg nullable_string_value.

(** The [data] of the update of /admin/approve-registration. *)
Definition approve_data (t : Z) (approvedBy adminNotes : Arg (option string))
    (completionToken : string) (completionTokenExpires : Z) (r : RR.t) : RR.t :=
  RR.mk (RR.id r) (RR.email r) (RR.firstName r) (RR.lastName r) (RR.role r) APPROVED
        (RR.verificationCode r) (RR.verificationExpires r)
        (Some completionToken) (Some completionTokenExpires)
        (apply_arg approvedBy (RR.approvedBy r)) (Some t)
        (apply_arg adminNotes (RR.adminNotes r)) (RR.requestedAt r).

(** The [data] of the update of /admin/reject-registration. *)
Definition reject_data (t : Z) (approvedBy adminNotes : Arg (option string)) (r : RR.t) : RR.t :=
  RR.mk (RR.id r) (RR.email r) (RR.firstName r) (RR.lastName r) (RR.role r) REJECTED
        (RR.verificationCode r) (RR.verificationExpires r)
        (RR.completionToken r) (RR.completionTokenExpires r)
        (apply_arg approvedBy (RR.approvedBy r)) (Some t)
        (apply_arg adminNotes (RR.adminNotes r)) (RR.requestedAt r).

(* Approve registration request *)
Definition approve_registration (P : Platform) (env : Env) : Handler :=
  fun st req =>
    let adminNotes := get_prop (body req) "adminNotes" in
    match findRequest_id st (requestId req) with
    | None => (st, mkResponse 404 (ErrorCode "Registration request not found" "REQUEST_NOT_FOUND"))
    | Some registrationRequest =>
        if negb (status_eqb (RR.status registrationRequest) PENDING)
        then (st, mkResponse 400 (ErrorCode "Registration request is not pending" "REQUEST_NOT_PENDING"))
        else
          (* Generate completion token (12h expiry) *)
          let completionToken := to_hex (randomBytes env 24) in
          let completionTokenExpires := now env + 12 * 60 * 60 * 1000 in
          match user req with
          | None => (st, internal_error)
          | Some admin =>
              (* approvedBy: req.user.userId *)
              match nullable_string (User.prop admin "userId"), nullable_string adminNotes with
              | Some approvedBy, Some notes =>
                  match prisma_update (request_by_id (requestId req))
                          (approve_data (now env) approvedBy notes
                                        completionToken completionTokenExpires)
                          (prisma_userRegistrationRequest st) with
                  | None => (st, internal_error)
                  | Some l =>
                      (with_requests st l,
                       mkResponse 200 (Message "Registration request approved successfully"))
                  end
              | _, _ => (st, internal_error)
              end
          end
    end.

(* Reject registration request *)
Definition reject_registration (P : Platform) (env : Env) : Handler :=
  fun st req =>
    let reason := get_prop (body req) "reason" in
    let adminNotes := get_prop (body req) "adminNotes" in
    if negb (truthy reason)
    then (st, mkResponse 400 (ErrorCode "Rejection reason is required" "MISSING_REASON"))
    else
      match findRequest_id st (requestId req) with
      | None => (st, mkResponse 404 (ErrorCode "Registration request not found" "REQUEST_NOT_FOUND"))
      | Some registrationRequest =>
          if negb (status_eqb (RR.status registrationRequest) PENDING)
          then (st, mkResponse 400 (ErrorCode "Registration request is not pending" "REQUEST_NOT_PENDING"))
          else
            match user req with
            | None => (st, internal_error)
            | Some admin =>
                (* approvedBy: req.user.userId, adminNotes: adminNotes || reason *)
                match nullable_string (User.prop admin "userId"),
                      nullable_string (js_or adminNotes reason) with
                | Some approvedBy, Some notes =>
                    match prisma_update (request_by_id (requestId req))
                            (reject_data (now env) approvedBy notes)
                            (prisma_userRegistrationRequest st) with
                    | None => (st, internal_error)
                    | Some l =>
                        (with_requests st l,
                         mkResponse 200 (Message "Registration request rejected successfully"))
                    end
                | _, _ => (st, internal_error)
                end
            end
      end.

(** The two admin routes, behind their gates. *)
Definition approve_route (P : Platform) (env : Env) : Handler :=
  route [authenticateToken P env; requireRole ["ADMIN"]] (approve_registration P env).

Definition reject_route (P : Platform) (env : Env) : Handler :=
  route [authenticateToken P env; requireRole ["ADMIN"]] (reject_registration P env).

(** ** The login route (src/routes/auth.js, 23-115) *)

Definition touch_login (t : Z) (u : User.t) : User.t :=
  User.mk (User.id u) (User.email u) (User.passwordHash u) (User.firstName u)
          (User.lastName u) (User.role u) (User.isActive u) (Some t).

Definition login (P : Platform) (env : Env) : Handler :=
  fun st req =>
    if negb (DATABASE_URL P)
    then (st, mkResponse 500 (ErrorCode "Database configuration error" "DATABASE_CONFIG_ERROR"))
    else
      match validate (joi_email P) loginSchema (body req) with
      | inl e => (st, mkResponse 400 (ValidationError e))
      | inr value =>
          match field value "email", field value "password" with
          | Some email, Some password =>
              (* Find user by email *)
              match findUser_email st (String_toLowerCase P email) with
              | None => (st, mkResponse 401 (ErrorCode "Invalid credentials" "INVALID_CREDENTIALS"))
              | Some u =>
                  if negb (User.isActive u)
                  then (st, mkResponse 401 (ErrorCode "Account is deactivated" "ACCOUNT_DEACTIVATED"))
                  (* Verify password *)
                  else if negb (bcrypt_compare P password (User.passwordHash u))
                  then (st, mkResponse 401 (ErrorCode "Invalid credentials" "INVALID_CREDENTIALS"))
                  else
                    (* Update last login *)
                    match prisma_update (user_by_id (User.id u)) (touch_login (now env))
                                        (prisma_user st) with
                    | None => (st, mkResponse 500 (ErrorCode "Internal server error" "INTERNAL_ERROR"))
                    | Some users =>
                        (with_users st users,
                         mkResponse 200
                           (Authenticated "Login successful"
                              (jwt_sign P (session_claims u) (now env)) u))
                    end
              end
          | _, _ => (st, mkResponse 500 (ErrorCode "Internal server error" "INTERNAL_ERROR"))
          end
      end.

(** ** The workflow as a transition system *)

Inductive Operation : Type :=
| Request_
| Verify
| Approve
| Reject
| Complete.

(** One call of the API: the operation, what the environment answers during
    the call, and the HTTP request. *)
Record Call : Type := mkCall {
  operation : Operation;
  call_env : Env;
  call_req : Request
}.

Definition handle (P : Platform) (c : Call) : Handler :=
  match operation c with
  | Request_ => request_registration P (call_env c)
  | Verify => verify_email P (call_env c)
  | Approve => approve_route P (call_env c)
  | Reject => reject_route P (call_env c)
  | Complete => complete_registration P (call_env c)
  end.

Definition step (P : Platform) (st : Store) (c : Call) : Store :=
  fst (handle P c st (call_req c)).

Definition run (P : Platform) (st : Store) (cs : list Call) : Store :=
  fold_left (step P) cs st.

(** ** A concrete platform for running the model *)

Definition contains_at (s : string) : bool :=
  existsb (Ascii.eqb "@"%char) (list_ascii_of_string s).

(** Session tokens are ["session:" ++ userId]; the token ["stale"] is an
    expired one; everything else has a bad signature. *)
Definition sample_verify (token : string) (t : Z) : JwtResult :=
  if (token =? "stale")%string then JwtThrows "TokenExpiredError"
  else if String.prefix "session:" token
  then JwtPayload [("userId", JStr (substring 8 (String.length token - 8) token))]
  else JwtThrows "JsonWebTokenError".

Definition sample_sign (claims : jsobj) (t : Z) : string :=
  match get_prop claims "userId" with
  | JStr i => ("session:" ++ i)%string
  | _ => "session:"
  end.

Definition sample_platform : Platform :=
  mkPlatform contains_at sample_verify sample_sign
             (fun pw _ => ("hash:" ++ pw)%string)
             (fun pw h => (h =? "hash:" ++ pw)%string)
             true toLowerCase.

Definition sample_env (t : Z) (i : string) : Env :=
  mkEnv t 0 (fun n => repeat x2a n) i.

Definition public_request (b : jsobj) : Request := mkRequest None "" b None.

Definition admin_request (token i : string) (b : jsobj) : Request :=
  mkRequest (Some ("Bearer " ++ token)%string) i b None.

Definition sample_admin : User.t :=
  User.mk "u-admin" "admin@chartbreaker.com" "hash:admin123" "System" "Administrator"
          "ADMIN" true None.

Definition seeded : Store := mkStore [sample_admin] [].

(** ** The status route of the registration router (src/routes/assessments.js, 736-763) *)

(** The columns a [select] keeps of a user row. *)
Module Selected.
Record t : Type := mk {
  id : string;
  firstName : string;
  lastName : string;
  email : string;
  role : string;
  isActive : bool
}.
End Selected.

(** The selection of the two PATCH routes of the user router. *)
Definition select_user (u : User.t) : Selected.t :=
  Selected.mk (User.id u) (User.firstName u) (User.lastName u) (User.email u)
              (User.role u) (User.isActive u).

(** Responses of the routes below: one of the bodies above, or one of
    their own. *)
Inductive ApiBody : Type :=
| Plain (b : Body)
| RegistrationState (status : RegistrationStatus) (requestedAt : Z)
                    (approvedAt : option Z) (adminNotes : option string)
| UserUpdated (message : string) (user : Selected.t).

Record ApiResponse : Type := mkApiResponse {
  api_statusCode : Z;
  api_json : ApiBody
}.

Definition plain (res : Response) : ApiResponse :=
  mkApiResponse (statusCode res) (Plain (json res)).

Definition ApiHandler : Type := Store -> Request -> Store * ApiResponse.

(** [router.use(mw)] / [router.patch(path, mw, handler)] for these
    handlers. *)
Fixpoint api_route (mws : list Middleware) (h : ApiHandler) : ApiHandler :=
  fun st req =>
    match mws with
    | [] => h st req
    | m :: mws' =>
        match m st req with
        | (req', None) => api_route mws' h st req'
        | (_, Some res) => (st, plain res)
        end
    end.

(* Get registration status; [email] is [req.params.email] *)
Definition registration_status (email : string) : ApiHandler :=
  fun st req =>
    match findRequest_email st email with
    | None =>
        (st, plain (mkResponse 404 (ErrorCode "Registration request not found"
                                              "REQUEST_NOT_FOUND")))
    | Some registrationRequest =>
        (st, mkApiResponse 200
               (RegistrationState (RR.status registrationRequest)
                                  (RR.requestedAt registrationRequest)
                                  (RR.approvedAt registrationRequest)
                                  (RR.adminNotes registrationRequest)))
    end.

(** ** The user router (src/routes/assessments.js, 926-1070) *)

(** [prisma.<model>.update] again, with the row it returns. *)
Definition prisma_update_row {A : Type} (p : A -> bool) (f : A -> A) (l : list A)
  : option (list A * A) :=
  match find p l with
  | Some x => Some (update_first p f l, f x)
  | None => None
  end.

(** A boolean column takes a boolean ([null] is refused, the column is not
    nullable). *)
Definition boolean_value (v : jsval) : option bool :=
  match v with
  | JBool b => Some b
  | _ => None
  end.

Definition boolean_arg : jsval -> option (Arg bool) := scalar_arg boolean_value.

Definition allRoles : list string :=
  ["ADMIN"; "INTAKE_STAFF"; "CLINICIAN"; "QA_REVIEWER"; "BILLER"].

(** Modelled from the spec: the Prisma schema is not under src/; the role
    column is the enumeration of the spec's data model (ADMIN, INTAKE_STAFF,
    CLINICIAN, QA_REVIEWER, BILLER), so a value outside it is refused by
    Prisma's argument validation. *)
Definition role_value (v : jsval) : option string :=
  match v with
  | JStr s => if includes allRoles s then Some s else None
  | _ => None
  end.

Definition role_arg : jsval -> option (Arg string) := scalar_arg role_value.

Definition set_active (a : Arg bool) (u : User.t) : User.t :=
  User.mk (User.id u) (User.email u) (User.passwordHash u) (User.firstName u)
          (User.lastName u) (User.role u) (apply_arg a (User.isActive u)) (User.lastLogin u).

Definition set_role (a : Arg string) (u : User.t) : User.t :=
  User.mk (User.id u) (User.email u) (User.passwordHash u) (User.firstName u)
          (User.lastName u) (apply_arg a (User.role u)) (User.isActive u) (User.lastLogin u).

(* Update user status (activate/deactivate); [userId] is [req.params.userId] *)
Definition update_user_status (userId : string) : ApiHandler :=
  fun st req =>
    let isActive := get_prop (body req) "isActive" in
    match boolean_arg isActive with
    | None => (st, plain internal_error)
    | Some a =>
        match prisma_update_row (user_by_id userId) (set_active a) (prisma_user st) with
        | None => (st, plain internal_error)
        | Some (users, u) =>
            (with_users st users,
             mkApiResponse 200
               (UserUpdated (if truthy isActive then "User activated successfully"
                             else "User deactivated successfully")
                            (select_user u)))
        end
    end.

(* Update user role *)
Definition update_user_role (userId : string) : ApiHandler :=
  fun st req =>
    let role := get_prop (body req) "role" in
    match role_arg role with
    | None => (st, plain internal_error)
    | Some a =>
        match prisma_update_row (user_by_id userId) (set_role a) (prisma_user st) with
        | None => (st, plain internal_error)
        | Some (users, u) =>
            (with_users st users,
             mkApiResponse 200 (UserUpdated "User role updated successfully" (select_user u)))
        end
    end.

(** The two routes behind [router.use(authenticateToken)] and
    [requireRole(['ADMIN'])]. *)
Definition user_status_route (P : Platform) (env : Env) (userId : string) : ApiHandler :=
  api_route [authenticateToken P env; requireRole ["ADMIN"]] (update_user_status userId).

Definition user_role_route (P : Platform) (env : Env) (userId : string) : ApiHandler :=
  api_route [authenticateToken P env; requireRole ["ADMIN"]] (update_user_role userId).

(** [Math.random()] lies in [0, 1). *)
Definition random_in_range (env : Env) : Prop :=
  0 <= Math_random env < 2 ^ 53.

(** What [j] right shifts leave of a mantissa [m0] in the rounding of
    [SpecFloat]: the quotient, the bit shifted out last ([shr_r]) and whether
    anything but zeros was shifted out before it ([shr_s]). *)
Definition shifted (m0 : Z) (j : nat) (mrs : shr_record) : Prop :=
  shr_m mrs = m0 / 2 ^ Z.of_nat j
  /\ exists t, 0 <= 2 * t < 2 ^ Z.of_nat j
               /\ 2 * (m0 mod 2 ^ Z.of_nat j)
                  = (if shr_r mrs then 2 ^ Z.of_nat j else 0) + 2 * t
               /\ (shr_s mrs = true <-> t <> 0).

(** The self-service roles are the only ones the request table holds. *)
Definition self_service_requests (st : Store) : Prop :=
  forall r, In r (prisma_userRegistrationRequest st) -> includes validRoles (RR.role r) = true.

(** No blank in a string. *)
Definition no_blank (s : string) : bool :=
  forallb (fun c => negb (Ascii.eqb c " ")) (list_ascii_of_string s).

(** ** Notions used by the statements *)

(** One decimal digit, as a constructor of [Decimal.uint]. *)
Definition digit (k : N) : Decimal.uint -> Decimal.uint :=
  match k with
  | 0%N => Decimal.D0 | 1%N => Decimal.D1 | 2%N => Decimal.D2 | 3%N => Decimal.D3
  | 4%N => Decimal.D4 | 5%N => Decimal.D5 | 6%N => Decimal.D6 | 7%N => Decimal.D7
  | 8%N => Decimal.D8 | _ => Decimal.D9
  end.

(** The six digits of a number below one million, most significant first. *)
Definition six_digits (n : N) : Decimal.uint :=
  digit (n / 100000) (digit ((n / 10000) mod 10) (digit ((n / 1000) mod 10)
    (digit ((n / 100) mod 10) (digit ((n / 10) mod 10) (digit (n mod 10) Decimal.Nil))))).

(** The caller of a request is a stored, active administrator: the token of
    the header verifies and its claims name such a user. *)
Definition acts_as_admin (P : Platform) (env : Env) (st : Store) (req : Request) : Prop :=
  exists token claims u,
    token_of (authorization req) = Some token
    /\ jwt_verify P token (now env) = JwtPayload claims
    /\ get_prop claims "userId" = JStr (User.id u)
    /\ find (user_by_id (User.id u)) (prisma_user st) = Some u
    /\ User.isActive u = true
    /\ User.role u = "ADMIN".

(** The calls of the API modelled here: the workflow, the login and the two
    routes of the user router. *)
Inductive ApiCall : Type :=
| Workflow (c : Call)
| Login (env : Env) (req : Request)
| UserStatus (env : Env) (userId : string) (req : Request)
| UserRole (env : Env) (userId : string) (req : Request).

Definition api_step (P : Platform) (st : Store) (a : ApiCall) : Store :=
  match a with
  | Workflow c => step P st c
  | Login env req => fst (login P env st req)
  | UserStatus env userId req => fst (user_status_route P env userId st req)
  | UserRole env userId req => fst (user_role_route P env userId st req)
  end.

Definition api_run (P : Platform) (st : Store) (l : list ApiCall) : Store :=
  fold_left (api_step P) l st.

(** The body of a /verify-email call. *)
Definition verify_body (email code : string) : jsobj :=
  [ ("email", JStr email); ("verificationCode", JStr code) ].

(** The body of a /complete-registration call. *)
Definition complete_body (email password token : string) : jsobj :=
  [ ("email", JStr email); ("password", JStr password); ("token", JStr token) ].

(** The body of a /login call. *)
Definition login_body (email password : string) : jsobj :=
  [ ("email", JStr email); ("password", JStr password) ].

Definition code_expired : Response :=
  mkResponse 400 (ErrorCode "Verification code has expired" "CODE_EXPIRED").

Definition completion_token_expired : Response :=
  mkResponse 400 (ErrorCode "Completion token has expired" "COMPLETION_TOKEN_EXPIRED").

Definition request_not_approved : Response :=
  mkResponse 400 (ErrorCode "Registration request is not approved" "REQUEST_NOT_APPROVED").

Definition missing_token : Response :=
  mkResponse 401 (ErrorCode "Access token required" "MISSING_TOKEN").

Definition account_deactivated : Response :=
  mkResponse 401 (ErrorCode "Account is deactivated" "ACCOUNT_DEACTIVATED").

Definition invalid_user : Response :=
  mkResponse 401 (ErrorCode "Invalid or inactive user" "INVALID_USER").

(** Why the authentication gate refuses a request. *)
Inductive AuthFailure : Type :=
| MissingToken
| TokenExpired
| InvalidToken
| InvalidUser.

(** The cause of a refusal in the words of the design (section 4.4): no
    token; the verifier reports expiry; any other verification failure
    (which includes claims that carry no usable user id); the user named by
    the claims is unknown or inactive. *)
Definition auth_failure (P : Platform) (env : Env) (st : Store) (req : Request)
  : option AuthFailure :=
  match token_of (authorization req) with
  | None => Some MissingToken
  | Some token =>
      if is_empty token then Some MissingToken
      else
        match jwt_verify P token (now env) with
        | JwtThrows name =>
            if (name =? "TokenExpiredError")%string then Some TokenExpired
            else Some InvalidToken
        | JwtPayload claims =>
            match get_prop claims "userId" with
            | JStr uid =>
                match find (user_by_id uid) (prisma_user st) with
                | Some u => if User.isActive u then None else Some InvalidUser
                | None => Some InvalidUser
                end
            | _ => Some InvalidToken
            end
        end
  end.

Definition auth_failure_response (f : AuthFailure) : Response :=
  match f with
  | MissingToken => mkResponse 401 (ErrorCode "Access token required" "MISSING_TOKEN")
  | TokenExpired => mkResponse 401 (ErrorCode "Token expired" "TOKEN_EXPIRED")
  | InvalidToken => mkResponse 403 (ErrorCode "Invalid token" "INVALID_TOKEN")
  | InvalidUser => mkResponse 401 (ErrorCode "Invalid or inactive user" "INVALID_USER")
  end.

Definition twelve_hours : Z := 12 * 60 * 60 * 1000.
Definition one_day : Z := 24 * 60 * 60 * 1000.

(** Every way a call of the workflow can change the store, with the guard
    that was passed on the way. *)
Inductive Effect (c : Call) (st : Store) : Store -> Prop :=
| E_none : Effect c st st
| E_reopen (email : string) (x0 : RR.t) (f : RR.t -> RR.t) :
    operation c = Request_ ->
    get_prop (body (call_req c)) "email" = JStr email ->
    findUser_email st email = None ->
    findRequest_email st email = Some x0 ->
    RR.status x0 <> PENDING ->
    (forall x, RR.id (f x) = RR.id x /\ RR.email (f x) = RR.email x
               /\ RR.status (f x) = PENDING) ->
    Effect c st (with_requests st (update_first (request_by_email email) f
                                     (prisma_userRegistrationRequest st)))
| E_create (email : string) (x : RR.t) :
    operation c = Request_ ->
    get_prop (body (call_req c)) "email" = JStr email ->
    findUser_email st email = None ->
    findRequest_email st email = None ->
    findRequest_id st (RR.id x) = None ->
    RR.email x = email ->
    RR.status x = PENDING ->
    Effect c st (with_requests st (prisma_userRegistrationRequest st ++ [x]))
| E_verify (email : string) (x0 : RR.t) :
    operation c = Verify ->
    findRequest_email st email = Some x0 ->
    RR.status x0 = PENDING ->
    Effect c st (with_requests st (update_first (request_by_email email) clear_code
                                     (prisma_userRegistrationRequest st)))
| E_decide (x0 : RR.t) (f : RR.t -> RR.t) :
    operation c = Approve \/ operation c = Reject ->
    findRequest_id st (requestId (call_req c)) = Some x0 ->
    RR.status x0 = PENDING ->
    (forall x, RR.id (f x) = RR.id x /\ RR.email (f x) = RR.email x
               /\ RR.status (f x) <> PENDING
               /\ RR.verificationCode (f x) = RR.verificationCode x) ->
    Effect c st (with_requests st (update_first (request_by_id (requestId (call_req c))) f
                                     (prisma_userRegistrationRequest st)))
| E_complete (email : string) (x0 : RR.t) (u : User.t) :
    operation c = Complete ->
    findUser_email st email = None ->
    findRequest_email st email = Some x0 ->
    RR.status x0 = APPROVED ->
    RR.completionToken x0 <> None ->
    User.email u = email ->
    find (user_by_id (User.id u)) (prisma_user st) = None ->
    Effect c st (mkStore (prisma_user st ++ [u])
                         (update_first (request_by_email email) consume_token
                            (prisma_userRegistrationRequest st))).

(** The unique constraints of the two tables.  On a store that satisfies
    them the first matching row is the only one, which is what the lookups
    and updates above rely on. *)
Definition unique_keys (st : Store) : Prop :=
  NoDup (map User.id (prisma_user st))
  /\ NoDup (map User.email (prisma_user st))
  /\ NoDup (map RR.id (prisma_userRegistrationRequest st))
  /\ NoDup (map RR.email (prisma_userRegistrationRequest st)).

(** A call that can re-open the request of [email]: a Request for that very
    address. *)
Definition reopens (email : string) (c : Call) : bool :=
  match operation c with
  | Request_ =>
      match get_prop (body (call_req c)) "email" with
      | JStr e => (e =? email)%string
      | _ => false
      end
  | _ => false
  end.

(** The state a successful Complete leaves behind for an address: the user
    exists and the request is APPROVED with no completion token. *)
Definition completed (e : string) (st : Store) : Prop :=
  (exists u, findUser_email st e = Some u)
  /\ exists r, findRequest_email st e = Some r
               /\ RR.status r = APPROVED
               /\ RR.completionToken r = None
               /\ RR.completionTokenExpires r = None.

(** The state a successful Verify leaves behind for an address: the request
    exists and, as long as it is PENDING, carries no verification code. *)
Definition verified (e : string) (st : Store) : Prop :=
  exists r, findRequest_email st e = Some r
            /\ (RR.status r = PENDING -> RR.verificationCode r = None).

Definition invalid_completion_token : Response :=
  mkResponse 400 (ErrorCode "Invalid or missing completion token" "INVALID_COMPLETION_TOKEN").

Definition invalid_code : Response :=
  mkResponse 400 (ErrorCode "Invalid verification code" "INVALID_CODE").

Definition request_not_pending : Response :=
  mkResponse 400 (ErrorCode "Registration request is not pending" "REQUEST_NOT_PENDING").

Definition request_pending : Response :=
  mkResponse 400 (ErrorCode "Registration request already pending" "REQUEST_PENDING").

Definition missing_reason : Response :=
  mkResponse 400 (ErrorCode "Rejection reason is required" "MISSING_REASON").

(** ** Sample scenarios *)

Definition admin_role_body : jsobj :=
  [ ("email", JStr "eve@x.com"); ("firstName", JStr "Eve"); ("lastName", JStr "Doe");
    ("role", JStr "ADMIN") ].

Definition retired_nurse : User.t :=
  User.mk "u-7" "nurse@chartbreaker.com" "hash:clinician123" "Sarah" "Johnson"
          "CLINICIAN" false None.

Definition ann_body : jsobj :=
  [ ("email", JStr "a@x.com"); ("firstName", JStr "Ann"); ("lastName", JStr "Lee");
    ("role", JStr "CLINICIAN") ].

(** The seeded store after Ann's request (id r1, made at time 1000). *)
Definition pending_store : Store :=
  fst (request_registration sample_platform (sample_env 1000 "r1") seeded
         (public_request ann_body)).

Definition ann_code : jsobj :=
  [ ("email", JStr "a@x.com"); ("verificationCode", JStr "100000") ].

Definition ann_completion : jsobj :=
  [ ("email", JStr "a@x.com"); ("password", JStr "secret123");
    ("token", JStr "2a2a2a2a2a2a2a2a2a2a2a2a2a2a2a2a2a2a2a2a2a2a2a2a") ].

(** Ann's request, verified at time 2000. *)
Definition verified_store : Store :=
  fst (verify_email sample_platform (sample_env 2000 "") pending_store
         (public_request ann_code)).

(** ... and approved by the seeded admin at time 3000. *)
Definition approved_store : Store :=
  fst (approve_route sample_platform (sample_env 3000 "") verified_store
         (admin_request "session:u-admin" "r1" [])).

Definition reject_body : jsobj := [ ("reason", JStr "incomplete info") ].

(** Ann's verified request, rejected by the seeded admin at time 3000. *)
Definition rejected_store : Store :=
  fst (reject_route sample_platform (sample_env 3000 "") verified_store
         (admin_request "session:u-admin" "r1" reject_body)).

(** The row of Ann's request in [rejected_store]. *)
Definition rejected_row : RR.t :=
  RR.mk "r1" "a@x.com" "Ann" "Lee" "CLINICIAN" REJECTED None None None None
        None (Some 3000) (Some "incomplete info") 1000.

Definition shadow_body : jsobj :=
  [ ("email", JStr "Admin@chartbreaker.com"); ("firstName", JStr "Eve");
    ("lastName", JStr "Doe"); ("role", JStr "BILLER") ].

Definition shadow_code : jsobj :=
  [ ("email", JStr "Admin@chartbreaker.com"); ("verificationCode", JStr "100000") ].

Definition shadow_completion : jsobj :=
  [ ("email", JStr "Admin@chartbreaker.com"); ("password", JStr "secret123");
    ("token", JStr "2a2a2a2a2a2a2a2a2a2a2a2a2a2a2a2a2a2a2a2a2a2a2a2a") ].

(** The whole workflow for an address that differs from the seeded admin's
    by the case of one letter. *)
Definition shadow_calls : list Call :=
  [ mkCall Request_ (sample_env 1000 "r1") (public_request shadow_body);
    mkCall Verify (sample_env 2000 "") (public_request shadow_code);
    mkCall Approve (sample_env 3000 "") (admin_request "session:u-admin" "r1" []);
    mkCall Complete (sample_env 4000 "u-2") (public_request shadow_completion) ].


Definition biller : User.t :=
  User.mk "u-5" "biller@chartbreaker.com" "hash:biller123" "Lisa" "Davis" "BILLER" true None.

(** A verifier whose tokens all claim the role ADMIN. *)
Definition admin_claims_verify (token : string) (t : Z) : JwtResult :=
  match sample_verify token t with
  | JwtPayload claims => JwtPayload (claims ++ [("role", JStr "ADMIN")])
  | JwtThrows name => JwtThrows name
  end.

Definition admin_claims_platform : Platform :=
  mkPlatform contains_at admin_claims_verify sample_sign
             (fun pw _ => ("hash:" ++ pw)%string)
             (fun pw h => (h =? "hash:" ++ pw)%string)
             true toLowerCase.

Definition changes_status (a : ApiCall) : bool :=
  match a with
  | UserStatus _ _ _ => true
  | _ => false
  end.

Definition deactivate_nurse : Request :=
  admin_request "session:u-admin" "" [("isActive", JBool false)].

Definition nurse : User.t :=
  User.mk "u-7" "nurse@chartbreaker.com" "hash:clinician123" "Sarah" "Johnson"
          "CLINICIAN" true None.

(** Everything of a user row but the last-login stamp. *)
Definition credentials (u : User.t) : string * string * string * string * string * string * bool :=
  (User.id u, User.email u, User.passwordHash u, User.firstName u, User.lastName u,
   User.role u, User.isActive u).

Definition demote_admin : Request :=
  admin_request "session:u-admin" "" [("role", JStr "BILLER")].

(** * Properties *)

(** ** The first matching row *)

Section FirstMatch.

Context {A : Type}.
Variables (p q : A -> bool) (f : A -> A).

Lemma update_first_absent (l : list A) :
  find p l = None -> update_first p f l = l.
Proof.
  induction l as [|x t IH]; simpl; [reflexivity|].
  destruct (p x); [discriminate|].
  intros H. now rewrite IH.
Qed.

Lemma find_update_first_same (l : list A) (x : A) :
  find p l = Some x -> p (f x) = true ->
  find p (update_first p f l) = Some (f x).
Proof.
  induction l as [|y t IH]; simpl; [discriminate|].
  destruct (p y) eqn:Hy.
  - intros [= ->] Hf. simpl. now rewrite Hf.
  - intros Hx Hf. simpl. rewrite Hy. now apply IH.
Qed.

(** A lookup by another key sees the row it saw before, or that row
    rewritten when it is the very row the update designates. *)
Lemma find_update_first (l : list A) (r x0 : A) :
  (forall x, q (f x) = q x) ->
  find q l = Some r -> find p l = Some x0 ->
  find q (update_first p f l) = Some r
  \/ (r = x0 /\ find q (update_first p f l) = Some (f r)).
Proof.
  intros Hq. induction l as [|y t IH]; simpl; [discriminate|].
  destruct (p y) eqn:Hp; destruct (q y) eqn:Hy; simpl; rewrite ?Hq, ?Hy.
  - intros [= ->] [= ->]. right. split; reflexivity.
  - intros Hr _. now left.
  - intros [= ->] _. now left.
  - exact IH.
Qed.

Lemma find_update_first_other (l : list A) (r x0 : A) :
  (forall x, q (f x) = q x) ->
  find q l = Some r -> find p l = Some x0 -> r <> x0 ->
  find q (update_first p f l) = Some r.
Proof.
  intros Hq Hr Hx Hne.
  destruct (find_update_first l r x0 Hq Hr Hx) as [H|[H _]]; [exact H|contradiction].
Qed.

Lemma find_update_first_miss (l : list A) :
  (forall x, q (f x) = q x) ->
  find q l = None -> find q (update_first p f l) = None.
Proof.
  intros Hq. induction l as [|y t IH]; simpl; [reflexivity|].
  destruct (q y) eqn:Hy; [discriminate|].
  intros H. destruct (p y); simpl; rewrite ?Hq, Hy; auto.
Qed.

Lemma find_app_some (l : list A) (x r : A) :
  find q l = Some r -> find q (l ++ [x]) = Some r.
Proof.
  induction l as [|y t IH]; simpl; [discriminate|].
  destruct (q y); auto.
Qed.

Lemma find_app_none (l : list A) (x : A) :
  find q l = None -> find q (l ++ [x]) = if q x then Some x else None.
Proof.
  induction l as [|y t IH]; simpl; [reflexivity|].
  destruct (q y); [discriminate|auto].
Qed.

Lemma existsb_find_none (l : list A) :
  existsb q l = false -> find q l = None.
Proof.
  induction l as [|y t IH]; simpl; [reflexivity|].
  destruct (q y); [discriminate|auto].
Qed.

Lemma find_holds (l : list A) (x : A) : find q l = Some x -> q x = true.
Proof. intros H. now apply find_some in H. Qed.

End FirstMatch.

Lemma prisma_update_found {A : Type} (p : A -> bool) (f : A -> A) (l : list A) (x : A) :
  find p l = Some x -> prisma_update p f l = Some (update_first p f l).
Proof. unfold prisma_update. now intros ->. Qed.

Lemma status_eqb_eq (a b : RegistrationStatus) : status_eqb a b = true <-> a = b.
Proof. destruct a, b; simpl; split; congruence. Qed.

Lemma status_eqb_neq (a b : RegistrationStatus) : status_eqb a b = false <-> a <> b.
Proof. destruct a, b; simpl; split; congruence. Qed.

(** ** What a successful validation says about the body *)

Section Validation.

Variable je : string -> bool.

Lemma validate_string_inr (sc : StringSchema) (v : jsval) (s : string) :
  validate_string je sc v = inr s ->
  v = JStr s
  /\ match rule_valid sc with
     | Some vs => includes vs s = true
     | None => s <> "" /\ check_rules je sc s = None
     end.
Proof.
  unfold validate_string.
  destruct v; try discriminate; destruct (rule_valid sc) as [vs|]; try discriminate.
  - destruct (includes vs s0) eqn:Hin; [|discriminate]. intros [= <-]. auto.
  - destruct (s0 =? "")%string eqn:He; [discriminate|].
    destruct (check_rules je sc s0) eqn:Hc; [discriminate|].
    intros [= <-]. apply String.eqb_neq in He. auto.
Qed.

Lemma validate_inr (keys : ObjectSchema) (o : jsobj) (value : list (string * string)) :
  validate je keys o = inr value -> validate_keys je keys o = inr value.
Proof.
  unfold validate. destruct (validate_keys je keys o); [discriminate|].
  destruct (find _ o) as [[k v]|]; [discriminate|]. congruence.
Qed.

Lemma validate_request_inr (o : jsobj) (value : list (string * string)) :
  validate je requestRegistrationSchema o = inr value ->
  exists email firstName lastName role,
    value = [("email", email); ("firstName", firstName);
             ("lastName", lastName); ("role", role)]
    /\ get_prop o "email" = JStr email /\ email <> ""
    /\ get_prop o "firstName" = JStr firstName /\ firstName <> ""
    /\ get_prop o "lastName" = JStr lastName /\ lastName <> ""
    /\ get_prop o "role" = JStr role /\ includes validRoles role = true.
Proof.
  intros H. apply validate_inr in H. revert H.
  unfold requestRegistrationSchema. cbn [validate_keys].
  destruct (validate_string je _ (get_prop o "email")) as [|email] eqn:H1; [discriminate|].
  destruct (validate_string je _ (get_prop o "firstName")) as [|firstName] eqn:H2; [discriminate|].
  destruct (validate_string je _ (get_prop o "lastName")) as [|lastName] eqn:H3; [discriminate|].
  destruct (validate_string je _ (get_prop o "role")) as [|role] eqn:H4; [discriminate|].
  intros [= <-].
  apply validate_string_inr in H1, H2, H3, H4. cbn in H1, H2, H3, H4.
  exists email, firstName, lastName, role. intuition.
Qed.

Lemma validate_verify_inr (o : jsobj) (value : list (string * string)) :
  validate je verifyEmailSchema o = inr value ->
  exists email code,
    value = [("email", email); ("verificationCode", code)]
    /\ get_prop o "email" = JStr email /\ email <> ""
    /\ get_prop o "verificationCode" = JStr code /\ code <> "".
Proof.
  intros H. apply validate_inr in H. revert H.
  unfold verifyEmailSchema. cbn [validate_keys].
  destruct (validate_string je _ (get_prop o "email")) as [|email] eqn:H1; [discriminate|].
  destruct (validate_string je _ (get_prop o "verificationCode")) as [|code] eqn:H2; [discriminate|].
  intros [= <-].
  apply validate_string_inr in H1, H2. cbn in H1, H2.
  exists email, code. intuition.
Qed.

Lemma validate_complete_inr (o : jsobj) (value : list (string * string)) :
  validate je completeRegistrationSchema o = inr value ->
  exists email password token,
    value = [("email", email); ("password", password); ("token", token)]
    /\ get_prop o "email" = JStr email /\ email <> ""
    /\ get_prop o "password" = JStr password /\ password <> ""
    /\ get_prop o "token" = JStr token /\ token <> "".
Proof.
  intros H. apply validate_inr in H. revert H.
  unfold completeRegistrationSchema. cbn [validate_keys].
  destruct (validate_string je _ (get_prop o "email")) as [|email] eqn:H1; [discriminate|].
  destruct (validate_string je _ (get_prop o "password")) as [|password] eqn:H2; [discriminate|].
  destruct (validate_string je _ (get_prop o "token")) as [|token] eqn:H3; [discriminate|].
  intros [= <-].
  apply validate_string_inr in H1, H2, H3. cbn in H1, H2, H3.
  exists email, password, token. intuition.
Qed.

(** [.valid(...)] of the request schema leaves no way in for another role. *)
Lemma validate_request_role (o : jsobj) (role : string) :
  get_prop o "role" = JStr role -> includes validRoles role = false ->
  exists e, validate je requestRegistrationSchema o = inl e.
Proof.
  intros Hrole Hout.
  destruct (validate je requestRegistrationSchema o) as [e|value] eqn:Hv; [now exists e|].
  apply validate_request_inr in Hv.
  destruct Hv as (email & firstName & lastName & role' & _ & _ & _ & _ & _ & _ & _ & Hr & Hin).
  rewrite Hrole in Hr. injection Hr as <-. congruence.
Qed.

End Validation.

(** ** The privilege-escalation guard of the Request step *)

(** C1: whatever the store and the other fields of the body, a
    /request-registration call whose [role] is ADMIN is answered with the
    400 validation error and leaves the store as it was: no registration
    request is created or updated. *)
Theorem request_for_admin_role_rejected
    (P : Platform) (env : Env) (st : Store) (req : Request) :
  get_prop (body req) "role" = JStr "ADMIN" ->
  exists details,
    request_registration P env st req = (st, mkResponse 400 (ValidationError details)).
Proof.
  intros Hrole. unfold request_registration.
  destruct (validate_request_role (joi_email P) (body req) "ADMIN" Hrole eq_refl)
    as [e ->].
  now exists e.
Qed.

Lemma request_for_admin_role_rejected_witness :
  get_prop (body (public_request admin_role_body)) "role" = JStr "ADMIN"
  /\ exists details,
       request_registration sample_platform (sample_env 1000 "r1") seeded
                            (public_request admin_role_body)
       = (seeded, mkResponse 400 (ValidationError details)).
Proof.
  split; [reflexivity|].
  apply request_for_admin_role_rejected. reflexivity.
Defined.

(** ** The authentication gate *)

Lemma append_snoc (a : string) (c : ascii) (b : string) :
  ((a ++ String c "") ++ b)%string = (a ++ String c b)%string.
Proof. induction a as [|x a IH]; cbn; [reflexivity|now rewrite IH]. Qed.

Lemma split_from_whole (sep : ascii) (s cur : string) :
  forallb (fun c => negb (Ascii.eqb c sep)) (list_ascii_of_string s) = true ->
  split_from sep cur s = [(cur ++ s)%string].
Proof.
  revert cur. induction s as [|c t IH]; intros cur; cbn [split_from list_ascii_of_string forallb].
  - intros _. f_equal. induction cur as [|x a IHa]; cbn; [reflexivity|now f_equal].
  - intros H. apply andb_true_iff in H. destruct H as [Hc Ht].
    apply negb_true_iff in Hc. rewrite Hc, (IH _ Ht). now rewrite append_snoc.
Qed.

(** The usual header: [Bearer <token>], the token having no blank. *)
Lemma token_of_bearer (token : string) :
  forallb (fun c => negb (Ascii.eqb c " ")) (list_ascii_of_string token) = true ->
  token_of (Some ("Bearer " ++ token)%string) = Some token.
Proof.
  intros H. unfold token_of, split. cbn. now rewrite (split_from_whole " " token "" H).
Qed.

(** C2: a request whose header carries a token that verifies (valid
    signature, not expired) and whose claims name a stored user with
    [isActive = false] is answered 401 INVALID_USER; the request object is
    left as it was (no [req.user]) and a route behind the gate does not run
    its handler. *)
Theorem deactivated_user_rejected
    (P : Platform) (env : Env) (st : Store) (req : Request)
    (token uid : string) (claims : jsobj) (u : User.t) :
  token_of (authorization req) = Some token ->
  token <> "" ->
  jwt_verify P token (now env) = JwtPayload claims ->
  get_prop claims "userId" = JStr uid ->
  find (user_by_id uid) (prisma_user st) = Some u ->
  User.isActive u = false ->
  let res := mkResponse 401 (ErrorCode "Invalid or inactive user" "INVALID_USER") in
  authenticateToken P env st req = (req, Some res)
  /\ forall mws h, route (authenticateToken P env :: mws) h st req = (st, res).
Proof.
  intros Htok Hne Hver Hid Hfind Hoff res.
  assert (Hgate : authenticateToken P env st req = (req, Some res)).
  { unfold authenticateToken. rewrite Htok.
    apply String.eqb_neq in Hne. rewrite Hne, Hver, Hid. cbn [findUser_id].
    rewrite Hfind, Hoff. reflexivity. }
  split; [exact Hgate|].
  intros mws h. cbn [route]. now rewrite Hgate.
Qed.

Lemma deactivated_user_rejected_witness :
  let st := mkStore [sample_admin; retired_nurse] [] in
  let req := admin_request "session:u-7" "r1" [] in
  let res := mkResponse 401 (ErrorCode "Invalid or inactive user" "INVALID_USER") in
  authenticateToken sample_platform (sample_env 1000 "") st req = (req, Some res)
  /\ forall mws h,
       route (authenticateToken sample_platform (sample_env 1000 "") :: mws) h st req
       = (st, res).
Proof.
  apply (deactivated_user_rejected sample_platform (sample_env 1000 "")
           (mkStore [sample_admin; retired_nurse] [])
           (admin_request "session:u-7" "r1" [])
           "session:u-7" "u-7" [("userId", JStr "u-7")] retired_nurse);
    solve [reflexivity | discriminate].
Defined.

(** C3 (as stated) fails: a token with a bad signature is refused by the
    authentication gate with status 403, not 401. *)
Lemma invalid_signature_is_403 :
  let req := admin_request "forged" "r1" [] in
  sample_verify "forged" 1000 = JwtThrows "JsonWebTokenError"
  /\ authenticateToken sample_platform (sample_env 1000 "") seeded req
     = (req, Some (mkResponse 403 (ErrorCode "Invalid token" "INVALID_TOKEN")))
  /\ ~ (forall (P : Platform) (env : Env) (st : Store) (r r' : Request) (res : Response),
          authenticateToken P env st r = (r', Some res) -> statusCode res = 401).
Proof.
  split; [reflexivity|]. split; [reflexivity|].
  intros H.
  specialize (H sample_platform (sample_env 1000 "") seeded
                (admin_request "forged" "r1" []) _ _ eq_refl).
  discriminate H.
Qed.

(** C3 (amended): the authentication gate refuses, with status 401, a
    request without a token (MISSING_TOKEN), with an expired token
    (TOKEN_EXPIRED) and with a token that names an unknown or inactive user
    (INVALID_USER), and, with status 403 INVALID_TOKEN, a request whose token
    fails verification in any other way (an invalid signature, claims
    without a user id); it refuses for no other reason.  The authorization
    gate refuses with 401 AUTH_REQUIRED when no user is attached and with
    403 INSUFFICIENT_PERMISSIONS when the user's role is not in the allowed
    set, and for no other reason.  A gate that refuses answers the request
    itself: the handler behind it is not called and nothing is written. *)
Theorem gate_status_codes (P : Platform) (env : Env) (st : Store) (req : Request) :
  (token_of (authorization req) = None \/ token_of (authorization req) = Some "" ->
   authenticateToken P env st req = (req, Some missing_token))
  /\ (forall token name,
        token_of (authorization req) = Some token -> token <> "" ->
        jwt_verify P token (now env) = JwtThrows name ->
        authenticateToken P env st req
        = (req, Some (if (name =? "TokenExpiredError")%string
                      then mkResponse 401 (ErrorCode "Token expired" "TOKEN_EXPIRED")
                      else mkResponse 403 (ErrorCode "Invalid token" "INVALID_TOKEN"))))
  /\ (forall token claims,
        token_of (authorization req) = Some token -> token <> "" ->
        jwt_verify P token (now env) = JwtPayload claims ->
        (forall uid, get_prop claims "userId" <> JStr uid) ->
        authenticateToken P env st req
        = (req, Some (mkResponse 403 (ErrorCode "Invalid token" "INVALID_TOKEN"))))
  /\ (forall token claims uid,
        token_of (authorization req) = Some token -> token <> "" ->
        jwt_verify P token (now env) = JwtPayload claims ->
        get_prop claims "userId" = JStr uid ->
        (forall u, find (user_by_id uid) (prisma_user st) = Some u ->
                   User.isActive u = false) ->
        authenticateToken P env st req = (req, Some invalid_user))
  /\ (forall req' res,
        authenticateToken P env st req = (req', Some res) ->
        exists f, auth_failure P env st req = Some f
                  /\ res = auth_failure_response f
                  /\ statusCode res = (match f with InvalidToken => 403 | _ => 401 end))
  /\ (forall roles,
        user req = None ->
        requireRole roles st req
        = (req, Some (mkResponse 401 (ErrorCode "Authentication required" "AUTH_REQUIRED"))))
  /\ (forall roles u,
        user req = Some u -> includes roles (User.role u) = false ->
        requireRole roles st req
        = (req, Some (mkResponse 403 (InsufficientPermissions roles (User.role u)))))
  /\ (forall roles req' res,
        requireRole roles st req = (req', Some res) ->
        (user req = None /\ res = mkResponse 401 (ErrorCode "Authentication required" "AUTH_REQUIRED"))
        \/ (exists u, user req = Some u
                      /\ includes roles (User.role u) = false
                      /\ res = mkResponse 403 (InsufficientPermissions roles (User.role u))))
  /\ (forall roles (h : Handler) req1 res,
        authenticateToken P env st req = (req1, Some res)
        \/ (exists req2, authenticateToken P env st req = (req1, None)
                         /\ requireRole roles st req1 = (req2, Some res)) ->
        route [authenticateToken P env; requireRole roles] h st req = (st, res)).
Proof.
  repeat apply conj.
  - unfold authenticateToken, missing_token. intros [-> | ->]; reflexivity.
  - intros token name Ht Hne Hv. unfold authenticateToken.
    rewrite Ht. apply String.eqb_neq in Hne. rewrite Hne, Hv.
    destruct (name =? "TokenExpiredError")%string; reflexivity.
  - intros token claims Ht Hne Hv Hid. unfold authenticateToken.
    rewrite Ht. apply String.eqb_neq in Hne. rewrite Hne, Hv.
    destruct (get_prop claims "userId") as [| |b|n|uid|l|o]; cbn [findUser_id];
      try reflexivity.
    now destruct (Hid uid).
  - intros token claims uid Ht Hne Hv Hid Hu. unfold authenticateToken, invalid_user.
    rewrite Ht. apply String.eqb_neq in Hne. rewrite Hne, Hv, Hid. cbn [findUser_id].
    destruct (find (user_by_id uid) (prisma_user st)) as [u|]; [|reflexivity].
    now rewrite (Hu u eq_refl).
  - intros req' res. unfold authenticateToken, auth_failure, is_empty.
    destruct (token_of (authorization req)) as [token|].
    2:{ intros [= _ <-]. now exists MissingToken. }
    destruct (token =? "")%string.
    { intros [= _ <-]. now exists MissingToken. }
    destruct (jwt_verify P token (now env)) as [claims|name].
    2:{ destruct (name =? "TokenExpiredError")%string; intros [= _ <-];
        [now exists TokenExpired | now exists InvalidToken]. }
    destruct (get_prop claims "userId") as [| |b|n|uid|l|o]; cbn [findUser_id];
      try (intros [= _ <-]; now exists InvalidToken).
    destruct (find (user_by_id uid) (prisma_user st)) as [u|].
    2:{ intros [= _ <-]. now exists InvalidUser. }
    destruct (User.isActive u); cbn [negb]; [discriminate|].
    intros [= _ <-]. now exists InvalidUser.
  - intros roles Hu. unfold requireRole. now rewrite Hu.
  - intros roles u Hu Hin. unfold requireRole. now rewrite Hu, Hin.
  - intros roles req' res. unfold requireRole.
    destruct (user req) as [u|].
    2:{ intros [= _ <-]. now left. }
    destruct (includes roles (User.role u)) eqn:Hin; cbn [negb]; [discriminate|].
    intros [= _ <-]. right. now exists u.
  - intros roles h req1 res [Ha | (req2 & Ha & Hr)]; cbn [route]; rewrite Ha;
      [reflexivity|]. now rewrite Hr.
Qed.

Lemma gate_status_codes_witness :
  authenticateToken sample_platform (sample_env 1000 "") seeded (public_request [])
  = (public_request [], Some missing_token)
  /\ authenticateToken sample_platform (sample_env 1000 "") seeded
                       (admin_request "stale" "r1" [])
     = (admin_request "stale" "r1" [],
        Some (mkResponse 401 (ErrorCode "Token expired" "TOKEN_EXPIRED")))
  /\ authenticateToken sample_platform (sample_env 1000 "") seeded
                       (admin_request "forged" "r1" [])
     = (admin_request "forged" "r1" [],
        Some (mkResponse 403 (ErrorCode "Invalid token" "INVALID_TOKEN")))
  /\ authenticateToken sample_platform (sample_env 1000 "") seeded
                       (admin_request "session:u-9" "r1" [])
     = (admin_request "session:u-9" "r1" [], Some invalid_user)
  /\ requireRole ["ADMIN"] seeded (public_request [])
     = (public_request [],
        Some (mkResponse 401 (ErrorCode "Authentication required" "AUTH_REQUIRED")))
  /\ requireRole ["ADMIN"] seeded (set_user (public_request []) biller)
     = (set_user (public_request []) biller,
        Some (mkResponse 403 (InsufficientPermissions ["ADMIN"] "BILLER"))).
Proof.
  repeat apply conj.
  - apply (gate_status_codes sample_platform (sample_env 1000 "") seeded (public_request [])).
    left. reflexivity.
  - apply (proj1 (proj2 (gate_status_codes sample_platform (sample_env 1000 "") seeded
                           (admin_request "stale" "r1" [])))
             "stale" "TokenExpiredError"); [reflexivity|discriminate|reflexivity].
  - apply (proj1 (proj2 (gate_status_codes sample_platform (sample_env 1000 "") seeded
                           (admin_request "forged" "r1" [])))
             "forged" "JsonWebTokenError"); [reflexivity|discriminate|reflexivity].
  - apply (proj1 (proj2 (proj2 (proj2
             (gate_status_codes sample_platform (sample_env 1000 "") seeded
                (admin_request "session:u-9" "r1" [])))))
             "session:u-9" [("userId", JStr "u-9")] "u-9");
      [reflexivity|discriminate|reflexivity|reflexivity|].
    intros u. cbn. discriminate.
  - apply (proj1 (proj2 (proj2 (proj2 (proj2 (proj2
             (gate_status_codes sample_platform (sample_env 1000 "") seeded
                (public_request []))))))) ["ADMIN"]).
    reflexivity.
  - apply (proj1 (proj2 (proj2 (proj2 (proj2 (proj2 (proj2
             (gate_status_codes sample_platform (sample_env 1000 "") seeded
                (set_user (public_request []) biller)))))))) ["ADMIN"] biller);
      reflexivity.
Defined.

(** ** What each handler can do to the store *)

Lemma authenticateToken_next (P : Platform) (env : Env) (st : Store) (req req' : Request) :
  authenticateToken P env st req = (req', None) ->
  exists token claims u,
    token_of (authorization req) = Some token
    /\ jwt_verify P token (now env) = JwtPayload claims
    /\ get_prop claims "userId" = JStr (User.id u)
    /\ find (user_by_id (User.id u)) (prisma_user st) = Some u
    /\ User.isActive u = true
    /\ req' = set_user req u.
Proof.
  unfold authenticateToken.
  destruct (token_of (authorization req)) as [token|]; [|discriminate].
  destruct (token =? "")%string; [discriminate|].
  destruct (jwt_verify P token (now env)) as [claims|name] eqn:Hver.
  2:{ destruct (name =? "TokenExpiredError")%string; discriminate. }
  destruct (get_prop claims "userId") as [| |b|n|uid|l|o] eqn:Hid; cbn [findUser_id];
    try discriminate.
  destruct (find (user_by_id uid) (prisma_user st)) as [u|] eqn:Hu; [|discriminate].
  destruct (User.isActive u) eqn:Hact; cbn [negb]; [|discriminate].
  intros [= <-].
  assert (Huid : User.id u = uid).
  { apply find_holds in Hu. unfold user_by_id in Hu. now apply String.eqb_eq in Hu. }
  exists token, claims, u. rewrite Huid.
  repeat split; try assumption; try reflexivity.
Qed.

Lemma authenticateToken_refusal (P : Platform) (env : Env) (st : Store)
    (req req' : Request) (res : Response) :
  authenticateToken P env st req = (req', Some res) ->
  statusCode res = 401 \/ statusCode res = 403.
Proof.
  unfold authenticateToken.
  destruct (token_of (authorization req)) as [token|]; [|intros [= _ <-]; now left].
  destruct (token =? "")%string; [intros [= _ <-]; now left|].
  destruct (jwt_verify P token (now env)) as [claims|name].
  2:{ destruct (name =? "TokenExpiredError")%string; intros [= _ <-]; auto. }
  destruct (findUser_id st (get_prop claims "userId")) as [[u|]|];
    [|intros [= _ <-]; now left|intros [= _ <-]; now right].
  destruct (User.isActive u); cbn [negb]; [discriminate|].
  intros [= _ <-]. now left.
Qed.

Lemma requireRole_refusal (roles : list string) (st : Store)
    (req req' : Request) (res : Response) :
  requireRole roles st req = (req', Some res) ->
  statusCode res = 401 \/ statusCode res = 403.
Proof.
  unfold requireRole. destruct (user req) as [u|]; [|intros [= _ <-]; now left].
  destruct (includes roles (User.role u)); cbn [negb]; [discriminate|].
  intros [= _ <-]. now right.
Qed.

Lemma requireRole_next (roles : list string) (st : Store) (req req' : Request) :
  requireRole roles st req = (req', None) ->
  req' = req /\ exists u, user req = Some u /\ includes roles (User.role u) = true.
Proof.
  unfold requireRole. destruct (user req) as [u|]; [|discriminate].
  destruct (includes roles (User.role u)) eqn:Hin; cbn [negb]; [|discriminate].
  intros [= <-]. split; [reflexivity|]. now exists u.
Qed.

(** A route behind the two gates either is refused by a gate, store
    untouched, or runs its handler on behalf of a stored, active user whose
    role is allowed. *)
Lemma gated_route_inv (P : Platform) (env : Env) (roles : list string) (h : Handler)
    (st st' : Store) (req : Request) (res : Response) :
  route [authenticateToken P env; requireRole roles] h st req = (st', res) ->
  (st' = st /\ (statusCode res = 401 \/ statusCode res = 403))
  \/ (exists u, find (user_by_id (User.id u)) (prisma_user st) = Some u
                /\ User.isActive u = true
                /\ includes roles (User.role u) = true
                /\ h st (set_user req u) = (st', res)).
Proof.
  cbn [route].
  destruct (authenticateToken P env st req) as [req1 [res1|]] eqn:Hauth.
  { intros [= <- <-]. left. split; [reflexivity|].
    eapply authenticateToken_refusal; eassumption. }
  apply authenticateToken_next in Hauth.
  destruct Hauth as (token & claims & u & _ & _ & _ & Hu & Hact & ->).
  destruct (requireRole roles st (set_user req u)) as [req2 [res2|]] eqn:Hrole.
  { intros [= <- <-]. left. split; [reflexivity|].
    eapply requireRole_refusal; eassumption. }
  apply requireRole_next in Hrole. destruct Hrole as (-> & u' & Hu' & Hin).
  cbn in Hu'. injection Hu' as <-.
  intros H. right. exists u. auto.
Qed.

(** The column [approvedBy] is written from [req.user.userId]; the row that
    [authenticateToken] attaches has no such property. *)
Lemma approver_argument (admin : User.t) :
  nullable_string (User.prop admin "userId") = Some Keep.
Proof. reflexivity. Qed.

Lemma request_registration_inv (P : Platform) (env : Env) (st st' : Store)
    (req : Request) (res : Response) :
  request_registration P env st req = (st', res) ->
  (st' = st /\ statusCode res <> 200)
  \/ (exists email firstName lastName role l r,
        get_prop (body req) "email" = JStr email
        /\ get_prop (body req) "role" = JStr role
        /\ includes validRoles role = true
        /\ findUser_email st email = None
        /\ (forall x, findRequest_email st email = Some x -> RR.status x <> PENDING)
        /\ upsertRequest env email firstName lastName role (generateVerificationCode env)
                         (now env + one_day) (prisma_userRegistrationRequest st) = Some (l, r)
        /\ st' = with_requests st l
        /\ res = mkResponse 200 (RequestSubmitted (RR.id r))
        /\ validate (joi_email P) requestRegistrationSchema (body req)
           = inr [("email", email); ("firstName", firstName);
                  ("lastName", lastName); ("role", role)]).
Proof.
  unfold request_registration.
  destruct (validate (joi_email P) requestRegistrationSchema (body req)) as [e|value] eqn:Hv.
  { intros [= <- <-]. left. split; [reflexivity|discriminate]. }
  destruct (validate_request_inr _ _ _ Hv)
    as (email & firstName & lastName & role & -> & He & _ & _ & _ & _ & _ & Hr & Hin).
  cbn [field String.eqb Ascii.eqb Bool.eqb].
  destruct (is_empty email || is_empty firstName || is_empty lastName || is_empty role).
  { intros [= <- <-]. left. split; [reflexivity|discriminate]. }
  rewrite Hin. cbn [negb].
  destruct (findUser_email st email) eqn:Hu.
  { intros [= <- <-]. left. split; [reflexivity|discriminate]. }
  destruct (match findRequest_email st email with
            | Some existingRequest => status_eqb (RR.status existingRequest) PENDING
            | None => false end) eqn:Hpend.
  { intros [= <- <-]. left. split; [reflexivity|discriminate]. }
  fold one_day.
  destruct (upsertRequest env email firstName lastName role (generateVerificationCode env)
              (now env + one_day) (prisma_userRegistrationRequest st)) as [[l r]|] eqn:Hup.
  2:{ intros [= <- <-]. left. split; [reflexivity|discriminate]. }
  cbn [sendVerificationEmail negb]. intros [= <- <-]. right.
  exists email, firstName, lastName, role, l, r.
  repeat split; try assumption; try reflexivity.
  intros x Hx. rewrite Hx in Hpend. now apply status_eqb_neq.
Qed.

Lemma verify_email_inv (P : Platform) (env : Env) (st st' : Store)
    (req : Request) (res : Response) :
  verify_email P env st req = (st', res) ->
  (st' = st /\ statusCode res <> 200)
  \/ (exists email code r,
        get_prop (body req) "email" = JStr email
        /\ get_prop (body req) "verificationCode" = JStr code
        /\ findRequest_email st email = Some r
        /\ RR.status r = PENDING
        /\ RR.verificationCode r = Some code
        /\ date_after (now env) (RR.verificationExpires r) = false
        /\ st' = with_requests st (update_first (request_by_email email) clear_code
                                     (prisma_userRegistrationRequest st))
        /\ res = mkResponse 200 (EmailVerified "VERIFIED_PENDING_APPROVAL")
        /\ validate (joi_email P) verifyEmailSchema (body req)
           = inr [("email", email); ("verificationCode", code)]).
Proof.
  unfold verify_email.
  destruct (validate (joi_email P) verifyEmailSchema (body req)) as [e|value] eqn:Hv.
  { intros [= <- <-]. left. split; [reflexivity|discriminate]. }
  destruct (validate_verify_inr _ _ _ Hv) as (email & code & -> & He & _ & Hc & _).
  cbn [field String.eqb Ascii.eqb Bool.eqb].
  destruct (is_empty email || is_empty code).
  { intros [= <- <-]. left. split; [reflexivity|discriminate]. }
  destruct (findRequest_email st email) as [r|] eqn:Hr.
  2:{ intros [= <- <-]. left. split; [reflexivity|discriminate]. }
  destruct (status_eqb (RR.status r) PENDING) eqn:Hst; cbn [negb].
  2:{ intros [= <- <-]. left. split; [reflexivity|discriminate]. }
  destruct (differs (RR.verificationCode r) code) eqn:Hd.
  { intros [= <- <-]. left. split; [reflexivity|discriminate]. }
  destruct (date_after (now env) (RR.verificationExpires r)) eqn:Hexp.
  { intros [= <- <-]. left. split; [reflexivity|discriminate]. }
  unfold findRequest_email in Hr. rewrite (prisma_update_found _ _ _ _ Hr).
  intros [= <- <-]. right. exists email, code, r.
  repeat split; try assumption; try reflexivity.
  - now apply status_eqb_eq.
  - unfold differs in Hd. destruct (RR.verificationCode r) as [s|]; [|discriminate].
    apply negb_false_iff, String.eqb_eq in Hd. now subst.
Qed.

Lemma complete_registration_inv (P : Platform) (env : Env) (st st' : Store)
    (req : Request) (res : Response) :
  complete_registration P env st req = (st', res) ->
  (st' = st /\ statusCode res <> 200)
  \/ (exists email password token r u,
        get_prop (body req) "email" = JStr email
        /\ get_prop (body req) "password" = JStr password
        /\ get_prop (body req) "token" = JStr token
        /\ findRequest_email st email = Some r
        /\ RR.status r = APPROVED
        /\ RR.completionToken r = Some token
        /\ token_expired (now env) (RR.completionTokenExpires r) = false
        /\ findUser_email st email = None
        /\ u = User.mk (generated_id env) email (bcrypt_hash P password 12)
                       (RR.firstName r) (RR.lastName r) (RR.role r) true None
        /\ st' = mkStore (prisma_user st ++ [u])
                         (update_first (request_by_email email) consume_token
                            (prisma_userRegistrationRequest st))
        /\ res = mkResponse 200
                   (Authenticated "Registration completed successfully"
                      (jwt_sign P (session_claims u) (now env)) u)
        /\ validate (joi_email P) completeRegistrationSchema (body req)
           = inr [("email", email); ("password", password); ("token", token)]
        /\ find (user_by_id (generated_id env)) (prisma_user st) = None).
Proof.
  unfold complete_registration.
  destruct (validate (joi_email P) completeRegistrationSchema (body req)) as [e|value] eqn:Hv.
  { intros [= <- <-]. left. split; [reflexivity|discriminate]. }
  destruct (validate_complete_inr _ _ _ Hv)
    as (email & password & token & -> & He & _ & Hp & _ & Ht & _).
  cbn [field String.eqb Ascii.eqb Bool.eqb].
  destruct (is_empty email || is_empty password || is_empty token).
  { intros [= <- <-]. left. split; [reflexivity|discriminate]. }
  destruct (findRequest_email st email) as [r|] eqn:Hr.
  2:{ intros [= <- <-]. left. split; [reflexivity|discriminate]. }
  destruct (status_eqb (RR.status r) APPROVED) eqn:Hst; cbn [negb].
  2:{ intros [= <- <-]. left. split; [reflexivity|discriminate]. }
  destruct (token_mismatch (RR.completionToken r) token) eqn:Hm.
  { intros [= <- <-]. left. split; [reflexivity|discriminate]. }
  destruct (token_expired (now env) (RR.completionTokenExpires r)) eqn:Hexp.
  { intros [= <- <-]. left. split; [reflexivity|discriminate]. }
  destruct (findUser_email st email) eqn:Hu.
  { intros [= <- <-]. left. split; [reflexivity|discriminate]. }
  unfold createUser. cbn [User.id User.email].
  destruct (existsb (user_by_id (generated_id env)) (prisma_user st)) eqn:Hfresh;
    cbn [orb].
  { intros [= <- <-]. left. split; [reflexivity|discriminate]. }
  destruct (existsb (user_by_email email) (prisma_user st)).
  { intros [= <- <-]. left. split; [reflexivity|discriminate]. }
  cbn [with_users prisma_userRegistrationRequest prisma_user].
  unfold findRequest_email in Hr. rewrite (prisma_update_found _ _ _ _ Hr).
  cbn [with_requests prisma_user].
  intros [= <- <-]. right.
  eexists email, password, token, r, _.
  repeat split; try assumption; try reflexivity.
  - now apply status_eqb_eq.
  - unfold token_mismatch in Hm. destruct (RR.completionToken r) as [t|]; [|discriminate].
    apply orb_false_iff in Hm. destruct Hm as [_ Hm].
    apply negb_false_iff, String.eqb_eq in Hm. now subst.
  - now apply existsb_find_none.
Qed.

Lemma approve_registration_inv (P : Platform) (env : Env) (st st' : Store)
    (req : Request) (res : Response) :
  approve_registration P env st req = (st', res) ->
  (st' = st /\ statusCode res <> 200)
  \/ (exists r admin notes,
        findRequest_id st (requestId req) = Some r
        /\ RR.status r = PENDING
        /\ user req = Some admin
        /\ nullable_string (get_prop (body req) "adminNotes") = Some notes
        /\ st' = with_requests st
                   (update_first (request_by_id (requestId req))
                      (approve_data (now env) Keep notes
                                    (to_hex (randomBytes env 24)) (now env + twelve_hours))
                      (prisma_userRegistrationRequest st))
        /\ res = mkResponse 200 (Message "Registration request approved successfully")).
Proof.
  unfold approve_registration.
  destruct (findRequest_id st (requestId req)) as [r|] eqn:Hr.
  2:{ intros [= <- <-]. left. split; [reflexivity|discriminate]. }
  destruct (status_eqb (RR.status r) PENDING) eqn:Hst; cbn [negb].
  2:{ intros [= <- <-]. left. split; [reflexivity|discriminate]. }
  destruct (user req) as [admin|].
  2:{ intros [= <- <-]. left. split; [reflexivity|discriminate]. }
  rewrite approver_argument.
  destruct (nullable_string (get_prop (body req) "adminNotes")) as [notes|].
  2:{ intros [= <- <-]. left. split; [reflexivity|discriminate]. }
  unfold findRequest_id in Hr. rewrite (prisma_update_found _ _ _ _ Hr).
  intros [= <- <-]. right. exists r, admin, notes.
  repeat split; try assumption; try reflexivity.
  now apply status_eqb_eq.
Qed.

Lemma reject_registration_inv (P : Platform) (env : Env) (st st' : Store)
    (req : Request) (res : Response) :
  reject_registration P env st req = (st', res) ->
  (st' = st /\ statusCode res <> 200)
  \/ (exists r admin notes,
        truthy (get_prop (body req) "reason") = true
        /\ findRequest_id st (requestId req) = Some r
        /\ RR.status r = PENDING
        /\ user req = Some admin
        /\ nullable_string (js_or (get_prop (body req) "adminNotes")
                                  (get_prop (body req) "reason")) = Some notes
        /\ st' = with_requests st
                   (update_first (request_by_id (requestId req))
                      (reject_data (now env) Keep notes)
                      (prisma_userRegistrationRequest st))
        /\ res = mkResponse 200 (Message "Registration request rejected successfully")).
Proof.
  unfold reject_registration.
  destruct (truthy (get_prop (body req) "reason")) eqn:Hreason; cbn [negb].
  2:{ intros [= <- <-]. left. split; [reflexivity|discriminate]. }
  destruct (findRequest_id st (requestId req)) as [r|] eqn:Hr.
  2:{ intros [= <- <-]. left. split; [reflexivity|discriminate]. }
  destruct (status_eqb (RR.status r) PENDING) eqn:Hst; cbn [negb].
  2:{ intros [= <- <-]. left. split; [reflexivity|discriminate]. }
  destruct (user req) as [admin|].
  2:{ intros [= <- <-]. left. split; [reflexivity|discriminate]. }
  rewrite approver_argument.
  destruct (nullable_string (js_or _ _)) as [notes|] eqn:Hn.
  2:{ intros [= <- <-]. left. split; [reflexivity|discriminate]. }
  unfold findRequest_id in Hr. rewrite (prisma_update_found _ _ _ _ Hr).
  intros [= <- <-]. right. exists r, admin, notes.
  repeat split; try assumption; try reflexivity.
  now apply status_eqb_eq.
Qed.

(** ** The writes of one call *)

Lemma step_effect (P : Platform) (st : Store) (c : Call) : Effect c st (step P st c).
Proof.
  unfold step, handle.
  destruct (operation c) eqn:Hop.
  - (* Request *)
    destruct (request_registration P (call_env c) st (call_req c)) as [st' res] eqn:H.
    apply request_registration_inv in H.
    destruct H as [[-> _]|(email & fn & ln & role & l & r & He & _ & _ & Hu & Hp & Hup & -> & _)];
      [constructor|].
    cbn [fst]. unfold upsertRequest in Hup.
    destruct (find (request_by_email email) (prisma_userRegistrationRequest st))
      as [x0|] eqn:Hx.
    + injection Hup as <- _.
      apply (E_reopen c st email x0); auto.
    + destruct (existsb (request_by_id (generated_id (call_env c)))
                        (prisma_userRegistrationRequest st)) eqn:Hid; [discriminate|].
      injection Hup as <- _.
      apply (E_create c st email); auto.
      apply existsb_find_none. exact Hid.
  - (* Verify *)
    destruct (verify_email P (call_env c) st (call_req c)) as [st' res] eqn:H.
    apply verify_email_inv in H.
    destruct H as [[-> _]|(email & code & r & _ & _ & Hr & Hst & _ & _ & -> & _)];
      [constructor|].
    cbn [fst]. apply (E_verify c st email r); auto.
  - (* Approve *)
    unfold approve_route.
    destruct (route _ _ st (call_req c)) as [st' res] eqn:H.
    apply gated_route_inv in H.
    destruct H as [[-> _]|(u & _ & _ & _ & H)]; [constructor|].
    apply approve_registration_inv in H.
    destruct H as [[-> _]|(r & admin & notes & Hr & Hst & _ & _ & -> & _)]; [constructor|].
    cbn [fst set_user requestId] in *.
    apply (E_decide c st r); auto.
    intros x. cbn. repeat split; discriminate.
  - (* Reject *)
    unfold reject_route.
    destruct (route _ _ st (call_req c)) as [st' res] eqn:H.
    apply gated_route_inv in H.
    destruct H as [[-> _]|(u & _ & _ & _ & H)]; [constructor|].
    apply reject_registration_inv in H.
    destruct H as [[-> _]|(r & admin & notes & _ & Hr & Hst & _ & _ & -> & _)]; [constructor|].
    cbn [fst set_user requestId] in *.
    apply (E_decide c st r); auto.
    intros x. cbn. repeat split; discriminate.
  - (* Complete *)
    destruct (complete_registration P (call_env c) st (call_req c)) as [st' res] eqn:H.
    apply complete_registration_inv in H.
    destruct H as [[-> _]|(email & pw & tok & r & u & _ & _ & _ & Hr & Hst & Htok & _ & Hu
                            & Hmk & -> & _ & _ & Hfresh)];
      [constructor|].
    cbn [fst]. apply (E_complete c st email r u); auto.
    + rewrite Htok. discriminate.
    + subst u. reflexivity.
    + subst u. exact Hfresh.
Qed.

(** ** Unique keys *)

Lemma map_update_first {A B : Type} (g : A -> B) (p : A -> bool) (f : A -> A) (l : list A) :
  (forall x, g (f x) = g x) -> map g (update_first p f l) = map g l.
Proof.
  intros Hg. induction l as [|x t IH]; cbn [update_first map]; [reflexivity|].
  destruct (p x); cbn [map]; [now rewrite Hg|now rewrite IH].
Qed.

Lemma key_absent {A : Type} (g : A -> string) (k : string) (l : list A) :
  find (fun x => (g x =? k)%string) l = None -> ~ In k (map g l).
Proof.
  intros Hnone Hin. apply in_map_iff in Hin. destruct Hin as (x & <- & Hx).
  pose proof (find_none _ _ Hnone x Hx) as H. cbn in H.
  now rewrite String.eqb_refl in H.
Qed.

Lemma NoDup_map_snoc {A : Type} (g : A -> string) (l : list A) (x : A) :
  NoDup (map g l) -> ~ In (g x) (map g l) -> NoDup (map g (l ++ [x])).
Proof.
  induction l as [|y t IH]; cbn [map app]; intros Hnd Hout.
  - constructor; [intros []|constructor].
  - inversion Hnd as [|? ? Hy Ht]; subst. constructor.
    + rewrite map_app, in_app_iff. cbn [map In]. intros [H|[H|[]]]; [contradiction|].
      apply Hout. left. now symmetry.
    + apply IH; [exact Ht|]. intros H. apply Hout. now right.
Qed.

Lemma unique_keys_preserved (c : Call) (st st' : Store) :
  Effect c st st' -> unique_keys st -> unique_keys st'.
Proof.
  intros Heff (Hui & Hue & Hri & Hre). unfold unique_keys.
  destruct Heff as [ | email x0 f _ _ _ _ _ Hf | email x _ _ _ Hx Hid Hmail _
                   | email x0 _ _ _ | x0 f _ _ _ Hf
                   | email x0 u _ Hu _ _ _ Hmail Hfresh ];
    cbn [with_requests prisma_userRegistrationRequest prisma_user].
  - auto.
  - rewrite !map_update_first by (intros x; apply Hf). auto.
  - repeat split; try assumption.
    + apply NoDup_map_snoc; [exact Hri|]. now apply key_absent.
    + apply NoDup_map_snoc; [exact Hre|]. rewrite Hmail. now apply key_absent.
  - rewrite !map_update_first by reflexivity. auto.
  - rewrite !map_update_first by (intros x; apply Hf). auto.
  - rewrite !map_update_first by reflexivity. repeat split; try assumption.
    + apply NoDup_map_snoc; [exact Hui|]. now apply key_absent.
    + apply NoDup_map_snoc; [exact Hue|]. rewrite Hmail. now apply key_absent.
Qed.

(** Every call of the workflow keeps the keys unique. *)
Lemma unique_keys_run (P : Platform) (cs : list Call) (st : Store) :
  unique_keys st -> unique_keys (run P st cs).
Proof.
  revert st. induction cs as [|c cs IH]; intros st H; [exact H|].
  cbn [run fold_left]. apply IH.
  eapply unique_keys_preserved; [apply step_effect|exact H].
Qed.

(** ** Invariants of the request table *)

Lemma reopens_false (email e : string) (c : Call) :
  reopens email c = false -> operation c = Request_ ->
  get_prop (body (call_req c)) "email" = JStr e -> e <> email.
Proof.
  unfold reopens. intros H Hop He. rewrite Hop, He in H. now apply String.eqb_neq.
Qed.

Lemma rows_differ_by_email (e e' : string) (r x0 : RR.t) :
  request_by_email e r = true -> request_by_email e' x0 = true -> e' <> e -> r <> x0.
Proof.
  unfold request_by_email. intros Hr Hx Hne ->.
  apply String.eqb_eq in Hr, Hx. congruence.
Qed.

Lemma by_email_stable (f : RR.t -> RR.t) (e : string) :
  (forall x, RR.email (f x) = RR.email x) ->
  forall x, request_by_email e (f x) = request_by_email e x.
Proof. intros H x. unfold request_by_email. now rewrite H. Qed.

Lemma by_id_stable (f : RR.t -> RR.t) (i : string) :
  (forall x, RR.id (f x) = RR.id x) ->
  forall x, request_by_id i (f x) = request_by_id i x.
Proof. intros H x. unfold request_by_id. now rewrite H. Qed.

(** A rejected request is not touched by any call that is not a new Request
    for its address. *)
Lemma rejected_preserved (c : Call) (st st' : Store) (e : string) (r : RR.t) :
  Effect c st st' ->
  findRequest_email st e = Some r -> RR.status r = REJECTED ->
  reopens e c = false ->
  findRequest_email st' e = Some r.
Proof.
  intros Heff Hr Hst Hre. unfold findRequest_email in *.
  pose proof (find_holds _ _ _ Hr) as Hre_r.
  destruct Heff as [ | email x0 f Hop He _ Hx _ Hf | email x Hop He _ _ _ _ _
                   | email x0 _ Hx Hpend | x0 f _ Hx Hpend Hf
                   | email x0 u _ _ Hx Happ _ _ _ ];
    cbn [with_requests prisma_userRegistrationRequest].
  - exact Hr.
  - unfold findRequest_email in Hx.
    apply (find_update_first_other _ _ _ _ r x0); auto.
    + apply by_email_stable. intros x. apply Hf.
    + eapply rows_differ_by_email; eauto using find_holds, reopens_false.
  - now apply find_app_some.
  - unfold findRequest_email in Hx.
    apply (find_update_first_other _ _ _ _ r x0); auto.
    intros ->. congruence.
  - unfold findRequest_id in Hx.
    apply (find_update_first_other _ _ _ _ r x0); auto.
    + apply by_email_stable. intros x. apply Hf.
    + intros ->. congruence.
  - unfold findRequest_email in Hx.
    apply (find_update_first_other _ _ _ _ r x0); auto.
    intros ->. congruence.
Qed.

(** A decided (non-pending) request, looked up by id, keeps its status
    through any call that is not a new Request for its address. *)
Lemma decided_preserved (c : Call) (st st' : Store) (i : string) (r : RR.t) :
  Effect c st st' ->
  findRequest_id st i = Some r -> RR.status r <> PENDING ->
  reopens (RR.email r) c = false ->
  exists r', findRequest_id st' i = Some r'
             /\ RR.status r' = RR.status r /\ RR.email r' = RR.email r.
Proof.
  intros Heff Hr Hst Hre. unfold findRequest_id in *.
  destruct Heff as [ | email x0 f Hop He _ Hx _ Hf | email x Hop He _ _ _ _ _
                   | email x0 _ Hx Hpend | x0 f _ Hx Hpend Hf
                   | email x0 u _ _ Hx Happ _ _ _ ];
    cbn [with_requests prisma_userRegistrationRequest].
  - now exists r.
  - exists r. split; [|auto]. unfold findRequest_email in Hx.
    apply (find_update_first_other _ _ _ _ r x0); auto.
    + apply by_id_stable. intros x. apply Hf.
    + apply (rows_differ_by_email (RR.email r) email).
      * unfold request_by_email. apply String.eqb_refl.
      * eapply find_holds; eassumption.
      * eapply reopens_false; eassumption.
  - exists r. split; [|auto]. now apply find_app_some.
  - exists r. split; [|auto]. unfold findRequest_email in Hx.
    apply (find_update_first_other _ _ _ _ r x0); auto.
    intros ->. congruence.
  - exists r. split; [|auto]. unfold findRequest_id in Hx.
    apply (find_update_first_other _ _ _ _ r x0); auto.
    + apply by_id_stable. intros x. apply Hf.
    + intros ->. congruence.
  - unfold findRequest_email in Hx.
    destruct (find_update_first (request_by_email email) (request_by_id i) consume_token
                _ r x0 (fun x => eq_refl) Hr Hx) as [H|[-> H]].
    + now exists r.
    + exists (consume_token x0). split; [exact H|]. cbn. auto.
Qed.

Lemma completed_preserved (c : Call) (st st' : Store) (e : string) :
  Effect c st st' -> completed e st -> completed e st'.
Proof.
  intros Heff [[u0 Hu0] (r & Hr & Hst & Htok & Hexp)].
  unfold findRequest_email, findUser_email in *.
  assert (Hkeep : forall email x0 f,
             find (request_by_email email) (prisma_userRegistrationRequest st) = Some x0 ->
             (forall x, RR.email (f x) = RR.email x) -> r <> x0 ->
             find (request_by_email e)
                  (update_first (request_by_email email) f
                     (prisma_userRegistrationRequest st)) = Some r).
  { intros email x0 f Hx Hf Hne.
    apply (find_update_first_other _ _ _ _ r x0); auto.
    now apply by_email_stable. }
  destruct Heff as [ | email x0 f Hop He Hu Hx _ Hf | email x Hop He _ _ _ _ _
                   | email x0 _ Hx Hpend | x0 f _ Hx Hpend Hf
                   | email x0 u _ Hu Hx Happ Hnone _ _ ];
    cbn [with_requests prisma_userRegistrationRequest prisma_user].
  - split; [now exists u0|now exists r].
  - split; [now exists u0|]. exists r. split; [|auto].
    apply (Hkeep email x0 f Hx); [intros x; apply Hf|].
    unfold findUser_email in Hu.
    eapply rows_differ_by_email; eauto using find_holds.
    intros ->. congruence.
  - split; [now exists u0|]. exists r. split; [|auto]. now apply find_app_some.
  - split; [now exists u0|]. exists r. split; [|auto].
    apply (Hkeep email x0 _ Hx); [reflexivity|]. intros ->. congruence.
  - split; [now exists u0|]. exists r. split; [|auto].
    unfold findRequest_id in Hx.
    apply (find_update_first_other _ _ _ _ r x0); auto.
    + apply by_email_stable. intros x. apply Hf.
    + intros ->. congruence.
  - split; [exists u0; now apply find_app_some|]. exists r. split; [|auto].
    apply (Hkeep email x0 _ Hx); [reflexivity|]. intros ->. congruence.
Qed.

Lemma verified_preserved (c : Call) (st st' : Store) (e : string) :
  Effect c st st' -> verified e st -> reopens e c = false -> verified e st'.
Proof.
  intros Heff (r & Hr & Hcode) Hre.
  unfold verified, findRequest_email in *.
  pose proof (find_holds _ _ _ Hr) as Hre_r.
  destruct Heff as [ | email x0 f Hop He _ Hx _ Hf | email x Hop He _ _ _ _ _
                   | email x0 _ Hx Hpend | x0 f _ Hx Hpend Hf
                   | email x0 u _ _ Hx Happ _ _ _ ];
    cbn [with_requests prisma_userRegistrationRequest].
  - now exists r.
  - exists r. split; [|auto]. unfold findRequest_email in Hx.
    apply (find_update_first_other _ _ _ _ r x0); auto.
    + apply by_email_stable. intros x. apply Hf.
    + eapply rows_differ_by_email; eauto using find_holds, reopens_false.
  - exists r. split; [|auto]. now apply find_app_some.
  - unfold findRequest_email in Hx.
    destruct (find_update_first (request_by_email email) (request_by_email e) clear_code
                _ r x0 (fun x => eq_refl) Hr Hx) as [H|[-> H]].
    + now exists r.
    + exists (clear_code x0). split; [exact H|]. reflexivity.
  - unfold findRequest_id in Hx.
    destruct (find_update_first (request_by_id (requestId (call_req c)))
                (request_by_email e) f _ r x0
                (by_email_stable f e (fun x => proj1 (proj2 (Hf x)))) Hr Hx) as [H|[-> H]].
    + now exists r.
    + exists (f x0). split; [exact H|]. intros Hp. now apply Hf in Hp.
  - unfold findRequest_email in Hx.
    destruct (find_update_first (request_by_email email) (request_by_email e) consume_token
                _ r x0 (fun x => eq_refl) Hr Hx) as [H|[-> H]].
    + now exists r.
    + exists (consume_token x0). split; [exact H|]. cbn. discriminate.
Qed.

(** The invariants along a sequence of calls. *)
Lemma run_cons (P : Platform) (st : Store) (c : Call) (cs : list Call) :
  run P st (c :: cs) = run P (step P st c) cs.
Proof. reflexivity. Qed.

Lemma completed_run (P : Platform) (e : string) (cs : list Call) (st : Store) :
  completed e st -> completed e (run P st cs).
Proof.
  revert st. induction cs as [|c cs IH]; intros st H; [exact H|].
  rewrite run_cons. apply IH. eapply completed_preserved; [apply step_effect|exact H].
Qed.

Lemma verified_run (P : Platform) (e : string) (cs : list Call) (st : Store) :
  forallb (fun c => negb (reopens e c)) cs = true ->
  verified e st -> verified e (run P st cs).
Proof.
  revert st. induction cs as [|c cs IH]; intros st Hcs H; [exact H|].
  cbn [forallb] in Hcs. apply andb_true_iff in Hcs. destruct Hcs as [Hc Hcs].
  rewrite run_cons. apply IH; [exact Hcs|].
  eapply verified_preserved; [apply step_effect|exact H|].
  now apply negb_true_iff.
Qed.

Lemma rejected_run (P : Platform) (e : string) (r : RR.t) (cs : list Call) (st : Store) :
  forallb (fun c => negb (reopens e c)) cs = true ->
  findRequest_email st e = Some r -> RR.status r = REJECTED ->
  findRequest_email (run P st cs) e = Some r.
Proof.
  revert st. induction cs as [|c cs IH]; intros st Hcs Hr Hst; [exact Hr|].
  cbn [forallb] in Hcs. apply andb_true_iff in Hcs. destruct Hcs as [Hc Hcs].
  rewrite run_cons. apply IH; [exact Hcs| |exact Hst].
  eapply rejected_preserved; [apply step_effect|exact Hr|exact Hst|].
  now apply negb_true_iff.
Qed.

Lemma decided_run (P : Platform) (i : string) (cs : list Call) (st : Store) (r : RR.t) :
  forallb (fun c => negb (reopens (RR.email r) c)) cs = true ->
  findRequest_id st i = Some r -> RR.status r <> PENDING ->
  exists r', findRequest_id (run P st cs) i = Some r'
             /\ RR.status r' = RR.status r /\ RR.email r' = RR.email r.
Proof.
  revert st r. induction cs as [|c cs IH]; intros st r Hcs Hr Hst; [now exists r|].
  cbn [forallb] in Hcs. apply andb_true_iff in Hcs. destruct Hcs as [Hc Hcs].
  rewrite run_cons.
  destruct (decided_preserved c st (step P st c) i r (step_effect P st c) Hr Hst)
    as (r1 & Hr1 & Hs1 & He1); [now apply negb_true_iff|].
  destruct (IH (step P st c) r1) as (r2 & Hr2 & Hs2 & He2); try assumption.
  - now rewrite He1.
  - now rewrite Hs1.
  - exists r2. split; [exact Hr2|]. split; congruence.
Qed.

(** ** Guards that refuse *)

Lemma is_empty_false (s : string) : s <> "" -> is_empty s = false.
Proof. intros H. now apply String.eqb_neq. Qed.

Lemma complete_without_token (P : Platform) (env : Env) (st : Store) (req : Request)
    (email password token : string) (r : RR.t) :
  validate (joi_email P) completeRegistrationSchema (body req)
  = inr [("email", email); ("password", password); ("token", token)] ->
  findRequest_email st email = Some r ->
  RR.status r = APPROVED ->
  RR.completionToken r = None ->
  complete_registration P env st req
  = (st, mkResponse 400 (ErrorCode "Invalid or missing completion token"
                                   "INVALID_COMPLETION_TOKEN")).
Proof.
  intros Hv Hr Hst Htok.
  destruct (validate_complete_inr _ _ _ Hv)
    as (e' & p' & t' & Heq & _ & He & _ & Hp & _ & Ht).
  injection Heq as <- <- <-.
  unfold complete_registration. rewrite Hv.
  cbn [field String.eqb Ascii.eqb Bool.eqb].
  rewrite !is_empty_false by assumption. cbn [orb].
  rewrite Hr, Hst, Htok. reflexivity.
Qed.

Lemma verify_after_clear (P : Platform) (env : Env) (st : Store) (req : Request)
    (email code : string) (r : RR.t) :
  validate (joi_email P) verifyEmailSchema (body req)
  = inr [("email", email); ("verificationCode", code)] ->
  findRequest_email st email = Some r ->
  (RR.status r = PENDING -> RR.verificationCode r = None) ->
  verify_email P env st req
  = (st, if status_eqb (RR.status r) PENDING
         then mkResponse 400 (ErrorCode "Invalid verification code" "INVALID_CODE")
         else mkResponse 400 (ErrorCode "Registration request is not pending"
                                        "REQUEST_NOT_PENDING")).
Proof.
  intros Hv Hr Hcode.
  destruct (validate_verify_inr _ _ _ Hv) as (e' & c' & Heq & _ & He & _ & Hc).
  injection Heq as <- <-.
  unfold verify_email. rewrite Hv.
  cbn [field String.eqb Ascii.eqb Bool.eqb].
  rewrite !is_empty_false by assumption. cbn [orb].
  rewrite Hr.
  destruct (status_eqb (RR.status r) PENDING) eqn:Hst; cbn [negb]; [|reflexivity].
  apply status_eqb_eq in Hst. rewrite (Hcode Hst). reflexivity.
Qed.

Lemma decided_refuses_approve (P : Platform) (env : Env) (st : Store) (req : Request)
    (r : RR.t) :
  findRequest_id st (requestId req) = Some r -> RR.status r <> PENDING ->
  approve_registration P env st req
  = (st, mkResponse 400 (ErrorCode "Registration request is not pending"
                                   "REQUEST_NOT_PENDING")).
Proof.
  intros Hr Hst. unfold approve_registration. rewrite Hr.
  apply status_eqb_neq in Hst. now rewrite Hst.
Qed.

Lemma decided_refuses_reject (P : Platform) (env : Env) (st : Store) (req : Request)
    (r : RR.t) :
  findRequest_id st (requestId req) = Some r -> RR.status r <> PENDING ->
  reject_registration P env st req
  = (st, if truthy (get_prop (body req) "reason")
         then mkResponse 400 (ErrorCode "Registration request is not pending"
                                        "REQUEST_NOT_PENDING")
         else mkResponse 400 (ErrorCode "Rejection reason is required" "MISSING_REASON")).
Proof.
  intros Hr Hst. unfold reject_registration.
  destruct (truthy (get_prop (body req) "reason")); cbn [negb]; [|reflexivity].
  rewrite Hr. apply status_eqb_neq in Hst. now rewrite Hst.
Qed.

(** A gated route whose handler refuses without writing refuses without
    writing. *)
Lemma gated_route_refuses (P : Platform) (env : Env) (roles : list string) (h : Handler)
    (st : Store) (req : Request) :
  (forall u, fst (h st (set_user req u)) = st
             /\ statusCode (snd (h st (set_user req u))) <> 200) ->
  fst (route [authenticateToken P env; requireRole roles] h st req) = st
  /\ statusCode (snd (route [authenticateToken P env; requireRole roles] h st req)) <> 200.
Proof.
  intros Hh.
  destruct (route [authenticateToken P env; requireRole roles] h st req)
    as [st' res] eqn:H.
  apply gated_route_inv in H.
  destruct H as [[-> [Hs|Hs]]|(u & _ & _ & _ & H)]; cbn [fst snd].
  - split; [reflexivity|]. rewrite Hs. discriminate.
  - split; [reflexivity|]. rewrite Hs. discriminate.
  - specialize (Hh u). rewrite H in Hh. exact Hh.
Qed.

(** ** Approval *)

(** What a successful /admin/approve-registration call writes.  The approver
    column is the one column of the update that keeps its old value. *)
Lemma approve_route_success (P : Platform) (env : Env) (st st' : Store)
    (req : Request) (res : Response) :
  approve_route P env st req = (st', res) -> statusCode res = 200 ->
  exists admin r r',
    find (user_by_id (User.id admin)) (prisma_user st) = Some admin
    /\ User.isActive admin = true
    /\ includes ["ADMIN"] (User.role admin) = true
    /\ findRequest_id st (requestId req) = Some r
    /\ RR.status r = PENDING
    /\ findRequest_id st' (requestId req) = Some r'
    /\ RR.status r' = APPROVED
    /\ RR.completionToken r' = Some (to_hex (randomBytes env 24))
    /\ RR.completionTokenExpires r' = Some (now env + twelve_hours)
    /\ RR.approvedAt r' = Some (now env)
    /\ RR.approvedBy r' = RR.approvedBy r.
Proof.
  intros H Hok. unfold approve_route in H.
  apply gated_route_inv in H.
  destruct H as [[_ [Hs|Hs]]|(admin & Hadmin & Hact & Hrole & H)];
    try (rewrite Hs in Hok; discriminate).
  apply approve_registration_inv in H.
  destruct H as [[_ Hs]|(r & admin' & notes & Hr & Hst & _ & _ & -> & _)];
    [contradiction|].
  cbn [set_user requestId] in *.
  exists admin, r, (approve_data (now env) Keep notes (to_hex (randomBytes env 24))
                                 (now env + twelve_hours) r).
  repeat split; try assumption.
  unfold findRequest_id in *. cbn [with_requests prisma_userRegistrationRequest].
  apply find_update_first_same; [exact Hr|].
  apply find_holds in Hr. exact Hr.
Qed.

(** C4: an authenticated admin (id u-admin) approves the pending request r1
    at time 3000.  The call succeeds and the stored request is APPROVED with
    a completion token, the expiry 3000 + 12 h and the approval time; but the
    approver column is still NULL: the handler reads [req.user.userId], and
    the user row attached by [authenticateToken] has [id], not [userId]. *)
Theorem approval_records_no_approver :
  let req := admin_request "session:u-admin" "r1" [] in
  let out := approve_route sample_platform (sample_env 3000 "x") pending_store req in
  fst (authenticateToken sample_platform (sample_env 3000 "x") pending_store req)
  = set_user req sample_admin
  /\ statusCode (snd out) = 200
  /\ exists r,
       findRequest_id (fst out) "r1" = Some r
       /\ RR.status r = APPROVED
       /\ RR.completionToken r = Some "2a2a2a2a2a2a2a2a2a2a2a2a2a2a2a2a2a2a2a2a2a2a2a2a"
       /\ RR.completionTokenExpires r = Some (3000 + 12 * 60 * 60 * 1000)
       /\ RR.approvedAt r = Some 3000
       /\ RR.approvedBy r = None
       /\ RR.approvedBy r <> Some (User.id sample_admin).
Proof.
  cbv zeta. split; [reflexivity|]. split; [reflexivity|].
  eexists. split; [vm_compute; reflexivity|].
  cbn. repeat split; discriminate.
Qed.

(** ** Completion *)

(** C5: after a successful /complete-registration the stored completion
    token and its expiry are NULL, and replaying the same call (same e-mail,
    same token), at once or after any further calls of the workflow, is
    answered 400 INVALID_COMPLETION_TOKEN and writes nothing: no second user
    is created. *)
Theorem completion_token_single_use
    (P : Platform) (env : Env) (st st1 : Store) (req : Request) (res1 : Response) :
  complete_registration P env st req = (st1, res1) ->
  statusCode res1 = 200 ->
  exists email,
    get_prop (body req) "email" = JStr email
    /\ (exists r, findRequest_email st1 email = Some r
                  /\ RR.completionToken r = None
                  /\ RR.completionTokenExpires r = None)
    /\ forall (cs : list Call) (env2 : Env),
         complete_registration P env2 (run P st1 cs) req
         = (run P st1 cs, invalid_completion_token).
Proof.
  intros H Hok. apply complete_registration_inv in H.
  destruct H as [[_ Hs]|(email & pw & tok & r & u & He & _ & _ & Hr & Hst & Htok & _
                          & Hu & Hmk & -> & _ & Hv & _)]; [contradiction|].
  assert (Hdone : completed email
                    (mkStore (prisma_user st ++ [u])
                       (update_first (request_by_email email) consume_token
                          (prisma_userRegistrationRequest st)))).
  { split.
    - exists u. unfold findUser_email in *. cbn [prisma_user].
      rewrite (find_app_none _ _ _ Hu).
      subst u. unfold user_by_email. cbn [User.email]. now rewrite String.eqb_refl.
    - exists (consume_token r). unfold findRequest_email in *.
      cbn [prisma_userRegistrationRequest].
      split; [|cbn; auto].
      apply find_update_first_same; [exact Hr|].
      apply find_holds in Hr. exact Hr. }
  exists email. split; [exact He|]. split.
  - destruct Hdone as [_ (r' & Hr' & _ & Ht' & He')]. now exists r'.
  - intros cs env2.
    destruct (completed_run P email cs _ Hdone) as [_ (r2 & Hr2 & Hst2 & Htok2 & _)].
    eapply complete_without_token; eassumption.
Qed.

Lemma completion_token_single_use_witness :
  exists email,
    get_prop (body (public_request ann_completion)) "email" = JStr email
    /\ (exists r,
          findRequest_email
            (fst (complete_registration sample_platform (sample_env 4000 "u-2")
                    approved_store (public_request ann_completion))) email = Some r
          /\ RR.completionToken r = None
          /\ RR.completionTokenExpires r = None)
    /\ forall (cs : list Call) (env2 : Env),
         complete_registration sample_platform env2
           (run sample_platform
              (fst (complete_registration sample_platform (sample_env 4000 "u-2")
                      approved_store (public_request ann_completion))) cs)
           (public_request ann_completion)
         = (run sample_platform
              (fst (complete_registration sample_platform (sample_env 4000 "u-2")
                      approved_store (public_request ann_completion))) cs,
            invalid_completion_token).
Proof.
  apply (completion_token_single_use sample_platform (sample_env 4000 "u-2")
           approved_store _ (public_request ann_completion)
           (snd (complete_registration sample_platform (sample_env 4000 "u-2")
                   approved_store (public_request ann_completion)))).
  - vm_compute. reflexivity.
  - vm_compute. reflexivity.
Defined.

(** ** Verification *)

(** C6 (as stated) fails: the second /verify-email with the same address and
    code is refused with INVALID_CODE, not with the not-pending error; the
    request is still PENDING, only its code is gone. *)
Lemma second_verify_is_invalid_code :
  let req := public_request ann_code in
  statusCode (snd (verify_email sample_platform (sample_env 2000 "") pending_store req)) = 200
  /\ snd (verify_email sample_platform (sample_env 2001 "") verified_store req) = invalid_code
  /\ snd (verify_email sample_platform (sample_env 2001 "") verified_store req)
     <> request_not_pending
  /\ (exists r, findRequest_email verified_store "a@x.com" = Some r
                /\ RR.status r = PENDING /\ RR.verificationCode r = None).
Proof.
  cbv zeta. split; [reflexivity|]. split; [reflexivity|]. split; [discriminate|].
  eexists. split; [vm_compute; reflexivity|]. split; reflexivity.
Qed.

(** C6 (amended): a /verify-email call succeeds once.  Repeated at once with
    the same address and code it is refused with INVALID_CODE and writes
    nothing; repeated after further calls that do not re-open the request
    (no new Request for the address) it is still refused and writes nothing,
    with INVALID_CODE while the request is PENDING and with
    REQUEST_NOT_PENDING once an admin has decided it. *)
Theorem verify_succeeds_once
    (P : Platform) (env : Env) (st st1 : Store) (req : Request) (res1 : Response) :
  verify_email P env st req = (st1, res1) ->
  statusCode res1 = 200 ->
  exists email,
    get_prop (body req) "email" = JStr email
    /\ (forall env2, verify_email P env2 st1 req = (st1, invalid_code))
    /\ forall (cs : list Call) (env2 : Env),
         forallb (fun c => negb (reopens email c)) cs = true ->
         exists r,
           findRequest_email (run P st1 cs) email = Some r
           /\ verify_email P env2 (run P st1 cs) req
              = (run P st1 cs,
                 if status_eqb (RR.status r) PENDING then invalid_code
                 else request_not_pending).
Proof.
  intros H Hok. apply verify_email_inv in H.
  destruct H as [[_ Hs]|(email & code & r & He & _ & Hr & Hst & _ & _ & -> & _ & Hv)];
    [contradiction|].
  set (st1 := with_requests st _).
  assert (Hfound : findRequest_email st1 email = Some (clear_code r)).
  { unfold findRequest_email in *. cbn [st1 with_requests prisma_userRegistrationRequest].
    apply find_update_first_same; [exact Hr|].
    apply find_holds in Hr. exact Hr. }
  assert (Hver : verified email st1).
  { exists (clear_code r). split; [exact Hfound|reflexivity]. }
  exists email. split; [exact He|]. split.
  - intros env2.
    rewrite (verify_after_clear P env2 st1 req email code (clear_code r) Hv Hfound)
      by reflexivity.
    cbn [clear_code RR.status]. rewrite Hst. reflexivity.
  - intros cs env2 Hcs.
    destruct (verified_run P email cs st1 Hcs Hver) as (r2 & Hr2 & Hcode2).
    exists r2. split; [exact Hr2|].
    apply (verify_after_clear P env2 _ req email code r2 Hv Hr2 Hcode2).
Qed.

Lemma verify_succeeds_once_witness :
  exists email,
    get_prop (body (public_request ann_code)) "email" = JStr email
    /\ (forall env2,
          verify_email sample_platform env2 verified_store (public_request ann_code)
          = (verified_store, invalid_code))
    /\ forall (cs : list Call) (env2 : Env),
         forallb (fun c => negb (reopens email c)) cs = true ->
         exists r,
           findRequest_email (run sample_platform verified_store cs) email = Some r
           /\ verify_email sample_platform env2 (run sample_platform verified_store cs)
                (public_request ann_code)
              = (run sample_platform verified_store cs,
                 if status_eqb (RR.status r) PENDING then invalid_code
                 else request_not_pending).
Proof.
  apply (verify_succeeds_once sample_platform (sample_env 2000 "") pending_store
           verified_store (public_request ann_code)
           (snd (verify_email sample_platform (sample_env 2000 "") pending_store
                   (public_request ann_code)))).
  - vm_compute. reflexivity.
  - vm_compute. reflexivity.
Defined.

(** ** Requesting again *)

(** C7 (as stated) fails: a second /request-registration for an address
    whose request is PENDING does not succeed; it is answered 400
    REQUEST_PENDING. *)
Lemma request_while_pending_fails :
  (exists r, findRequest_email pending_store "a@x.com" = Some r /\ RR.status r = PENDING)
  /\ request_registration sample_platform (sample_env 1500 "r2") pending_store
       (public_request ann_body)
     = (pending_store, request_pending)
  /\ statusCode request_pending <> 200.
Proof.
  split; [eexists; split; [vm_compute; reflexivity|reflexivity]|].
  split; [vm_compute; reflexivity|discriminate].
Qed.

(** C7 (amended): while the request of an address is PENDING, a
    /request-registration for that address is refused with status 400 and
    changes nothing (no duplicate, no refreshed code); when the body is valid
    and no user has the address, the error is REQUEST_PENDING. *)
Theorem request_while_pending_refused
    (P : Platform) (env : Env) (st : Store) (req : Request) (email : string) (r : RR.t) :
  get_prop (body req) "email" = JStr email ->
  findRequest_email st email = Some r ->
  RR.status r = PENDING ->
  fst (request_registration P env st req) = st
  /\ statusCode (snd (request_registration P env st req)) = 400
  /\ (forall value,
        validate (joi_email P) requestRegistrationSchema (body req) = inr value ->
        findUser_email st email = None ->
        snd (request_registration P env st req) = request_pending).
Proof.
  intros He Hr Hst. unfold request_registration.
  destruct (validate (joi_email P) requestRegistrationSchema (body req)) as [e|value] eqn:Hv.
  { repeat split. intros value [=]. }
  destruct (validate_request_inr _ _ _ Hv)
    as (email' & fn & ln & role & -> & He' & Hne & _ & Hfn & _ & Hln & _ & Hin).
  rewrite He in He'. injection He' as <-.
  cbn [field String.eqb Ascii.eqb Bool.eqb].
  assert (Hrole : role <> "") by (intros ->; discriminate Hin).
  rewrite !is_empty_false by assumption. cbn [orb].
  rewrite Hin. cbn [negb].
  destruct (findUser_email st email) eqn:Hu.
  { repeat split. intros _ _ [=]. }
  rewrite Hr, Hst. cbn [status_eqb].
  repeat split.
Qed.

Lemma request_while_pending_refused_witness :
  fst (request_registration sample_platform (sample_env 1500 "r2") pending_store
         (public_request ann_body)) = pending_store
  /\ statusCode (snd (request_registration sample_platform (sample_env 1500 "r2")
                        pending_store (public_request ann_body))) = 400
  /\ (forall value,
        validate (joi_email sample_platform) requestRegistrationSchema
                 (body (public_request ann_body)) = inr value ->
        findUser_email pending_store "a@x.com" = None ->
        snd (request_registration sample_platform (sample_env 1500 "r2") pending_store
               (public_request ann_body)) = request_pending).
Proof.
  apply (request_while_pending_refused sample_platform (sample_env 1500 "r2")
           pending_store (public_request ann_body) "a@x.com"
           (fresh_request "r1" "a@x.com" "Ann" "Lee" "CLINICIAN" "100000" 86401000 1000)).
  - reflexivity.
  - vm_compute. reflexivity.
  - reflexivity.
Defined.

(** ** Rejection *)

(** C8 (as stated) fails: a new /request-registration for the address of a
    REJECTED request puts that same request back to PENDING. *)
Lemma rejected_request_reopened :
  (exists r, findRequest_email rejected_store "a@x.com" = Some r
             /\ RR.id r = "r1" /\ RR.status r = REJECTED)
  /\ let out := request_registration sample_platform (sample_env 5000 "r2") rejected_store
                  (public_request ann_body) in
     statusCode (snd out) = 200
     /\ exists r, findRequest_email (fst out) "a@x.com" = Some r
                  /\ RR.id r = "r1" /\ RR.status r = PENDING.
Proof.
  split.
  - eexists. split; [vm_compute; reflexivity|]. split; reflexivity.
  - cbv zeta. split; [vm_compute; reflexivity|].
    eexists. split; [vm_compute; reflexivity|]. split; reflexivity.
Qed.

(** C8 (amended): Verify, Approve, Reject and Complete, and a Request for
    any other address, leave a REJECTED request exactly as it is, however
    many of them are called; a valid Request for the same address (no user
    having it) succeeds and puts the same request back to PENDING, with the
    verification code generated for that call, valid for 24 hours from it,
    and with that call's time as the time of the request. *)
Theorem rejected_until_requested_again
    (P : Platform) (st : Store) (email : string) (r : RR.t) :
  findRequest_email st email = Some r ->
  RR.status r = REJECTED ->
  (forall cs : list Call,
     forallb (fun c => negb (reopens email c)) cs = true ->
     findRequest_email (run P st cs) email = Some r)
  /\ (forall (env : Env) (req : Request) (value : list (string * string)),
        get_prop (body req) "email" = JStr email ->
        validate (joi_email P) requestRegistrationSchema (body req) = inr value ->
        findUser_email st email = None ->
        statusCode (snd (request_registration P env st req)) = 200
        /\ exists r', findRequest_email (fst (request_registration P env st req)) email
                      = Some r'
                      /\ RR.id r' = RR.id r /\ RR.status r' = PENDING
                      /\ RR.verificationCode r' = Some (generateVerificationCode env)
                      /\ RR.verificationExpires r' = Some (now env + one_day)
                      /\ RR.requestedAt r' = now env).
Proof.
  intros Hr Hst. split.
  - intros cs Hcs. now apply rejected_run.
  - intros env req value He Hv Hu. unfold request_registration. rewrite Hv.
    destruct (validate_request_inr _ _ _ Hv)
      as (email' & fn & ln & role & -> & He' & Hne & _ & Hfn & _ & Hln & _ & Hin).
    rewrite He in He'. injection He' as <-.
    cbn [field String.eqb Ascii.eqb Bool.eqb].
    assert (Hrole : role <> "") by (intros ->; discriminate Hin).
    rewrite !is_empty_false by assumption. cbn [orb].
    rewrite Hin. cbn [negb]. rewrite Hu, Hr, Hst. cbn [status_eqb].
    unfold upsertRequest. unfold findRequest_email in Hr. rewrite Hr.
    cbn [sendVerificationEmail negb fst snd statusCode]. split; [reflexivity|].
    eexists. split.
    + unfold findRequest_email. cbn [with_requests prisma_userRegistrationRequest].
      apply find_update_first_same; [exact Hr|].
      apply find_holds in Hr. exact Hr.
    + repeat split; reflexivity.
Qed.

Lemma rejected_until_requested_again_witness :
  (forall cs : list Call,
     forallb (fun c => negb (reopens "a@x.com" c)) cs = true ->
     findRequest_email (run sample_platform rejected_store cs) "a@x.com"
     = Some rejected_row)
  /\ (forall (env : Env) (req : Request) (value : list (string * string)),
        get_prop (body req) "email" = JStr "a@x.com" ->
        validate (joi_email sample_platform) requestRegistrationSchema (body req)
        = inr value ->
        findUser_email rejected_store "a@x.com" = None ->
        statusCode (snd (request_registration sample_platform env rejected_store req)) = 200
        /\ exists r',
             findRequest_email
               (fst (request_registration sample_platform env rejected_store req)) "a@x.com"
             = Some r'
             /\ RR.id r' = RR.id rejected_row /\ RR.status r' = PENDING
             /\ RR.verificationCode r' = Some (generateVerificationCode env)
             /\ RR.verificationExpires r' = Some (now env + one_day)
             /\ RR.requestedAt r' = now env).
Proof.
  apply (rejected_until_requested_again sample_platform rejected_store "a@x.com"
           rejected_row).
  - vm_compute. reflexivity.
  - reflexivity.
Defined.

(** ** Identity of a user: the e-mail address *)

(** C9: the store holds the user admin@chartbreaker.com.  The workflow run
    for Admin@chartbreaker.com is not stopped by the user-exists checks of
    Request and Complete, which compare the address as typed, and ends with
    two users whose addresses differ only by letter case.  The login route
    lower-cases the address before its lookup, so the new account cannot
    even be reached: its own password is refused. *)
Theorem case_variant_registers_second_user :
  findUser_email seeded (toLowerCase "Admin@chartbreaker.com") = Some sample_admin
  /\ statusCode (snd (request_registration sample_platform (sample_env 1000 "r1") seeded
                        (public_request shadow_body))) = 200
  /\ (exists u,
        prisma_user (run sample_platform seeded shadow_calls) = [sample_admin; u]
        /\ User.email u = "Admin@chartbreaker.com"
        /\ User.email u <> User.email sample_admin
        /\ toLowerCase (User.email u) = toLowerCase (User.email sample_admin))
  /\ snd (login sample_platform (sample_env 5000 "")
            (run sample_platform seeded shadow_calls)
            (public_request [ ("email", JStr "Admin@chartbreaker.com");
                              ("password", JStr "secret123") ]))
     = mkResponse 401 (ErrorCode "Invalid credentials" "INVALID_CREDENTIALS").
Proof.
  split; [vm_compute; reflexivity|].
  split; [vm_compute; reflexivity|].
  split; [|vm_compute; reflexivity].
  eexists. split; [vm_compute; reflexivity|].
  split; [reflexivity|]. split; [discriminate|reflexivity].
Qed.

(** ** Approve and Reject *)

(** C10 (as stated) fails twice over.  After an approval, a new Request for
    the same address (no account exists yet) re-opens the same request, and
    a second Approve on the same id succeeds.  And a Reject that carries no
    reason is refused with MISSING_REASON before the status is looked at. *)
Lemma approve_twice_after_new_request :
  let approve := admin_request "session:u-admin" "r1" [] in
  let reopened :=
    fst (request_registration sample_platform (sample_env 3500 "r2") approved_store
           (public_request ann_body)) in
  statusCode (snd (approve_route sample_platform (sample_env 3000 "") verified_store approve))
  = 200
  /\ statusCode (snd (approve_route sample_platform (sample_env 4000 "") reopened approve))
     = 200
  /\ snd (reject_route sample_platform (sample_env 4000 "") approved_store approve)
     = missing_reason
  /\ missing_reason <> request_not_pending.
Proof.
  cbv zeta. split; [vm_compute; reflexivity|]. split; [vm_compute; reflexivity|].
  split; [vm_compute; reflexivity|discriminate].
Qed.

(** C10 (amended): Approve and Reject succeed only on a PENDING request and
    leave it APPROVED, respectively REJECTED.  From then on, and through any
    further calls that do not re-open it (no new Request for its address),
    every Approve and every Reject on the same id writes nothing and does not
    succeed: past the gates, Approve and a Reject with a reason are refused
    with REQUEST_NOT_PENDING, a Reject without a reason with
    MISSING_REASON. *)
Theorem decision_final_until_requested_again
    (P : Platform) (op : Operation) (env : Env) (st st1 : Store)
    (req : Request) (res : Response) :
  op = Approve \/ op = Reject ->
  handle P (mkCall op env req) st req = (st1, res) ->
  statusCode res = 200 ->
  exists r r1,
    findRequest_id st (requestId req) = Some r
    /\ RR.status r = PENDING
    /\ findRequest_id st1 (requestId req) = Some r1
    /\ RR.status r1 = (match op with Approve => APPROVED | _ => REJECTED end)
    /\ forall (cs : list Call) (env2 : Env) (req2 : Request),
         forallb (fun c => negb (reopens (RR.email r) c)) cs = true ->
         requestId req2 = requestId req ->
         approve_registration P env2 (run P st1 cs) req2
         = (run P st1 cs, request_not_pending)
         /\ reject_registration P env2 (run P st1 cs) req2
            = (run P st1 cs,
               if truthy (get_prop (body req2) "reason") then request_not_pending
               else missing_reason)
         /\ fst (approve_route P env2 (run P st1 cs) req2) = run P st1 cs
         /\ statusCode (snd (approve_route P env2 (run P st1 cs) req2)) <> 200
         /\ fst (reject_route P env2 (run P st1 cs) req2) = run P st1 cs
         /\ statusCode (snd (reject_route P env2 (run P st1 cs) req2)) <> 200.
Proof.
  intros Hop H Hok.
  assert (Hdec : exists r f,
             findRequest_id st (requestId req) = Some r
             /\ RR.status r = PENDING
             /\ st1 = with_requests st (update_first (request_by_id (requestId req)) f
                                          (prisma_userRegistrationRequest st))
             /\ RR.id (f r) = RR.id r /\ RR.email (f r) = RR.email r
             /\ RR.status (f r) = (match op with Approve => APPROVED | _ => REJECTED end)).
  { destruct Hop as [-> | ->]; cbn [handle operation call_env] in H.
    - unfold approve_route in H. apply gated_route_inv in H.
      destruct H as [[_ [Hs|Hs]]|(u & _ & _ & _ & H)];
        try (rewrite Hs in Hok; discriminate).
      apply approve_registration_inv in H.
      destruct H as [[_ Hs]|(r & admin & notes & Hr & Hst & _ & _ & -> & _)];
        [contradiction|].
      cbn [set_user requestId] in *. eexists r, _. repeat split; eauto.
    - unfold reject_route in H. apply gated_route_inv in H.
      destruct H as [[_ [Hs|Hs]]|(u & _ & _ & _ & H)];
        try (rewrite Hs in Hok; discriminate).
      apply reject_registration_inv in H.
      destruct H as [[_ Hs]|(r & admin & notes & _ & Hr & Hst & _ & _ & -> & _)];
        [contradiction|].
      cbn [set_user requestId] in *. eexists r, _. repeat split; eauto. }
  destruct Hdec as (r & f & Hr & Hst & -> & Hid & Hemail & Hnew).
  assert (Hr1 : findRequest_id
                  (with_requests st (update_first (request_by_id (requestId req)) f
                                       (prisma_userRegistrationRequest st)))
                  (requestId req) = Some (f r)).
  { unfold findRequest_id in *. cbn [with_requests prisma_userRegistrationRequest].
    apply find_update_first_same; [exact Hr|].
    apply find_holds in Hr. unfold request_by_id in *. now rewrite Hid. }
  assert (Hclosed : RR.status (f r) <> PENDING).
  { rewrite Hnew. destruct Hop as [-> | ->]; discriminate. }
  exists r, (f r).
  split; [exact Hr|]. split; [exact Hst|]. split; [exact Hr1|]. split; [exact Hnew|].
  intros cs env2 req2 Hcs Hreq.
  rewrite <- Hemail in Hcs.
  destruct (decided_run P (requestId req) cs _ (f r) Hcs Hr1 Hclosed)
    as (r2 & Hr2 & Hs2 & _).
  assert (Hclosed2 : RR.status r2 <> PENDING) by (now rewrite Hs2).
  revert Hr2.
  generalize (run P (with_requests st
                       (update_first (request_by_id (requestId req)) f
                          (prisma_userRegistrationRequest st))) cs).
  intros st2 Hr2. rewrite <- Hreq in Hr2.
  split; [now apply (decided_refuses_approve P env2 st2 req2 r2)|].
  split; [now apply (decided_refuses_reject P env2 st2 req2 r2)|].
  assert (Ha : fst (approve_route P env2 st2 req2) = st2
               /\ statusCode (snd (approve_route P env2 st2 req2)) <> 200).
  { apply gated_route_refuses. intros u.
    rewrite (decided_refuses_approve P env2 st2 (set_user req2 u) r2) by assumption.
    split; [reflexivity|discriminate]. }
  assert (Hb : fst (reject_route P env2 st2 req2) = st2
               /\ statusCode (snd (reject_route P env2 st2 req2)) <> 200).
  { apply gated_route_refuses. intros u.
    rewrite (decided_refuses_reject P env2 st2 (set_user req2 u) r2) by assumption.
    split; [reflexivity|]. cbn [snd]. destruct (truthy _); discriminate. }
  destruct Ha as [Ha1 Ha2]. destruct Hb as [Hb1 Hb2].
  repeat split; assumption.
Qed.

Lemma decision_final_until_requested_again_witness :
  let req := admin_request "session:u-admin" "r1" [] in
  exists r r1,
    findRequest_id verified_store (requestId req) = Some r
    /\ RR.status r = PENDING
    /\ findRequest_id approved_store (requestId req) = Some r1
    /\ RR.status r1 = APPROVED
    /\ forall (cs : list Call) (env2 : Env) (req2 : Request),
         forallb (fun c => negb (reopens (RR.email r) c)) cs = true ->
         requestId req2 = requestId req ->
         approve_registration sample_platform env2 (run sample_platform approved_store cs) req2
         = (run sample_platform approved_store cs, request_not_pending)
         /\ reject_registration sample_platform env2 (run sample_platform approved_store cs) req2
            = (run sample_platform approved_store cs,
               if truthy (get_prop (body req2) "reason") then request_not_pending
               else missing_reason)
         /\ fst (approve_route sample_platform env2 (run sample_platform approved_store cs) req2)
            = run sample_platform approved_store cs
         /\ statusCode (snd (approve_route sample_platform env2
                               (run sample_platform approved_store cs) req2)) <> 200
         /\ fst (reject_route sample_platform env2 (run sample_platform approved_store cs) req2)
            = run sample_platform approved_store cs
         /\ statusCode (snd (reject_route sample_platform env2
                               (run sample_platform approved_store cs) req2)) <> 200.
Proof.
  apply (decision_final_until_requested_again sample_platform Approve (sample_env 3000 "")
           verified_store approved_store (admin_request "session:u-admin" "r1" [])
           (mkResponse 200 (Message "Registration request approved successfully"))).
  - left. reflexivity.
  - vm_compute. reflexivity.
  - reflexivity.
Defined.

(** * Further properties of the code *)

(** ** Rounding of doubles *)

(** The rounding of [SpecFloat] shifts the exact mantissa right until it has
    53 digits, keeping the last bit shifted out and whether anything was lost
    before it, and rounds to nearest, ties to even.  The lemmas below relate
    the rounded double to the exact value, both scaled by 2^200 so that they
    are integers. *)
Lemma iter_pos_nat {A : Type} (f : A -> A) (p : positive) (x : A) :
  iter_pos f p x = Nat.iter (Pos.to_nat p) f x.
Proof.
  revert x. induction p as [p IH|p IH|]; intros x; cbn [iter_pos].
  - rewrite !IH, Pos2Nat.inj_xI.
    replace (S (2 * Pos.to_nat p)) with (Pos.to_nat p + (Pos.to_nat p + 1))%nat by lia.
    now rewrite !Nat.iter_add.
  - rewrite !IH, Pos2Nat.inj_xO.
    replace (2 * Pos.to_nat p)%nat with (Pos.to_nat p + Pos.to_nat p)%nat by lia.
    now rewrite Nat.iter_add.
  - reflexivity.
Qed.

Lemma shr_1_spec (m : Z) (r s : bool) :
  0 <= m ->
  shr_1 (Build_shr_record m r s)
  = Build_shr_record (m / 2) (Z.odd m) (r || s).
Proof.
  intros Hm. destruct m as [|p|p]; [reflexivity| |lia].
  destruct p as [p|p|]; cbn [shr_1].
  - f_equal. rewrite Pos2Z.inj_xI. 
    replace (2 * Z.pos p + 1) with (1 + Z.pos p * 2) by lia.
    rewrite Z.div_add by lia. reflexivity.
  - f_equal. rewrite Pos2Z.inj_xO. 
    replace (2 * Z.pos p) with (0 + Z.pos p * 2) by lia.
    rewrite Z.div_add by lia. reflexivity.
  - reflexivity.
Qed.

Lemma shifted_iter (m0 : Z) (j : nat) :
  0 <= m0 ->
  shifted m0 j (Nat.iter j shr_1 (Build_shr_record m0 false false)).
Proof.
  intros Hm. induction j as [|j IH].
  - cbn. unfold shifted. cbn. split; [now rewrite Z.div_1_r|].
    exists 0. rewrite Z.mod_1_r. repeat split; try lia; try discriminate.
  - rewrite Nat.iter_succ. destruct (Nat.iter j shr_1 _) as [m r s].
    destruct IH as [Hq (t & Ht & Hrem & Hs)]. cbn [shr_m shr_r shr_s] in *.
    assert (Hq0 : 0 <= m) by (subst m; apply Z.div_pos; lia).
    rewrite shr_1_spec by exact Hq0.
    assert (Hp : 2 ^ Z.of_nat (S j) = 2 * 2 ^ Z.of_nat j)
      by (rewrite Nat2Z.inj_succ, Z.pow_succ_r; lia).
    assert (Hpos : 0 < 2 ^ Z.of_nat j) by (apply Z.pow_pos_nonneg; lia).
    split; cbn [shr_m shr_r shr_s].
    + rewrite Hq, Hp, Z.mul_comm, <- Z.div_div by lia. reflexivity. 
    + exists (m0 mod 2 ^ Z.of_nat j).
      pose proof (Z.mod_pos_bound m0 (2 ^ Z.of_nat j) Hpos) as Hb.
      split; [lia|]. split.
      * rewrite Hp. rewrite Z.mul_comm with (n := 2) (m := 2 ^ Z.of_nat j).
        rewrite Z.rem_mul_r by lia. rewrite <- Hq.
        rewrite Zmod_odd. destruct (Z.odd m); lia.
      * destruct r, s; cbn [orb]; split; intros H; try reflexivity; try lia;
          try discriminate.
        all: destruct Hs as [Hs1 Hs2]; first [specialize (Hs1 eq_refl); lia
                                             | exfalso; assert (Ht0 : t <> 0) by lia;
                                               specialize (Hs2 Ht0); discriminate].
Qed.

Lemma digits2_bounds (p : positive) :
  2 ^ (Z.pos (digits2_pos p) - 1) <= Z.pos p < 2 ^ Z.pos (digits2_pos p).
Proof.
  induction p as [p IH|p IH|]; cbn [digits2_pos].
  - rewrite Pos2Z.inj_succ.
    replace (Z.succ (Z.pos (digits2_pos p)) - 1) with (Z.succ (Z.pos (digits2_pos p) - 1)) by lia.
    rewrite !Z.pow_succ_r by lia. lia.
  - rewrite Pos2Z.inj_succ.
    replace (Z.succ (Z.pos (digits2_pos p)) - 1) with (Z.succ (Z.pos (digits2_pos p) - 1)) by lia.
    rewrite !Z.pow_succ_r by lia. lia.
  - cbn. lia.
Qed.

Lemma digits2_unique (p : positive) (d : Z) :
  2 ^ (d - 1) <= Z.pos p < 2 ^ d -> Z.pos (digits2_pos p) = d.
Proof.
  intros [Hlo Hhi]. pose proof (digits2_bounds p) as [Hl Hh].
  assert (0 < d).
  { destruct (Z_lt_le_dec 0 d); [assumption|].
    assert (2 ^ d <= 2 ^ 0) by (destruct (Z_lt_le_dec d 0);
      [rewrite Z.pow_neg_r by lia; cbn; lia | apply Z.pow_le_mono_r; lia]).
    cbn in *. lia. }
  assert (d - 1 < Z.pos (digits2_pos p)).
  { apply (Z.pow_lt_mono_r_iff 2); lia. }
  assert (Z.pos (digits2_pos p) - 1 < d).
  { apply (Z.pow_lt_mono_r_iff 2); lia. }
  lia.
Qed.

(** The rounded quotient is within half a unit of the exact one. *)
Lemma nearest_even_spec (m0 : Z) (j : nat) (mrs : shr_record) :
  0 <= m0 -> shifted m0 j mrs ->
  let R := round_nearest_even (shr_m mrs) (loc_of_shr_record mrs) in
  m0 / 2 ^ Z.of_nat j <= R <= m0 / 2 ^ Z.of_nat j + 1
  /\ 2 * Z.abs (m0 - R * 2 ^ Z.of_nat j) <= 2 ^ Z.of_nat j.
Proof.
  intros Hm [Hq (t & Ht & Hrem & Hs)]. destruct mrs as [q r sb].
  cbn [shr_m shr_r shr_s] in *. subst q.
  assert (Hpos : 0 < 2 ^ Z.of_nat j) by (apply Z.pow_pos_nonneg; lia).
  pose proof (Z.div_mod m0 (2 ^ Z.of_nat j) ltac:(lia)) as Hdm.
  set (P := 2 ^ Z.of_nat j) in *. set (q := m0 / P) in *. set (rem := m0 mod P) in *.
  assert (Ht0 : sb = false -> t = 0).
  { intros ->. destruct (Z.eq_dec t 0) as [|Hne]; [assumption|].
    apply Hs in Hne. discriminate. }
  destruct r, sb; cbn [loc_of_shr_record round_nearest_even]; cbv zeta;
    try specialize (Ht0 eq_refl).
  - split; [lia|]. lia.
  - destruct (Z.even q); split; lia.
  - split; lia.
  - split; lia.
Qed.

Lemma shr_fexp_exact (m : positive) (e : Z) :
  -1000 <= e -> Z.pos (digits2_pos m) <= 53 ->
  shr_fexp 53 1024 (Z.pos m) e loc_Exact = (Build_shr_record (Z.pos m) false false, e).
Proof.
  intros He Hd. unfold shr_fexp, fexp, emin, shr, Zdigits2, shr_record_of_loc.
  replace (Z.max (Z.pos (digits2_pos m) + e - 53) (3 - 1024 - 53) - e)
    with (Z.pos (digits2_pos m) - 53) by lia.
  destruct (Z.pos (digits2_pos m) - 53) eqn:E; try reflexivity. lia.
Qed.

Lemma shr_fexp_shift (m : positive) (e : Z) (s : positive) :
  -1000 <= e -> Z.pos (digits2_pos m) = 53 + Z.pos s ->
  shr_fexp 53 1024 (Z.pos m) e loc_Exact
  = (Nat.iter (Pos.to_nat s) shr_1 (Build_shr_record (Z.pos m) false false), e + Z.pos s).
Proof.
  intros He Hd. unfold shr_fexp, fexp, emin, shr, Zdigits2, shr_record_of_loc.
  replace (Z.max (Z.pos (digits2_pos m) + e - 53) (3 - 1024 - 53) - e)
    with (Z.pos s) by lia.
  now rewrite iter_pos_nat.
Qed.

(** Rounding [m * 2^e]: the result is [v * 2^(e + s)], where [s] is the
    number of digits of [m] beyond 53 and [v] is within half a unit of
    [m / 2^s]; nothing is lost when [m] has at most 53 digits. *)
Lemma binary_round_aux_spec (m : positive) (e : Z) :
  -200 <= e <= 200 -> Z.pos m < 2 ^ 300 ->
  exists m' e' s v,
    binary_round_aux 53 1024 false (Z.pos m) e loc_Exact = S754_finite false m' e'
    /\ 0 <= s /\ e + s <= e' <= e + s + 1
    /\ (s = 0 -> Z.pos m < 2 ^ 53)
    /\ (0 < s -> 2 ^ (52 + s) <= Z.pos m < 2 ^ (53 + s))
    /\ Z.pos m' * 2 ^ (e' + 200) = v * 2 ^ (e + s + 200)
    /\ 2 * Z.abs (Z.pos m - v * 2 ^ s) <= (if s =? 0 then 0 else 2 ^ s).
Proof.
  intros He Hm. pose proof (digits2_bounds m) as Hd.
  assert (Hd300 : Z.pos (digits2_pos m) <= 300).
  { destruct (Z_le_gt_dec (Z.pos (digits2_pos m)) 300) as [|Hgt]; [assumption|].
    assert (2 ^ 300 <= 2 ^ (Z.pos (digits2_pos m) - 1)) by (apply Z.pow_le_mono_r; lia).
    lia. }
  destruct (Z_le_gt_dec (Z.pos (digits2_pos m)) 53) as [Hle|Hgt].
  - exists m, e, 0, (Z.pos m). unfold binary_round_aux.
    rewrite shr_fexp_exact by lia.
    cbn [shr_m loc_of_shr_record round_nearest_even].
    rewrite shr_fexp_exact by lia. cbn [shr_m].
    replace (e <=? 1024 - 53) with true by (symmetry; apply Z.leb_le; lia).
    assert (2 ^ Z.pos (digits2_pos m) <= 2 ^ 53) by (apply Z.pow_le_mono_r; lia).
    repeat split; try lia.
    + now rewrite Z.add_0_r.
    + rewrite Z.pow_0_r, Z.mul_1_r, Z.sub_diag. cbn. lia.
  - destruct (Z.pos (digits2_pos m) - 53) as [|s|s] eqn:Es; try lia.
    assert (Hdig : Z.pos (digits2_pos m) = 53 + Z.pos s) by lia.
    unfold binary_round_aux. rewrite (shr_fexp_shift m e s) by lia.
    pose proof (shifted_iter (Z.pos m) (Pos.to_nat s) (Pos2Z.is_nonneg m)) as Hsh.
    pose proof (nearest_even_spec _ _ _ (Pos2Z.is_nonneg m) Hsh) as HR. cbv zeta in HR.
    rewrite positive_nat_Z in HR.
    set (R := round_nearest_even _ _) in *.
    rewrite Hdig in Hd.
    replace (53 + Z.pos s - 1) with (52 + Z.pos s) in Hd by lia.
    rewrite !Z.pow_add_r in Hd by lia.
    assert (Hpos : 0 < 2 ^ Z.pos s) by (apply Z.pow_pos_nonneg; lia).
    assert (Hq : 2 ^ 52 <= Z.pos m / 2 ^ Z.pos s < 2 ^ 53).
    { split; [apply Z.div_le_lower_bound; lia | apply Z.div_lt_upper_bound; lia]. }
    destruct HR as [[HR1 HR2] HR3].
    destruct R as [|Rp|Rp] eqn:ER; try lia.
    assert (H2 : 2 <= 2 ^ Z.pos s)
      by (change 2 with (2 ^ 1) at 1; apply Z.pow_le_mono_r; lia).
    destruct (Z_lt_le_dec (Z.pos Rp) (2 ^ 53)) as [Hlt|Hge].
    + exists Rp, (e + Z.pos s), (Z.pos s), (Z.pos Rp).
      rewrite shr_fexp_exact; [| lia | rewrite (digits2_unique Rp 53); lia].
      cbn [shr_m].
      replace (e + Z.pos s <=? 1024 - 53) with true by (symmetry; apply Z.leb_le; lia).
      repeat split; try lia; rewrite ?Z.pow_add_r by lia; cbn [Z.eqb]; try lia;
        try exact HR3.
    + assert (HRp : Rp = (2 ^ 53)%positive).
      { apply Pos2Z.inj. change (Z.pos (2 ^ 53)) with (2 ^ 53). lia. }
      subst Rp.
      exists (2 ^ 52)%positive, (e + Z.pos s + 1), (Z.pos s), (2 ^ 53).
      rewrite (shr_fexp_shift _ _ 1) by (try reflexivity; lia).
      cbn [Pos.to_nat Pos.iter_op Nat.add Nat.iter nat_rect shr_1 shr_m].
      replace (e + Z.pos s + 1 <=? 1024 - 53) with true by (symmetry; apply Z.leb_le; lia).
      change (Z.pos (2 ^ 53)) with (2 ^ 53) in HR3.
      repeat split; try lia; rewrite ?Z.pow_add_r by lia; cbn [Z.eqb]; try lia;
        try exact HR3.
      replace (e + Z.pos s + 1 + 200) with (Z.succ (e + Z.pos s + 200)) by lia.
      rewrite Z.pow_succ_r by lia.
      change (Z.pos (2 ^ 52)) with (2 ^ 52). change (2 ^ 53) with (2 * 2 ^ 52). lia.
Qed.

Lemma iter_xO (p d : positive) : Z.pos (Pos.iter xO p d) = Z.pos p * 2 ^ Z.pos d.
Proof.
  induction d as [|d IH] using Pos.peano_ind.
  - cbn [Pos.iter]. rewrite Pos2Z.inj_xO. change (2 ^ 1) with 2. lia.
  - rewrite Pos.iter_succ, Pos2Z.inj_xO, IH, Pos2Z.inj_succ, Z.pow_succ_r; lia.
Qed.

(** The same for [binary_round], which first normalizes a short mantissa. *)
Lemma binary_round_spec (m : positive) (e : Z) :
  -100 <= e <= 200 -> Z.pos m < 2 ^ 300 ->
  exists m' e' s v,
    binary_round 53 1024 false m e = S754_finite false m' e'
    /\ 0 <= s /\ -200 <= e'
    /\ (s = 0 -> v = Z.pos m)
    /\ (0 < s -> 2 ^ (52 + s) <= Z.pos m < 2 ^ (53 + s))
    /\ Z.pos m' * 2 ^ (e' + 200) = v * 2 ^ (e + s + 200)
    /\ 2 * Z.abs (Z.pos m - v * 2 ^ s) <= (if s =? 0 then 0 else 2 ^ s).
Proof.
  intros He Hm. pose proof (digits2_bounds m) as Hd.
  unfold binary_round, fexp, emin, shl_align.
  replace (Z.max (Z.pos (digits2_pos m) + e - 53) (3 - 1024 - 53))
    with (Z.pos (digits2_pos m) + e - 53) by lia.
  replace (Z.pos (digits2_pos m) + e - 53 - e)
    with (Z.pos (digits2_pos m) - 53) by lia.
  destruct (Z.pos (digits2_pos m) - 53) as [|n|n] eqn:En.
  - destruct (binary_round_aux_spec m e ltac:(lia) Hm)
      as (m' & e' & s & v & Hr & Hs & He' & Hs0 & Hs1 & Hv & Ha).
    exists m', e', s, v. repeat split; try assumption; try lia; try apply Hs1; try assumption.
    intros ->. cbn [Z.eqb] in Ha. rewrite Z.pow_0_r in Ha. lia.
  - destruct (binary_round_aux_spec m e ltac:(lia) Hm)
      as (m' & e' & s & v & Hr & Hs & He' & Hs0 & Hs1 & Hv & Ha).
    exists m', e', s, v. repeat split; try assumption; try lia; try apply Hs1; try assumption.
    intros ->. cbn [Z.eqb] in Ha. rewrite Z.pow_0_r in Ha. lia.
  - assert (Hn : Z.pos n <= 52) by lia.
    assert (Hdig : Z.pos (digits2_pos m) = 53 - Z.pos n) by lia.
    assert (Hp : 0 < 2 ^ Z.pos n) by (apply Z.pow_pos_nonneg; lia).
    assert (Hm2 : Z.pos (Pos.iter xO m n) < 2 ^ 53).
    { rewrite iter_xO.
      replace (2 ^ 53) with (2 ^ Z.pos (digits2_pos m) * 2 ^ Z.pos n)
        by (rewrite <- Z.pow_add_r by lia; f_equal; lia).
      apply Z.mul_lt_mono_pos_r; lia. }
    destruct (binary_round_aux_spec (Pos.iter xO m n)
                (Z.pos (digits2_pos m) + e - 53) ltac:(lia) ltac:(lia))
      as (m' & e' & s & v & Hr & Hs & He' & Hs0 & Hs1 & Hv & Ha).
    assert (s = 0).
    { destruct (Z.eq_dec s 0) as [|Hne]; [assumption|].
      assert (H53 : 2 ^ 53 <= 2 ^ (52 + s)) by (apply Z.pow_le_mono_r; lia).
      specialize (Hs1 ltac:(lia)). lia. }
    subst s. cbn [Z.eqb] in Ha. rewrite Z.pow_0_r in Ha.
    rewrite iter_xO in Ha.
    assert (Hv0 : v = Z.pos m * 2 ^ Z.pos n) by lia.
    exists m', e', 0, (Z.pos m). rewrite Hr. clear Hr Hm2.
    repeat split; try lia.
    + rewrite Hv, Hv0.
      replace (e + 0 + 200) with ((Z.pos (digits2_pos m) + e - 53 + 0 + 200) + Z.pos n) by lia.
      rewrite (Z.pow_add_r 2 (Z.pos (digits2_pos m) + e - 53 + 0 + 200) (Z.pos n)) by lia.
      lia.
    + cbn [Z.eqb]. rewrite Z.pow_0_r. lia.
Qed.

(** Rounding to the nearest multiple of [g] does not leave an interval whose
    ends are multiples of [g]. *)
Lemma nearest_between (g a b v V : Z) :
  0 < g -> a * g <= V <= b * g -> 2 * Z.abs (V - v * g) <= g ->
  a * g <= v * g <= b * g.
Proof.
  intros Hg HV Hn.
  assert (a <= v).
  { destruct (Z_lt_le_dec v a) as [Hlt|]; [exfalso|assumption].
    assert ((v + 1) * g <= a * g) by (apply Z.mul_le_mono_nonneg_r; lia). lia. }
  assert (v <= b).
  { destruct (Z_lt_le_dec b v) as [Hlt|]; [exfalso|assumption].
    assert ((b + 1) * g <= v * g) by (apply Z.mul_le_mono_nonneg_r; lia). lia. }
  split; apply Z.mul_le_mono_nonneg_r; lia.
Qed.

(** ** The verification code *)

Ltac digit_cases k :=
  destruct k as [|k]; [try reflexivity|];
  do 4 (try (destruct k as [k|k|]; try reflexivity)).

Lemma of_lu_digit (k : N) (d : Decimal.uint) :
  (k < 10)%N -> Unsigned.of_lu (digit k d) = (k + 10 * Unsigned.of_lu d)%N.
Proof.
  intros H.
  assert (Hk : (k = 0 \/ k = 1 \/ k = 2 \/ k = 3 \/ k = 4 \/ k = 5 \/ k = 6 \/ k = 7
               \/ k = 8 \/ k = 9)%N) by lia.
  repeat (destruct Hk as [-> | Hk]); subst; reflexivity.
Qed.

Lemma revapp_digit (k : N) (d d' : Decimal.uint) :
  Decimal.revapp (digit k d) d' = Decimal.revapp d (digit k d').
Proof. digit_cases k. Qed.

Lemma length_digit (k : N) (d : Decimal.uint) :
  js_length (NilEmpty.string_of_uint (digit k d))
  = S (js_length (NilEmpty.string_of_uint d)).
Proof. digit_cases k. Qed.

Lemma unorm_digit (k : N) (d : Decimal.uint) :
  k <> 0%N -> Decimal.unorm (digit k d) = digit k d.
Proof. intros H. digit_cases k. contradiction. Qed.

Lemma nilzero_digit (k : N) (d : Decimal.uint) :
  NilZero.string_of_uint (digit k d) = NilEmpty.string_of_uint (digit k d).
Proof. digit_cases k. Qed.

(** The decimal writing of a number between 100000 and 999999. *)
Lemma to_uint_six_digits (n : N) :
  (100000 <= n < 1000000)%N -> N.to_uint n = six_digits n.
Proof.
  intros H.
  assert (Hof : N.of_uint (six_digits n) = n).
  { unfold N.of_uint. rewrite Unsigned.of_uint_alt. unfold Decimal.rev, six_digits.
    rewrite !revapp_digit. cbn [Decimal.revapp].
    rewrite !of_lu_digit; cbn [Unsigned.of_lu];
      try (apply N.mod_lt; discriminate).
    - pose proof (N.Div0.div_mod n 10) as E0.
      pose proof (N.Div0.div_mod (n / 10) 10) as E1.
      pose proof (N.Div0.div_mod (n / 100) 10) as E2.
      pose proof (N.Div0.div_mod (n / 1000) 10) as E3.
      pose proof (N.Div0.div_mod (n / 10000) 10) as E4.
      rewrite !N.Div0.div_div in E1, E2, E3, E4.
      change (10 * 10)%N with 100%N in *. change (100 * 10)%N with 1000%N in *.
      change (1000 * 10)%N with 10000%N in *. change (10000 * 10)%N with 100000%N in *.
      generalize dependent (n mod 10)%N. generalize dependent ((n / 10) mod 10)%N.
      generalize dependent ((n / 100) mod 10)%N. generalize dependent ((n / 1000) mod 10)%N.
      generalize dependent ((n / 10000) mod 10)%N.
      generalize dependent (n / 10)%N. generalize dependent (n / 100)%N.
      generalize dependent (n / 1000)%N. generalize dependent (n / 10000)%N.
      generalize dependent (n / 100000)%N. intros. lia.
    - apply N.Div0.div_lt_upper_bound. lia. }
  rewrite <- Hof at 1. rewrite DecimalN.Unsigned.to_of.
  unfold six_digits. apply unorm_digit.
  intros H0. apply N.div_small_iff in H0; lia.
Qed.

Lemma toString_six (n : Z) :
  100000 <= n < 1000000 -> js_length (toString n) = 6%nat.
Proof.
  intros H. unfold toString.
  rewrite to_uint_six_digits by lia.
  unfold six_digits. rewrite nilzero_digit, !length_digit. reflexivity.
Qed.

Lemma Math_floor_scaled (m : positive) (e : Z) :
  -200 <= e ->
  Math_floor (S754_finite false m e) = (Z.pos m * 2 ^ (e + 200)) / 2 ^ 200.
Proof.
  intros He. unfold Math_floor, cond_Zopp.
  destruct (0 <=? e) eqn:E.
  - apply Z.leb_le in E. rewrite Z.pow_add_r by lia.
    rewrite Z.mul_assoc, Z.div_mul by (apply Z.pow_nonzero; lia). reflexivity.
  - apply Z.leb_gt in E.
    replace (2 ^ 200) with (2 ^ (- e) * 2 ^ (e + 200))
      by (rewrite <- Z.pow_add_r by lia; f_equal; lia).
    rewrite Z.div_mul_cancel_r; [reflexivity | apply Z.pow_nonzero; lia
                                | apply Z.pow_nonzero; lia].
Qed.

(** The rounded product [Math.random() * 900000] is at most
    900000 - 2^-33, the double just below 900000. *)
Lemma product_bound (p : positive) :
  Z.pos p < 2 ^ 53 ->
  exists m1 e1,
    double_mul (S754_finite false p (-53)) (double_of_Z 900000)
    = S754_finite false m1 e1
    /\ -53 <= e1 <= -32
    /\ Z.pos m1 * 2 ^ (e1 + 200) <= 900000 * 2 ^ 200 - 2 ^ 167.
Proof.
  intros Hp. unfold double_mul, double_of_Z, SFmul. cbn [xorb]. rewrite Z.add_0_r.
  assert (HM : Z.pos (p * 900000) <= (2 ^ 53 - 1) * 900000) by (rewrite Pos2Z.inj_mul; lia).
  destruct (binary_round_aux_spec (p * 900000) (-53) ltac:(lia) ltac:(lia))
    as (m1 & e1 & s & v & Hr & Hs & He & Hs0 & Hs1 & Hv & Ha).
  exists m1, e1. split; [exact Hr|].
  set (M := Z.pos (p * 900000)) in *. clearbody M. clear Hr.
  destruct (Z.eq_dec s 0) as [->|Hne].
  - specialize (Hs0 eq_refl). cbn [Z.eqb] in Ha. rewrite Z.pow_0_r in Ha.
    split; [lia|]. rewrite Hv. change (-53 + 0 + 200) with 147.
    assert (v = M) by lia. subst v. lia.
  - specialize (Hs1 ltac:(lia)).
    assert (Hs20 : s <= 20).
    { assert (52 + s < 73); [|lia]. apply (Z.pow_lt_mono_r_iff 2); lia. }
    split; [lia|]. rewrite Hv.
    replace (-53 + s + 200) with (s + 147) by lia. rewrite Z.pow_add_r by lia.
    replace (s =? 0) with false in Ha by (symmetry; apply Z.eqb_neq; lia).
    destruct (Z.eq_dec s 20) as [->|Hne20].
    + change (2 ^ 20) with 1048576 in *. lia.
    + assert (2 ^ s <= 2 ^ 19) by (apply Z.pow_le_mono_r; lia).
      assert (2 ^ (53 + s) <= 2 ^ 72) by (apply Z.pow_le_mono_r; lia).
      assert (0 < 2 ^ s) by (apply Z.pow_pos_nonneg; lia).
      rewrite Z.mul_assoc. set (W := v * 2 ^ s) in *. lia.
Qed.

(** Adding 100000 to a double of at most 900000 - 2^-33 and rounding gives
    a double in [100000, 1000000 - 2^-33]. *)
Lemma sum_bound (m1 : positive) (e1 : Z) :
  -53 <= e1 <= -32 ->
  Z.pos m1 * 2 ^ (e1 + 200) <= 900000 * 2 ^ 200 - 2 ^ 167 ->
  100000 <= Math_floor (double_add (double_of_Z 100000) (S754_finite false m1 e1))
  < 1000000.
Proof.
  intros He Hx. unfold double_add, double_of_Z, SFadd.
  replace (Z.min 0 e1) with e1 by lia.
  unfold shl_align. rewrite Z.sub_diag.
  destruct e1 as [|e1|d]; try lia.
  rewrite Z.sub_0_r. cbn [fst cond_Zopp]. rewrite <- Pos2Z.inj_add.
  cbn [binary_normalize].
  assert (Hg0 : 0 < 2 ^ (Z.neg d + 200)) by (apply Z.pow_pos_nonneg; lia).
  assert (HS : Z.pos (Pos.iter xO 100000%positive d + m1) * 2 ^ (Z.neg d + 200)
               = 100000 * 2 ^ 200 + Z.pos m1 * 2 ^ (Z.neg d + 200)).
  { rewrite Pos2Z.inj_add, iter_xO, Z.mul_add_distr_r. f_equal.
    rewrite <- Z.mul_assoc, <- Z.pow_add_r by lia. do 2 f_equal. lia. }
  assert (Hlt : Z.pos (Pos.iter xO 100000%positive d + m1) < 2 ^ 300).
  { assert (Z.pos (Pos.iter xO 100000%positive d + m1) * 1
            <= Z.pos (Pos.iter xO 100000%positive d + m1) * 2 ^ (Z.neg d + 200))
      by (apply Z.mul_le_mono_nonneg_l; lia).
    set (S0 := Z.pos (Pos.iter xO 100000%positive d + m1)) in *. lia. }
  destruct (binary_round_spec (Pos.iter xO 100000%positive d + m1) (Z.neg d) ltac:(lia) Hlt)
    as (m2 & e2 & s & v & Hr & Hs & He2 & Hs0 & Hs1 & Hv & Ha).
  rewrite Hr, Math_floor_scaled by exact He2. rewrite Hv.
  set (S0 := Z.pos (Pos.iter xO 100000%positive d + m1)) in *. clearbody S0. clear Hr Hlt.
  assert (Hres : 100000 * 2 ^ 200 <= v * 2 ^ (Z.neg d + s + 200)
                 <= (1000000 * 2 ^ 33 - 1) * 2 ^ 167).
  { destruct (Z.eq_dec s 0) as [->|Hne].
    - rewrite (Hs0 eq_refl), Z.add_0_r. lia.
    - specialize (Hs1 ltac:(lia)).
      replace (s =? 0) with false in Ha by (symmetry; apply Z.eqb_neq; lia).
      assert (Hexp : Z.neg d + s + 200 <= 167).
      { assert (52 + s + (Z.neg d + 200) < 220); [|lia].
        apply (Z.pow_lt_mono_r_iff 2); [lia|lia|].
        rewrite Z.pow_add_r by lia.
        assert (2 ^ (52 + s) * 2 ^ (Z.neg d + 200) <= S0 * 2 ^ (Z.neg d + 200))
          by (apply Z.mul_le_mono_nonneg_r; lia).
        lia. }
      set (g := 2 ^ (Z.neg d + s + 200)).
      assert (Hg : 0 < g) by (apply Z.pow_pos_nonneg; lia).
      assert (H167 : 2 ^ 167 = 2 ^ (167 - (Z.neg d + s + 200)) * g)
        by (unfold g; rewrite <- Z.pow_add_r by lia; f_equal; lia).
      assert (Hgs : g = 2 ^ s * 2 ^ (Z.neg d + 200))
        by (unfold g; rewrite <- Z.pow_add_r by lia; f_equal; lia).
      set (c := 2 ^ (167 - (Z.neg d + s + 200))) in *.
      replace (100000 * 2 ^ 200) with ((100000 * 2 ^ 33 * c) * g)
        by (change (2 ^ 200) with (2 ^ 33 * 2 ^ 167); rewrite H167; ring).
      replace ((1000000 * 2 ^ 33 - 1) * 2 ^ 167) with (((1000000 * 2 ^ 33 - 1) * c) * g)
        by (rewrite H167; ring).
      apply (nearest_between g _ _ v (S0 * 2 ^ (Z.neg d + 200)) Hg).
      + rewrite HS.
        replace (100000 * 2 ^ 33 * c * g) with (100000 * 2 ^ 200)
          by (change (2 ^ 200) with (2 ^ 33 * 2 ^ 167); rewrite H167; ring).
        replace ((1000000 * 2 ^ 33 - 1) * c * g) with ((1000000 * 2 ^ 33 - 1) * 2 ^ 167)
          by (rewrite H167; ring).
        lia.
      + rewrite Hgs, Z.mul_assoc, <- Z.mul_sub_distr_r, Z.abs_mul.
        rewrite (Z.abs_eq (2 ^ (Z.neg d + 200))) by lia.
        rewrite Z.mul_assoc. apply Z.mul_le_mono_nonneg_r; lia. }
  split.
  - apply Z.div_le_lower_bound; lia.
  - apply Z.div_lt_upper_bound; lia.
Qed.

(** The floor of the rounded sum has six digits. *)
Lemma code_range (env : Env) :
  random_in_range env ->
  100000 <= Math_floor (double_add (double_of_Z 100000)
                                   (double_mul (random_double env) (double_of_Z 900000)))
  < 1000000.
Proof.
  unfold random_in_range, random_double. intros [Hlo Hhi].
  destruct (Math_random env) as [|p|p]; try lia.
  - vm_compute. split; [discriminate|reflexivity].
  - destruct (product_bound p Hhi) as (m1 & e1 & -> & He & Hb).
    now apply sum_bound.
Qed.

Lemma nonempty_of_length (s : string) (n : nat) :
  js_length s = S n -> s <> "".
Proof. intros H ->. discriminate H. Qed.

Lemma generated_code_length (env : Env) :
  random_in_range env -> js_length (generateVerificationCode env) = 6%nat.
Proof. intros Hr. apply toString_six, code_range, Hr. Qed.

(** The product is rounded before the sum is: for this value of
    [Math.random()] the exact quotient would give 574616. *)
Example generated_code_rounding :
  generateVerificationCode (mkEnv 1000 4749966542986006 (fun _ => []) "r1") = "574617"
  /\ generateVerificationCode (mkEnv 1000 (2 ^ 53 - 1) (fun _ => []) "r1") = "999999".
Proof. split; vm_compute; reflexivity. Qed.

(** X1: whatever double of [0, 1) [Math.random()] returns, with the product
    and the sum rounded as the doubles they are, the generated verification
    code is the decimal writing of an integer between 100000 and 999999: it
    has exactly six characters, so it is a string that the [length(6)] rule
    of the /verify-email schema accepts. *)
Theorem generated_code_has_six_characters (env : Env) :
  random_in_range env ->
  (exists n, 100000 <= n <= 999999 /\ generateVerificationCode env = toString n)
  /\ js_length (generateVerificationCode env) = 6%nat
  /\ forall je,
       validate_string je (with_length 6 joi_string) (JStr (generateVerificationCode env))
       = inr (generateVerificationCode env).
Proof.
  intros Hr.
  pose proof (generated_code_length env Hr) as Hlen.
  split; [|split; [exact Hlen|]].
  { eexists. split; [|reflexivity]. pose proof (code_range env Hr). lia. }
  intros je. unfold validate_string. cbn [with_length joi_string rule_valid].
  pose proof (nonempty_of_length _ _ Hlen) as Hne.
  apply String.eqb_neq in Hne. rewrite Hne.
  unfold check_rules. cbn [rule_email rule_min rule_max rule_length andb].
  now rewrite Hlen.
Qed.

Lemma generated_code_has_six_characters_witness :
  (exists n, 100000 <= n <= 999999
             /\ generateVerificationCode (mkEnv 1000 4749966542986006 (fun _ => []) "r1")
                = toString n)
  /\ js_length (generateVerificationCode (mkEnv 1000 (2 ^ 53 - 1) (fun _ => []) "r1")) = 6%nat
  /\ forall je,
       validate_string je (with_length 6 joi_string)
                       (JStr (generateVerificationCode (sample_env 1000 "r1")))
       = inr (generateVerificationCode (sample_env 1000 "r1")).
Proof.
  split; [|split].
  - apply (generated_code_has_six_characters (mkEnv 1000 4749966542986006 (fun _ => []) "r1")).
    unfold random_in_range. cbn. split; [discriminate|reflexivity].
  - apply (generated_code_has_six_characters (mkEnv 1000 (2 ^ 53 - 1) (fun _ => []) "r1")).
    unfold random_in_range. cbn. split; [discriminate|reflexivity].
  - apply (generated_code_has_six_characters (sample_env 1000 "r1")).
    unfold random_in_range. cbn. split; [discriminate|reflexivity].
Defined.

(** ** Request, then verify *)

Lemma find_update_first_hit {A : Type} (p q : A -> bool) (f : A -> A) (l : list A) (r : A) :
  q (f r) = true ->
  find q l = Some r -> find p l = Some r ->
  find q (update_first p f l) = Some (f r).
Proof.
  intros Hq. induction l as [|y t IH]; cbn [find update_first]; [discriminate|].
  destruct (p y) eqn:Hp.
  - intros Hqr [= ->]. cbn [find]. now rewrite Hq.
  - destruct (q y) eqn:Hy.
    + intros [= ->] Hpr. apply find_holds in Hpr. congruence.
    + intros Hqr Hpr. cbn [find]. rewrite Hy. now apply IH.
Qed.

Lemma validate_email_rule (je : string -> bool) (e s : string) :
  validate_string je (with_email joi_string) (JStr e) = inr s -> je e = true /\ e <> "".
Proof.
  intros H. apply validate_string_inr in H. cbn [with_email joi_string rule_valid] in H.
  destruct H as (Heq & Hne & Hrules). injection Heq as ->.
  split; [|exact Hne].
  unfold check_rules in Hrules. cbn [with_email rule_email andb] in Hrules.
  destruct (je s); [reflexivity|discriminate].
Qed.

(** The address of a body that a schema accepted satisfies the e-mail
    rule. *)
Lemma accepted_email (je : string -> bool) (keys : ObjectSchema) (o : jsobj)
    (value : list (string * string)) (e : string) :
  validate je (("email", with_email joi_string) :: keys) o = inr value ->
  get_prop o "email" = JStr e ->
  je e = true /\ e <> "".
Proof.
  intros H He. apply validate_inr in H. cbn [validate_keys] in H. rewrite He in H.
  destruct (validate_string je (with_email joi_string) (JStr e)) as [|s] eqn:Hv;
    [discriminate|].
  eapply validate_email_rule; eassumption.
Qed.

Lemma validate_verify_body (je : string -> bool) (email code : string) :
  je email = true -> email <> "" -> js_length code = 6%nat ->
  validate je verifyEmailSchema (verify_body email code)
  = inr [("email", email); ("verificationCode", code)].
Proof.
  intros Hje Hne Hlen.
  pose proof (nonempty_of_length _ _ Hlen) as Hc.
  apply String.eqb_neq in Hne, Hc.
  unfold validate, verifyEmailSchema, verify_body. cbn.
  unfold check_rules. cbn. rewrite Hne, Hc, Hje, Hlen. reflexivity.
Qed.

(** The row an upsert leaves behind for the address. *)
Lemma upsert_lookup (env : Env) (email firstName lastName role code : string)
    (expires : Z) (l l' : list RR.t) (r : RR.t) :
  upsertRequest env email firstName lastName role code expires l = Some (l', r) ->
  find (request_by_email email) l' = Some r
  /\ RR.email r = email /\ RR.role r = role
  /\ RR.firstName r = firstName /\ RR.lastName r = lastName
  /\ RR.status r = PENDING
  /\ RR.verificationCode r = Some code
  /\ RR.verificationExpires r = Some expires.
Proof.
  unfold upsertRequest.
  destruct (find (request_by_email email) l) as [x|] eqn:Hx.
  - intros [= <- <-]. pose proof (find_holds _ _ _ Hx) as Hmail.
    split; [|repeat split].
    + apply find_update_first_same; [exact Hx|exact Hmail].
    + unfold request_by_email in Hmail. now apply String.eqb_eq in Hmail.
  - destruct (existsb (request_by_id (generated_id env)) l); [discriminate|].
    intros [= <- <-]. split; [|repeat split].
    rewrite (find_app_none _ _ _ Hx). unfold request_by_email, fresh_request.
    cbn [RR.email]. now rewrite String.eqb_refl.
Qed.

(** What /verify-email does with the right code. *)
Lemma verify_right_code (P : Platform) (env : Env) (st : Store) (req : Request)
    (email code : string) (r : RR.t) :
  validate (joi_email P) verifyEmailSchema (body req)
  = inr [("email", email); ("verificationCode", code)] ->
  findRequest_email st email = Some r ->
  RR.status r = PENDING ->
  RR.verificationCode r = Some code ->
  verify_email P env st req
  = if date_after (now env) (RR.verificationExpires r)
    then (st, code_expired)
    else (with_requests st (update_first (request_by_email email) clear_code
                              (prisma_userRegistrationRequest st)),
          mkResponse 200 (EmailVerified "VERIFIED_PENDING_APPROVAL")).
Proof.
  intros Hv Hr Hst Hcode.
  destruct (validate_verify_inr _ _ _ Hv) as (e' & c' & Heq & _ & He & _ & Hc).
  injection Heq as <- <-.
  unfold verify_email. rewrite Hv.
  cbn [field String.eqb Ascii.eqb Bool.eqb].
  rewrite !is_empty_false by assumption. cbn [orb].
  rewrite Hr, Hst. cbn [status_eqb negb]. rewrite Hcode.
  unfold differs. rewrite String.eqb_refl. cbn [negb].
  destruct (date_after (now env) (RR.verificationExpires r)); [reflexivity|].
  unfold findRequest_email in Hr. now rewrite (prisma_update_found _ _ _ _ Hr).
Qed.

(** X2: the code a successful /request-registration generates verifies the
    address for exactly one day.  A /verify-email with that address and that
    code succeeds when its clock is at most 24 h after the request's (the
    request stays PENDING and loses its code), and is refused with
    CODE_EXPIRED, nothing written, when it is later. *)
Theorem request_then_verify
    (P : Platform) (env1 env2 : Env) (st st1 : Store) (req : Request) (res1 : Response) :
  random_in_range env1 ->
  request_registration P env1 st req = (st1, res1) ->
  statusCode res1 = 200 ->
  exists email,
    get_prop (body req) "email" = JStr email
    /\ let out := verify_email P env2 st1
                    (public_request (verify_body email (generateVerificationCode env1))) in
       if now env2 <=? now env1 + one_day
       then statusCode (snd out) = 200
            /\ exists r, findRequest_email (fst out) email = Some r
                         /\ RR.status r = PENDING
                         /\ RR.verificationCode r = None
       else out = (st1, code_expired).
Proof.
  intros Hrand H Hok. apply request_registration_inv in H.
  destruct H as [[_ Hs]|(email & fn & ln & role & l & r & He & _ & _ & _ & _ & Hup & -> & _ & Hv)];
    [contradiction|].
  destruct (accepted_email _ _ _ _ _ Hv He) as [Hje Hne].
  destruct (upsert_lookup _ _ _ _ _ _ _ _ _ _ Hup)
    as (Hr & _ & _ & _ & _ & Hst & Hcode & Hexp).
  pose proof (generated_code_length env1 Hrand) as Hlen.
  exists email. split; [exact He|]. cbv zeta.
  rewrite (verify_right_code P env2 (with_requests st l)
             (public_request (verify_body email (generateVerificationCode env1)))
             email (generateVerificationCode env1) r
             (validate_verify_body _ _ _ Hje Hne Hlen) Hr Hst Hcode).
  rewrite Hexp. cbn [date_after].
  destruct (now env2 <=? now env1 + one_day) eqn:Hle.
  - apply Z.leb_le in Hle.
    replace (now env1 + one_day <? now env2) with false by (symmetry; apply Z.ltb_ge; lia).
    cbn [fst snd statusCode]. split; [reflexivity|].
    exists (clear_code r). split; [|split; [exact Hst|reflexivity]].
    unfold findRequest_email. cbn [with_requests prisma_userRegistrationRequest].
    apply find_update_first_same; [exact Hr|]. exact (find_holds _ _ _ Hr).
  - apply Z.leb_gt in Hle.
    replace (now env1 + one_day <? now env2) with true by (symmetry; apply Z.ltb_lt; lia).
    reflexivity.
Qed.

Lemma request_then_verify_witness :
  exists email,
    get_prop (body (public_request ann_body)) "email" = JStr email
    /\ let out := verify_email sample_platform (sample_env 86401000 "") pending_store
                    (public_request
                       (verify_body email (generateVerificationCode (sample_env 1000 "r1")))) in
       if now (sample_env 86401000 "") <=? now (sample_env 1000 "r1") + one_day
       then statusCode (snd out) = 200
            /\ exists r, findRequest_email (fst out) email = Some r
                         /\ RR.status r = PENDING
                         /\ RR.verificationCode r = None
       else out = (pending_store, code_expired).
Proof.
  apply (request_then_verify sample_platform (sample_env 1000 "r1") (sample_env 86401000 "")
           seeded pending_store (public_request ann_body)
           (mkResponse 200 (RequestSubmitted "r1"))).
  - unfold random_in_range. cbn. split; [discriminate|reflexivity].
  - vm_compute. reflexivity.
  - reflexivity.
Defined.

(** ** Approve, then complete *)

Lemma hex_digit_units (n : N) : utf16_units (hex_digit n) = 1%nat.
Proof.
  destruct n as [|p]; [reflexivity|].
  do 5 (try (destruct p as [p|p|]; try reflexivity)).
Qed.

Lemma to_hex_length (bs : list byte) :
  js_length (to_hex bs) = (2 * List.length bs)%nat.
Proof.
  induction bs as [|b t IH]; cbn [to_hex js_length List.length]; [reflexivity|].
  rewrite !hex_digit_units, IH. lia.
Qed.

(** With unique addresses, a stored row is the one its address finds. *)
Lemma find_by_own_email (l : list RR.t) (r : RR.t) :
  NoDup (map RR.email l) -> In r l ->
  find (request_by_email (RR.email r)) l = Some r.
Proof.
  induction l as [|y t IH]; cbn [map In find]; [intros _ []|].
  intros Hnd Hin. inversion Hnd as [|? ? Hy Ht]; subst.
  unfold request_by_email at 1.
  destruct (RR.email y =? RR.email r)%string eqn:He.
  - destruct Hin as [->|Hin]; [reflexivity|].
    apply String.eqb_eq in He. exfalso. apply Hy. rewrite He. now apply in_map.
  - destruct Hin as [->|Hin]; [now rewrite String.eqb_refl in He|].
    now apply IH.
Qed.

Lemma validate_complete_body (je : string -> bool) (email password token : string) :
  je email = true -> email <> "" ->
  (8 <= js_length password)%nat -> (10 <= js_length token)%nat ->
  validate je completeRegistrationSchema (complete_body email password token)
  = inr [("email", email); ("password", password); ("token", token)].
Proof.
  intros Hje Hne Hpw Htok.
  assert (Hp : password <> "") by (intros ->; cbn in Hpw; lia).
  assert (Ht : token <> "") by (intros ->; cbn in Htok; lia).
  apply String.eqb_neq in Hne, Hp, Ht.
  apply Nat.ltb_ge in Hpw, Htok.
  unfold validate, completeRegistrationSchema, complete_body. cbn -[Nat.ltb].
  unfold check_rules. cbn -[Nat.ltb]. rewrite Hne, Hp, Ht, Hje, Hpw, Htok. reflexivity.
Qed.

Lemma find_none_existsb {A : Type} (q : A -> bool) (l : list A) :
  find q l = None -> existsb q l = false.
Proof.
  induction l as [|y t IH]; cbn [find existsb]; [reflexivity|].
  destruct (q y); [discriminate|exact IH].
Qed.

(** What /complete-registration does with the right token. *)
Lemma complete_right_token (P : Platform) (env : Env) (st : Store) (req : Request)
    (email password token : string) (r : RR.t) :
  validate (joi_email P) completeRegistrationSchema (body req)
  = inr [("email", email); ("password", password); ("token", token)] ->
  findRequest_email st email = Some r ->
  RR.status r = APPROVED ->
  RR.completionToken r = Some token ->
  findUser_email st email = None ->
  find (user_by_id (generated_id env)) (prisma_user st) = None ->
  let u := User.mk (generated_id env) email (bcrypt_hash P password 12)
                   (RR.firstName r) (RR.lastName r) (RR.role r) true None in
  complete_registration P env st req
  = if token_expired (now env) (RR.completionTokenExpires r)
    then (st, completion_token_expired)
    else (mkStore (prisma_user st ++ [u])
                  (update_first (request_by_email email) consume_token
                     (prisma_userRegistrationRequest st)),
          mkResponse 200 (Authenticated "Registration completed successfully"
                            (jwt_sign P (session_claims u) (now env)) u)).
Proof.
  intros Hv Hr Hst Htok Hu Hfresh u.
  destruct (validate_complete_inr _ _ _ Hv)
    as (e' & p' & t' & Heq & _ & He & _ & Hp & _ & Ht).
  injection Heq as <- <- <-.
  unfold complete_registration. rewrite Hv.
  cbn [field String.eqb Ascii.eqb Bool.eqb].
  rewrite !is_empty_false by assumption. cbn [orb].
  rewrite Hr, Hst. cbn [status_eqb negb]. rewrite Htok.
  unfold token_mismatch. rewrite (is_empty_false _ Ht), String.eqb_refl. cbn [orb negb].
  destruct (token_expired (now env) (RR.completionTokenExpires r)); [reflexivity|].
  rewrite Hu. unfold createUser. cbn [User.id User.email].
  assert (Hid : existsb (user_by_id (generated_id env)) (prisma_user st) = false)
    by (now apply find_none_existsb).
  assert (Hmail : existsb (user_by_email email) (prisma_user st) = false)
    by (now apply find_none_existsb).
  rewrite Hid, Hmail. cbn [orb with_users prisma_userRegistrationRequest prisma_user].
  unfold findRequest_email in Hr. rewrite (prisma_update_found _ _ _ _ Hr).
  reflexivity.
Qed.

(** X3: the token a successful approval stores completes the registration
    for exactly twelve hours.  With unique keys, 24 random bytes, a password
    of at least 8 UTF-16 code units, no account for the address yet and a fresh user
    id, /complete-registration with the request's address and the hex token
    succeeds when its clock is at most 12 h after the approval's, creating one
    active user with the names and role of the request; later it is refused
    with COMPLETION_TOKEN_EXPIRED and nothing is written. *)
Theorem approve_then_complete
    (P : Platform) (env1 env2 : Env) (st st1 : Store) (req : Request) (res1 : Response)
    (password : string) :
  unique_keys st ->
  approve_route P env1 st req = (st1, res1) ->
  statusCode res1 = 200 ->
  List.length (randomBytes env1 24) = 24%nat ->
  exists r,
    findRequest_id st (requestId req) = Some r
    /\ (joi_email P (RR.email r) = true -> RR.email r <> "" ->
        (8 <= js_length password)%nat ->
        findUser_email st1 (RR.email r) = None ->
        find (user_by_id (generated_id env2)) (prisma_user st1) = None ->
        let out := complete_registration P env2 st1
                     (public_request (complete_body (RR.email r) password
                                                    (to_hex (randomBytes env1 24)))) in
        if now env2 <=? now env1 + twelve_hours
        then statusCode (snd out) = 200
             /\ prisma_user (fst out)
                = prisma_user st1
                  ++ [User.mk (generated_id env2) (RR.email r) (bcrypt_hash P password 12)
                              (RR.firstName r) (RR.lastName r) (RR.role r) true None]
        else out = (st1, completion_token_expired)).
Proof.
  intros (_ & _ & _ & Hmails) H Hok Hbytes. unfold approve_route in H.
  apply gated_route_inv in H.
  destruct H as [[_ [Hs|Hs]]|(admin & _ & _ & _ & H)];
    try (rewrite Hs in Hok; discriminate).
  apply approve_registration_inv in H.
  destruct H as [[_ Hs]|(r & admin' & notes & Hr & Hst & _ & _ & -> & _)];
    [contradiction|].
  cbn [set_user requestId] in *.
  exists r. split; [exact Hr|].
  intros Hje Hne Hpw Hu Hfresh.
  set (token := to_hex (randomBytes env1 24)).
  set (f := approve_data (now env1) Keep notes token (now env1 + twelve_hours)).
  assert (Hlen : js_length token = 48%nat)
    by (unfold token; rewrite to_hex_length, Hbytes; reflexivity).
  assert (Hr1 : findRequest_email
                  (with_requests st (update_first (request_by_id (requestId req)) f
                                       (prisma_userRegistrationRequest st)))
                  (RR.email r) = Some (f r)).
  { unfold findRequest_email, findRequest_id in *.
    cbn [with_requests prisma_userRegistrationRequest].
    apply find_update_first_hit.
    - unfold request_by_email, f. cbn [approve_data RR.email]. apply String.eqb_refl.
    - apply find_by_own_email; [exact Hmails|]. now apply find_some in Hr.
    - exact Hr. }
  cbv zeta.
  rewrite (complete_right_token P env2 _ (public_request (complete_body (RR.email r) password token))
             (RR.email r) password token (f r)
             (validate_complete_body _ _ _ _ Hje Hne Hpw ltac:(rewrite Hlen; lia))
             Hr1 eq_refl eq_refl Hu Hfresh).
  cbn [f approve_data RR.completionTokenExpires RR.firstName RR.lastName RR.role token_expired].
  destruct (now env2 <=? now env1 + twelve_hours) eqn:Hle.
  - apply Z.leb_le in Hle.
    replace (now env1 + twelve_hours <? now env2) with false
      by (symmetry; apply Z.ltb_ge; lia).
    cbn [fst snd statusCode prisma_user]. split; reflexivity.
  - apply Z.leb_gt in Hle.
    replace (now env1 + twelve_hours <? now env2) with true
      by (symmetry; apply Z.ltb_lt; lia).
    reflexivity.
Qed.

Ltac nodup_strings :=
  repeat (apply NoDup_cons; [cbn; intuition discriminate|]); apply NoDup_nil.

Lemma verified_store_unique : unique_keys verified_store.
Proof. unfold unique_keys. vm_compute. repeat split; nodup_strings. Qed.

Lemma approve_then_complete_witness :
  exists r,
    findRequest_id verified_store (requestId (admin_request "session:u-admin" "r1" [])) = Some r
    /\ (joi_email sample_platform (RR.email r) = true -> RR.email r <> "" ->
        (8 <= js_length "secret123")%nat ->
        findUser_email approved_store (RR.email r) = None ->
        find (user_by_id (generated_id (sample_env 4000 "u-2"))) (prisma_user approved_store)
        = None ->
        let out := complete_registration sample_platform (sample_env 4000 "u-2") approved_store
                     (public_request
                        (complete_body (RR.email r) "secret123"
                                       (to_hex (randomBytes (sample_env 3000 "") 24)))) in
        if now (sample_env 4000 "u-2") <=? now (sample_env 3000 "") + twelve_hours
        then statusCode (snd out) = 200
             /\ prisma_user (fst out)
                = prisma_user approved_store
                  ++ [User.mk (generated_id (sample_env 4000 "u-2")) (RR.email r)
                              (bcrypt_hash sample_platform "secret123" 12)
                              (RR.firstName r) (RR.lastName r) (RR.role r) true None]
        else out = (approved_store, completion_token_expired)).
Proof.
  apply (approve_then_complete sample_platform (sample_env 3000 "") (sample_env 4000 "u-2")
           verified_store approved_store (admin_request "session:u-admin" "r1" [])
           (mkResponse 200 (Message "Registration request approved successfully"))
           "secret123").
  - exact verified_store_unique.
  - vm_compute. reflexivity.
  - reflexivity.
  - reflexivity.
Defined.

(** ** Complete, then log in *)





(** ** Roles of the accounts the workflow creates *)

Lemma in_update_first {A : Type} (p : A -> bool) (f : A -> A) (l : list A) (x : A) :
  In x (update_first p f l) -> In x l \/ exists y, In y l /\ x = f y.
Proof.
  induction l as [|y t IH]; cbn [update_first In]; [intros []|].
  destruct (p y); cbn [In].
  - intros [<-|H]; [right; exists y; auto|auto].
  - intros [<-|H]; [auto|].
    destruct (IH H) as [H'|(z & Hz & ->)]; [auto|right; exists z; auto].
Qed.

Lemma self_service_update (f : RR.t -> RR.t) (p : RR.t -> bool) (st : Store) :
  (forall y, includes validRoles (RR.role y) = true ->
             includes validRoles (RR.role (f y)) = true) ->
  self_service_requests st ->
  self_service_requests
    (with_requests st (update_first p f (prisma_userRegistrationRequest st))).
Proof.
  intros Hf Hst r. cbn [with_requests prisma_userRegistrationRequest]. intros Hin.
  apply in_update_first in Hin. destruct Hin as [Hin|(y & Hy & ->)]; auto.
Qed.

Lemma self_service_step (P : Platform) (st : Store) (c : Call) :
  self_service_requests st ->
  self_service_requests (step P st c)
  /\ forall u, In u (prisma_user (step P st c)) ->
               In u (prisma_user st) \/ includes validRoles (User.role u) = true.
Proof.
  intros Hst. unfold step, handle.
  destruct (operation c).
  - destruct (request_registration P (call_env c) st (call_req c)) as [st' res] eqn:H.
    apply request_registration_inv in H.
    destruct H as [[-> _]|(email & fn & ln & role & l & r & _ & _ & Hrole & _ & _ & Hup & -> & _)];
      cbn [fst]; [auto|].
    split; [|cbn [with_requests prisma_user]; auto].
    unfold upsertRequest in Hup.
    destruct (find (request_by_email email) (prisma_userRegistrationRequest st)).
    + injection Hup as <- _. apply self_service_update; [|exact Hst]. intros y _. exact Hrole.
    + destruct (existsb _ _); [discriminate|]. injection Hup as <- _.
      intros x. cbn [with_requests prisma_userRegistrationRequest]. rewrite in_app_iff.
      intros [Hx|[<-|[]]]; [auto|exact Hrole].
  - destruct (verify_email P (call_env c) st (call_req c)) as [st' res] eqn:H.
    apply verify_email_inv in H.
    destruct H as [[-> _]|(email & code & r & _ & _ & _ & _ & _ & _ & -> & _)];
      cbn [fst]; [auto|].
    split; [|cbn [with_requests prisma_user]; auto].
    apply self_service_update; [|exact Hst]. intros y Hy. exact Hy.
  - unfold approve_route.
    destruct (route _ _ st (call_req c)) as [st' res] eqn:H.
    apply gated_route_inv in H.
    destruct H as [[-> _]|(u & _ & _ & _ & H)]; cbn [fst]; [auto|].
    apply approve_registration_inv in H.
    destruct H as [[-> _]|(r & admin & notes & _ & _ & _ & _ & -> & _)]; [auto|].
    split; [|cbn [with_requests prisma_user]; auto].
    apply self_service_update; [|exact Hst]. intros y Hy. exact Hy.
  - unfold reject_route.
    destruct (route _ _ st (call_req c)) as [st' res] eqn:H.
    apply gated_route_inv in H.
    destruct H as [[-> _]|(u & _ & _ & _ & H)]; cbn [fst]; [auto|].
    apply reject_registration_inv in H.
    destruct H as [[-> _]|(r & admin & notes & _ & _ & _ & _ & _ & -> & _)]; [auto|].
    split; [|cbn [with_requests prisma_user]; auto].
    apply self_service_update; [|exact Hst]. intros y Hy. exact Hy.
  - destruct (complete_registration P (call_env c) st (call_req c)) as [st' res] eqn:H.
    apply complete_registration_inv in H.
    destruct H as [[-> _]|(email & pw & tok & r & u & _ & _ & _ & Hr & _ & _ & _ & _
                            & Hmk & -> & _)]; cbn [fst]; [auto|].
    split.
    + intros x. cbn [prisma_userRegistrationRequest]. intros Hin.
      apply in_update_first in Hin. destruct Hin as [Hin|(y & Hy & ->)]; [auto|].
      cbn [consume_token RR.role]. auto.
    + intros x. cbn [prisma_user]. rewrite in_app_iff. intros [Hx|[<-|[]]]; [auto|].
      right. subst u. cbn [User.role]. apply Hst.
      unfold findRequest_email in Hr. now apply find_some in Hr.
Qed.

(** X5: when every stored registration request asks for a self-service
    role, no sequence of workflow calls (Request, Verify, Approve, Reject,
    Complete) ever produces an account with another role: each user of the
    resulting store was there before or has one of the four self-service
    roles, hence is not an ADMIN; and the requests keep the property. *)
Theorem workflow_creates_no_admin (P : Platform) (cs : list Call) (st : Store) :
  self_service_requests st ->
  self_service_requests (run P st cs)
  /\ forall u, In u (prisma_user (run P st cs)) ->
               In u (prisma_user st)
               \/ (includes validRoles (User.role u) = true /\ User.role u <> "ADMIN").
Proof.
  revert st. induction cs as [|c cs IH]; intros st Hst.
  - split; [exact Hst|]. intros u Hu. now left.
  - rewrite run_cons.
    destruct (self_service_step P st c Hst) as [Hst1 Husers].
    destruct (IH _ Hst1) as [Hst2 Husers2].
    split; [exact Hst2|]. intros u Hu.
    destruct (Husers2 u Hu) as [Hin|Hnew]; [|now right].
    destruct (Husers u Hin) as [Hold|Hrole]; [now left|].
    right. split; [exact Hrole|]. intros Hadmin. rewrite Hadmin in Hrole. discriminate.
Qed.

Lemma workflow_creates_no_admin_witness :
  self_service_requests (run sample_platform seeded shadow_calls)
  /\ forall u, In u (prisma_user (run sample_platform seeded shadow_calls)) ->
               In u (prisma_user seeded)
               \/ (includes validRoles (User.role u) = true /\ User.role u <> "ADMIN").
Proof.
  apply (workflow_creates_no_admin sample_platform shadow_calls seeded).
  intros r [].
Defined.

(** ** Calls that fail *)

(** X6: a workflow call that is not answered 200 has written nothing: the
    store after any refused or failed Request, Verify, Approve, Reject or
    Complete is the store before it (Complete, in particular, never leaves a
    user behind without having consumed the token). *)
Theorem failed_call_writes_nothing (P : Platform) (st : Store) (c : Call) :
  statusCode (snd (handle P c st (call_req c))) <> 200 ->
  fst (handle P c st (call_req c)) = st.
Proof.
  unfold handle. destruct (operation c).
  - destruct (request_registration P (call_env c) st (call_req c)) as [st' res] eqn:H.
    apply request_registration_inv in H.
    destruct H as [[-> _]|(? & ? & ? & ? & ? & ? & _ & _ & _ & _ & _ & _ & _ & -> & _)];
      cbn; [reflexivity|contradiction].
  - destruct (verify_email P (call_env c) st (call_req c)) as [st' res] eqn:H.
    apply verify_email_inv in H.
    destruct H as [[-> _]|(? & ? & ? & _ & _ & _ & _ & _ & _ & _ & -> & _)];
      cbn; [reflexivity|contradiction].
  - unfold approve_route.
    destruct (route _ _ st (call_req c)) as [st' res] eqn:H.
    apply gated_route_inv in H.
    destruct H as [[-> _]|(u & _ & _ & _ & H)]; [reflexivity|].
    apply approve_registration_inv in H.
    destruct H as [[-> _]|(? & ? & ? & _ & _ & _ & _ & _ & ->)];
      cbn; [reflexivity|contradiction].
  - unfold reject_route.
    destruct (route _ _ st (call_req c)) as [st' res] eqn:H.
    apply gated_route_inv in H.
    destruct H as [[-> _]|(u & _ & _ & _ & H)]; [reflexivity|].
    apply reject_registration_inv in H.
    destruct H as [[-> _]|(? & ? & ? & _ & _ & _ & _ & _ & _ & ->)];
      cbn; [reflexivity|contradiction].
  - destruct (complete_registration P (call_env c) st (call_req c)) as [st' res] eqn:H.
    apply complete_registration_inv in H.
    destruct H as [[-> _]|(? & ? & ? & ? & ? & _ & _ & _ & _ & _ & _ & _ & _ & _ & _ & -> & _)];
      cbn; [reflexivity|contradiction].
Qed.

Lemma failed_call_writes_nothing_witness :
  let c := mkCall Verify (sample_env 2000 "") (public_request (verify_body "a@x.com" "999999")) in
  fst (handle sample_platform c pending_store (call_req c)) = pending_store.
Proof.
  apply (failed_call_writes_nothing sample_platform pending_store
           (mkCall Verify (sample_env 2000 "")
                   (public_request (verify_body "a@x.com" "999999")))).
  vm_compute. discriminate.
Defined.

(** ** Who passes the gates *)

Lemma only_admin (s : string) : includes ["ADMIN"] s = true -> s = "ADMIN".
Proof.
  unfold includes. cbn [existsb]. rewrite orb_false_r. apply String.eqb_eq.
Qed.

Lemma gates_pass (P : Platform) (env : Env) (roles : list string) (st : Store)
    (req req1 req2 : Request) :
  authenticateToken P env st req = (req1, None) ->
  requireRole roles st req1 = (req2, None) ->
  exists token claims u,
    token_of (authorization req) = Some token
    /\ jwt_verify P token (now env) = JwtPayload claims
    /\ get_prop claims "userId" = JStr (User.id u)
    /\ find (user_by_id (User.id u)) (prisma_user st) = Some u
    /\ User.isActive u = true
    /\ includes roles (User.role u) = true
    /\ req2 = set_user req u.
Proof.
  intros Ha Hr. apply authenticateToken_next in Ha.
  destruct Ha as (token & claims & u & Ht & Hv & Hc & Hu & Hact & ->).
  apply requireRole_next in Hr. destruct Hr as (-> & u' & Hu' & Hin).
  cbn in Hu'. injection Hu' as <-.
  exists token, claims, u. repeat split; assumption.
Qed.

(** X7: the four administrative routes (approve, reject, user status, user
    role) do nothing for a caller who is not a stored, active ADMIN named by
    a token that verifies: the store is unchanged and the answer is 401 or
    403. *)
Theorem admin_routes_need_admin
    (P : Platform) (env : Env) (st : Store) (req : Request) (userId : string) :
  ~ acts_as_admin P env st req ->
  (fst (approve_route P env st req) = st
   /\ (statusCode (snd (approve_route P env st req)) = 401
       \/ statusCode (snd (approve_route P env st req)) = 403))
  /\ (fst (reject_route P env st req) = st
      /\ (statusCode (snd (reject_route P env st req)) = 401
          \/ statusCode (snd (reject_route P env st req)) = 403))
  /\ (fst (user_status_route P env userId st req) = st
      /\ (api_statusCode (snd (user_status_route P env userId st req)) = 401
          \/ api_statusCode (snd (user_status_route P env userId st req)) = 403))
  /\ (fst (user_role_route P env userId st req) = st
      /\ (api_statusCode (snd (user_role_route P env userId st req)) = 401
          \/ api_statusCode (snd (user_role_route P env userId st req)) = 403)).
Proof.
  intros Hno.
  unfold approve_route, reject_route, user_status_route, user_role_route.
  cbn [route api_route].
  destruct (authenticateToken P env st req) as [req1 [res1|]] eqn:Ha.
  { pose proof (authenticateToken_refusal _ _ _ _ _ _ Ha) as Hs.
    cbn [fst snd plain api_statusCode]. auto 10. }
  destruct (requireRole ["ADMIN"] st req1) as [req2 [res2|]] eqn:Hr.
  { pose proof (requireRole_refusal _ _ _ _ _ Hr) as Hs.
    cbn [fst snd plain api_statusCode]. auto 10. }
  exfalso. apply Hno.
  destruct (gates_pass _ _ _ _ _ _ _ Ha Hr)
    as (token & claims & u & Ht & Hv & Hc & Hu & Hact & Hin & _).
  exists token, claims, u. repeat split; try assumption. now apply only_admin.
Qed.

Lemma admin_routes_need_admin_witness :
  let st := mkStore [sample_admin; biller] [] in
  let req := admin_request "session:u-5" "r1" [] in
  fst (approve_route sample_platform (sample_env 1000 "") st req) = st
  /\ (statusCode (snd (approve_route sample_platform (sample_env 1000 "") st req)) = 401
      \/ statusCode (snd (approve_route sample_platform (sample_env 1000 "") st req)) = 403).
Proof.
  refine (proj1 (admin_routes_need_admin sample_platform (sample_env 1000 "")
                   (mkStore [sample_admin; biller] [])
                   (admin_request "session:u-5" "r1" []) "u-admin" _)).
  intros (token & claims & u & Ht & Hv & Hc & Hu & _ & Hrole).
  cbn in Ht. injection Ht as <-. cbn in Hv. injection Hv as <-.
  cbn in Hc. injection Hc as Hid. rewrite <- Hid in Hu. cbn in Hu.
  injection Hu as <-. discriminate Hrole.
Defined.

(** X8: authorization is decided by the stored role, not by the token.  For
    a token that verifies and names a stored, active user, a route behind
    the two gates runs its handler (with that user attached) exactly when the
    user's stored role is in the allowed list, and answers 403 with the
    required and the stored role otherwise, whatever role the claims of the
    token carry. *)
Theorem stored_role_decides
    (P : Platform) (env : Env) (st : Store) (req : Request)
    (token uid : string) (claims : jsobj) (u : User.t) (roles : list string) (h : Handler) :
  token_of (authorization req) = Some token ->
  token <> "" ->
  jwt_verify P token (now env) = JwtPayload claims ->
  get_prop claims "userId" = JStr uid ->
  find (user_by_id uid) (prisma_user st) = Some u ->
  User.isActive u = true ->
  route [authenticateToken P env; requireRole roles] h st req
  = if includes roles (User.role u)
    then h st (set_user req u)
    else (st, mkResponse 403 (InsufficientPermissions roles (User.role u))).
Proof.
  intros Ht Hne Hv Hc Hu Hact. cbn [route].
  unfold authenticateToken. rewrite Ht.
  apply String.eqb_neq in Hne. rewrite Hne, Hv, Hc. cbn [findUser_id].
  rewrite Hu, Hact. cbn [negb].
  unfold requireRole. cbn [set_user user].
  destruct (includes roles (User.role u)); reflexivity.
Qed.

Lemma stored_role_decides_witness :
  let st := mkStore [sample_admin; biller] [] in
  let req := admin_request "session:u-5" "r1" [] in
  route [authenticateToken admin_claims_platform (sample_env 1000 ""); requireRole ["ADMIN"]]
        (approve_registration admin_claims_platform (sample_env 1000 "")) st req
  = if includes ["ADMIN"] (User.role biller)
    then approve_registration admin_claims_platform (sample_env 1000 "") st
                              (set_user req biller)
    else (st, mkResponse 403 (InsufficientPermissions ["ADMIN"] (User.role biller))).
Proof.
  apply (stored_role_decides admin_claims_platform (sample_env 1000 "")
           (mkStore [sample_admin; biller] []) (admin_request "session:u-5" "r1" [])
           "session:u-5" "u-5" [("userId", JStr "u-5"); ("role", JStr "ADMIN")]).
  - reflexivity.
  - discriminate.
  - reflexivity.
  - reflexivity.
  - reflexivity.
  - reflexivity.
Defined.

(** ** The authorization header *)

Lemma split_from_app (a b cur : string) :
  no_blank a = true ->
  split_from " " cur (a ++ String " " b) = (cur ++ a)%string :: split_from " " "" b.
Proof.
  unfold no_blank. revert cur.
  induction a as [|c t IH]; intros cur; cbn [append split_from list_ascii_of_string forallb].
  - intros _. cbn. f_equal. induction cur as [|x s IHs]; cbn; [reflexivity|now f_equal].
  - intros H. apply andb_true_iff in H. destruct H as [Hc Ht].
    apply negb_true_iff in Hc. rewrite Hc, (IH _ Ht). now rewrite append_snoc.
Qed.

Lemma token_of_scheme (scheme token : string) :
  no_blank scheme = true -> no_blank token = true ->
  token_of (Some (scheme ++ String " " token)%string) = Some token.
Proof.
  intros Hs Ht. unfold token_of.
  assert (Hne : ((scheme ++ String " " token) =? "")%string = false)
    by (destruct scheme; reflexivity).
  rewrite Hne. unfold split. rewrite (split_from_app _ _ _ Hs).
  rewrite (split_from_whole " " token "" Ht). reflexivity.
Qed.

(** X9: how the token is taken from the Authorization header.  A header
    with no blank in it (a bare token, or the word Bearer alone) and an
    absent header are both answered 401 MISSING_TOKEN, the token never being
    verified; and the word before the blank is not looked at: the same token
    after any other scheme word is taken exactly as after Bearer. *)
Theorem authorization_header_parsing
    (P : Platform) (env : Env) (st : Store) (req : Request) :
  (authorization req = None -> authenticateToken P env st req = (req, Some missing_token))
  /\ (forall h, authorization req = Some h -> no_blank h = true ->
                authenticateToken P env st req = (req, Some missing_token))
  /\ (forall scheme token,
        no_blank scheme = true -> no_blank token = true ->
        token_of (Some (scheme ++ String " " token)%string)
        = token_of (Some ("Bearer " ++ token)%string)).
Proof.
  split; [|split].
  - intros Hnone. unfold authenticateToken. now rewrite Hnone.
  - intros h Hh Hblank. unfold authenticateToken, token_of. rewrite Hh.
    destruct (h =? "")%string eqn:He.
    + rewrite He. reflexivity.
    + unfold split. unfold no_blank in Hblank.
      rewrite (split_from_whole " " h "" Hblank). reflexivity.
  - intros scheme token Hs Ht.
    rewrite (token_of_scheme scheme token Hs Ht).
    symmetry. apply (token_of_scheme "Bearer" token eq_refl Ht).
Qed.

Lemma authorization_header_parsing_witness :
  let req := mkRequest (Some "session:u-admin") "r1" [] None in
  authenticateToken sample_platform (sample_env 1000 "") seeded req
  = (req, Some missing_token).
Proof.
  refine (proj1 (proj2 (authorization_header_parsing sample_platform (sample_env 1000 "")
                          seeded (mkRequest (Some "session:u-admin") "r1" [] None)))
                "session:u-admin" eq_refl eq_refl).
Defined.

(** ** The user router *)

Lemma with_users_same (st : Store) : with_users st (prisma_user st) = st.
Proof. now destruct st. Qed.

Lemma update_first_fixed {A : Type} (p : A -> bool) (f : A -> A) (l : list A) :
  (forall x, f x = x) -> update_first p f l = l.
Proof.
  intros Hf. induction l as [|y t IH]; cbn [update_first]; [reflexivity|].
  destruct (p y); [now rewrite Hf|now rewrite IH].
Qed.

Lemma set_active_keep (u : User.t) : set_active Keep u = u.
Proof. now destruct u. Qed.

(** A route of the user router behind the two gates is refused by a gate,
    store untouched, or runs its handler for a stored, active user whose role
    is allowed. *)
Lemma gated_api_route_inv (P : Platform) (env : Env) (roles : list string) (h : ApiHandler)
    (st st' : Store) (req : Request) (res : ApiResponse) :
  api_route [authenticateToken P env; requireRole roles] h st req = (st', res) ->
  (st' = st /\ (api_statusCode res = 401 \/ api_statusCode res = 403))
  \/ (exists u, find (user_by_id (User.id u)) (prisma_user st) = Some u
                /\ User.isActive u = true
                /\ includes roles (User.role u) = true
                /\ h st (set_user req u) = (st', res)).
Proof.
  cbn [api_route].
  destruct (authenticateToken P env st req) as [req1 [res1|]] eqn:Ha.
  { intros [= <- <-]. left. split; [reflexivity|].
    exact (authenticateToken_refusal _ _ _ _ _ _ Ha). }
  destruct (requireRole roles st req1) as [req2 [res2|]] eqn:Hr.
  { intros [= <- <-]. left. split; [reflexivity|].
    exact (requireRole_refusal _ _ _ _ _ Hr). }
  destruct (gates_pass _ _ _ _ _ _ _ Ha Hr)
    as (token & claims & u & _ & _ & _ & Hu & Hact & Hin & ->).
  intros H. right. now exists u.
Qed.

Lemma update_user_status_inv (userId : string) (st st' : Store) (req : Request)
    (res : ApiResponse) :
  update_user_status userId st req = (st', res) ->
  (st' = st /\ api_statusCode res = 500)
  \/ (exists a x,
        boolean_arg (get_prop (body req) "isActive") = Some a
        /\ find (user_by_id userId) (prisma_user st) = Some x
        /\ st' = with_users st (update_first (user_by_id userId) (set_active a) (prisma_user st))
        /\ api_statusCode res = 200).
Proof.
  unfold update_user_status, prisma_update_row.
  destruct (boolean_arg (get_prop (body req) "isActive")) as [a|];
    [|intros [= <- <-]; now left].
  destruct (find (user_by_id userId) (prisma_user st)) as [x|] eqn:Hx;
    [|intros [= <- <-]; now left].
  intros [= <- <-]. right. exists a, x. auto.
Qed.

Lemma update_user_role_inv (userId : string) (st st' : Store) (req : Request)
    (res : ApiResponse) :
  update_user_role userId st req = (st', res) ->
  (st' = st /\ api_statusCode res = 500)
  \/ (exists a x,
        role_arg (get_prop (body req) "role") = Some a
        /\ find (user_by_id userId) (prisma_user st) = Some x
        /\ st' = with_users st (update_first (user_by_id userId) (set_role a) (prisma_user st))
        /\ api_statusCode res = 200).
Proof.
  unfold update_user_role, prisma_update_row.
  destruct (role_arg (get_prop (body req) "role")) as [a|];
    [|intros [= <- <-]; now left].
  destruct (find (user_by_id userId) (prisma_user st)) as [x|] eqn:Hx;
    [|intros [= <- <-]; now left].
  intros [= <- <-]. right. exists a, x. auto.
Qed.

(** What a login does to the store. *)
Lemma login_inv (P : Platform) (env : Env) (st st' : Store) (req : Request) (res : Response) :
  login P env st req = (st', res) ->
  (st' = st /\ statusCode res <> 200)
  \/ (exists email password u,
        get_prop (body req) "email" = JStr email
        /\ get_prop (body req) "password" = JStr password
        /\ findUser_email st (String_toLowerCase P email) = Some u
        /\ User.isActive u = true
        /\ bcrypt_compare P password (User.passwordHash u) = true
        /\ st' = with_users st (update_first (user_by_id (User.id u)) (touch_login (now env))
                                  (prisma_user st))
        /\ res = mkResponse 200 (Authenticated "Login successful"
                                   (jwt_sign P (session_claims u) (now env)) u)).
Proof.
  unfold login.
  destruct (DATABASE_URL P); cbn [negb];
    [|intros [= <- <-]; left; split; [reflexivity|discriminate]].
  destruct (validate (joi_email P) loginSchema (body req)) as [e|value] eqn:Hv;
    [intros [= <- <-]; left; split; [reflexivity|discriminate]|].
  pose proof (validate_inr _ _ _ _ Hv) as Hk. revert Hk.
  unfold loginSchema. cbn [validate_keys].
  destruct (validate_string _ _ (get_prop (body req) "email")) as [|email] eqn:H1;
    [discriminate|].
  destruct (validate_string _ _ (get_prop (body req) "password")) as [|pw] eqn:H2;
    [discriminate|].
  intros [= <-]. cbn [field String.eqb Ascii.eqb Bool.eqb].
  apply validate_string_inr in H1, H2. destruct H1 as [He _]. destruct H2 as [Hp _].
  destruct (findUser_email st (String_toLowerCase P email)) as [u|] eqn:Hu;
    [|intros [= <- <-]; left; split; [reflexivity|discriminate]].
  destruct (User.isActive u) eqn:Hact; cbn [negb];
    [|intros [= <- <-]; left; split; [reflexivity|discriminate]].
  destruct (bcrypt_compare P pw (User.passwordHash u)) eqn:Hpw; cbn [negb];
    [|intros [= <- <-]; left; split; [reflexivity|discriminate]].
  destruct (prisma_update _ _ _) as [users|] eqn:Hup;
    [|intros [= <- <-]; left; split; [reflexivity|discriminate]].
  intros [= <- <-]. right. exists email, pw, u.
  unfold prisma_update in Hup.
  destruct (find (user_by_id (User.id u)) (prisma_user st)); [|discriminate].
  injection Hup as <-. repeat split; assumption.
Qed.

(** Every call of the modelled API rewrites rows in place, or appends one
    whose keys are new. *)
Lemma api_step_unique (P : Platform) (st : Store) (a : ApiCall) :
  unique_keys st -> unique_keys (api_step P st a).
Proof.
  intros H. destruct a as [c|env req|env userId req|env userId req]; cbn [api_step].
  - eapply unique_keys_preserved; [apply step_effect|exact H].
  - destruct (login P env st req) as [st' res] eqn:Hl. apply login_inv in Hl.
    destruct Hl as [[-> _]|(email & pw & u & _ & _ & _ & _ & _ & -> & _)];
      cbn [fst]; [exact H|].
    destruct H as (Hui & Hue & Hri & Hre). unfold unique_keys.
    cbn [with_users prisma_user prisma_userRegistrationRequest].
    rewrite !map_update_first by reflexivity. auto.
  - destruct (user_status_route P env userId st req) as [st' res] eqn:Hr.
    unfold user_status_route in Hr. apply gated_api_route_inv in Hr.
    destruct Hr as [[-> _]|(u & _ & _ & _ & Hr)]; cbn [fst]; [exact H|].
    apply update_user_status_inv in Hr.
    destruct Hr as [[-> _]|(b & x & _ & _ & -> & _)]; [exact H|].
    destruct H as (Hui & Hue & Hri & Hre). unfold unique_keys.
    cbn [with_users prisma_user prisma_userRegistrationRequest].
    rewrite !map_update_first by reflexivity. auto.
  - destruct (user_role_route P env userId st req) as [st' res] eqn:Hr.
    unfold user_role_route in Hr. apply gated_api_route_inv in Hr.
    destruct Hr as [[-> _]|(u & _ & _ & _ & Hr)]; cbn [fst]; [exact H|].
    apply update_user_role_inv in Hr.
    destruct Hr as [[-> _]|(b & x & _ & _ & -> & _)]; [exact H|].
    destruct H as (Hui & Hue & Hri & Hre). unfold unique_keys.
    cbn [with_users prisma_user prisma_userRegistrationRequest].
    rewrite !map_update_first by reflexivity. auto.
Qed.

(** X10: the unique constraints are kept.  If user ids, user addresses,
    request ids and request addresses are pairwise distinct in a store, they
    still are after any sequence of calls of the workflow, the login and the
    two routes of the user router: rows are rewritten in place without
    touching their keys, and a row is created only under keys that are not
    taken. *)
Theorem api_keeps_keys_unique (P : Platform) (l : list ApiCall) (st : Store) :
  unique_keys st -> unique_keys (api_run P st l).
Proof.
  revert st. induction l as [|a l IH]; intros st H; [exact H|].
  cbn [api_run fold_left]. apply IH. now apply api_step_unique.
Qed.

Lemma api_keeps_keys_unique_witness :
  unique_keys
    (api_run sample_platform verified_store
       [ Workflow (mkCall Approve (sample_env 3000 "") (admin_request "session:u-admin" "r1" []));
         Workflow (mkCall Complete (sample_env 4000 "u-2") (public_request ann_completion));
         Login (sample_env 5000 "") (public_request (login_body "a@x.com" "secret123")) ]).
Proof.
  apply api_keeps_keys_unique. exact verified_store_unique.
Defined.

(** ** Deactivation *)

Lemma by_user_id_stable (f : User.t -> User.t) (i : string) :
  (forall x, User.id (f x) = User.id x) ->
  forall x, user_by_id i (f x) = user_by_id i x.
Proof. intros H x. unfold user_by_id. now rewrite H. Qed.

(** A user found inactive stays found and inactive through every call that
    is not a status change. *)
Lemma inactive_preserved (P : Platform) (st : Store) (a : ApiCall) (i : string) :
  changes_status a = false ->
  (exists u, find (user_by_id i) (prisma_user st) = Some u /\ User.isActive u = false) ->
  exists u, find (user_by_id i) (prisma_user (api_step P st a)) = Some u
            /\ User.isActive u = false.
Proof.
  intros Hno (u & Hu & Hoff).
  assert (Hupd : forall p f,
             (forall x, User.id (f x) = User.id x) ->
             (forall x, User.isActive (f x) = User.isActive x) ->
             exists u', find (user_by_id i) (update_first p f (prisma_user st)) = Some u'
                        /\ User.isActive u' = false).
  { intros p f Hid Hact.
    destruct (find p (prisma_user st)) as [x0|] eqn:Hx.
    - destruct (find_update_first p (user_by_id i) f _ u x0
                  (by_user_id_stable f i Hid) Hu Hx) as [H|[_ H]].
      + now exists u.
      + exists (f u). split; [exact H|]. now rewrite Hact.
    - rewrite (update_first_absent _ _ _ Hx). now exists u. }
  destruct a as [c|env req|env userId req|env userId req]; cbn [api_step];
    [| | discriminate Hno |].
  - destruct (step_effect P st c); cbn [with_requests prisma_user];
      try (now exists u).
    exists u. split; [now apply find_app_some|exact Hoff].
  - destruct (login P env st req) as [st' res] eqn:Hl. apply login_inv in Hl.
    destruct Hl as [[-> _]|(email & pw & v & _ & _ & _ & _ & _ & -> & _)];
      cbn [fst with_users prisma_user]; [now exists u|].
    apply Hupd; reflexivity.
  - destruct (user_role_route P env userId st req) as [st' res] eqn:Hr.
    unfold user_role_route in Hr. apply gated_api_route_inv in Hr.
    destruct Hr as [[-> _]|(v & _ & _ & _ & Hr)]; cbn [fst]; [now exists u|].
    apply update_user_role_inv in Hr.
    destruct Hr as [[-> _]|(b & x & _ & _ & -> & _)]; [now exists u|].
    cbn [with_users prisma_user]. apply Hupd; reflexivity.
Qed.

(** X11: deactivation takes effect at once and lasts.  After a successful
    PATCH of a user's status with [isActive: false], and through any further
    calls of the workflow, the login and the role route, every request that
    carries a token naming that user (however valid and unexpired) is
    answered 401 INVALID_USER by the authentication gate. *)
Theorem deactivation_takes_effect
    (P : Platform) (env : Env) (userId : string) (st st1 : Store)
    (req : Request) (res : ApiResponse) :
  user_status_route P env userId st req = (st1, res) ->
  api_statusCode res = 200 ->
  get_prop (body req) "isActive" = JBool false ->
  forall (l : list ApiCall) (env2 : Env) (req2 : Request) (token : string) (claims : jsobj),
    forallb (fun a => negb (changes_status a)) l = true ->
    token_of (authorization req2) = Some token ->
    token <> "" ->
    jwt_verify P token (now env2) = JwtPayload claims ->
    get_prop claims "userId" = JStr userId ->
    authenticateToken P env2 (api_run P st1 l) req2 = (req2, Some invalid_user).
Proof.
  intros H Hok Hbody l env2 req2 token claims Hl Ht Hne Hv Hc.
  unfold user_status_route in H. apply gated_api_route_inv in H.
  destruct H as [[_ [Hs|Hs]]|(admin & _ & _ & _ & H)];
    try (rewrite Hs in Hok; discriminate).
  apply update_user_status_inv in H.
  destruct H as [[_ Hs]|(a & x & Ha & Hx & -> & _)];
    [rewrite Hs in Hok; discriminate|].
  cbn [set_user body] in Ha. rewrite Hbody in Ha. injection Ha as <-.
  assert (Hoff : exists u,
             find (user_by_id userId)
                  (prisma_user (with_users st (update_first (user_by_id userId)
                                                 (set_active (Put false)) (prisma_user st))))
             = Some u /\ User.isActive u = false).
  { exists (set_active (Put false) x). split; [|reflexivity].
    cbn [with_users prisma_user].
    apply find_update_first_same; [exact Hx|]. exact (find_holds _ _ _ Hx). }
  revert Hoff. generalize (with_users st (update_first (user_by_id userId)
                                            (set_active (Put false)) (prisma_user st))).
  induction l as [|b l IH]; intros s Hoff.
  - destruct Hoff as (u & Hu & Hu_off). cbn [api_run fold_left].
    unfold authenticateToken. rewrite Ht.
    apply String.eqb_neq in Hne. rewrite Hne, Hv, Hc. cbn [findUser_id].
    rewrite Hu, Hu_off. reflexivity.
  - cbn [forallb] in Hl. apply andb_true_iff in Hl. destruct Hl as [Hb Hl].
    cbn [api_run fold_left]. apply (IH Hl).
    apply inactive_preserved; [now apply negb_true_iff|exact Hoff].
Qed.

Lemma deactivation_takes_effect_witness :
  authenticateToken sample_platform (sample_env 2000 "")
    (api_run sample_platform
       (fst (user_status_route sample_platform (sample_env 1000 "") "u-7"
               (mkStore [sample_admin; nurse] []) deactivate_nurse))
       [ Login (sample_env 1500 "") (public_request (login_body "nurse@chartbreaker.com"
                                                                "clinician123")) ])
    (admin_request "session:u-7" "" [])
  = (admin_request "session:u-7" "" [], Some invalid_user).
Proof.
  apply (deactivation_takes_effect sample_platform (sample_env 1000 "") "u-7"
           (mkStore [sample_admin; nurse] []) _ deactivate_nurse
           (snd (user_status_route sample_platform (sample_env 1000 "") "u-7"
                   (mkStore [sample_admin; nurse] []) deactivate_nurse))
           (surjective_pairing _) eq_refl eq_refl
           [ Login (sample_env 1500 "") (public_request (login_body "nurse@chartbreaker.com"
                                                                    "clinician123")) ]
           (sample_env 2000 "") (admin_request "session:u-7" "" [])
           "session:u-7" [("userId", JStr "u-7")]).
  - reflexivity.
  - reflexivity.
  - discriminate.
  - reflexivity.
  - reflexivity.
Defined.

(** X12: edge cases of the status route's handler.  When the body has no
    [isActive], an existing user is left exactly as it is, yet the call is
    answered 200 with the message that the user was deactivated.  When
    [isActive] is the update operation [{ set: b }], the user is made active
    or inactive as [b] says, and the message is that the user was activated
    even when [b] is false (an object is truthy).  When [isActive] is [null],
    a number, a string or an array, or when no user has the id, the call is
    answered 500 and nothing is written. *)
Theorem status_route_edge_cases (userId : string) (st : Store) (req : Request) :
  (forall x,
     get_prop (body req) "isActive" = JUndefined ->
     find (user_by_id userId) (prisma_user st) = Some x ->
     update_user_status userId st req
     = (st, mkApiResponse 200 (UserUpdated "User deactivated successfully" (select_user x))))
  /\ (forall b x,
        get_prop (body req) "isActive" = JObject [("set", JBool b)] ->
        find (user_by_id userId) (prisma_user st) = Some x ->
        update_user_status userId st req
        = (with_users st (update_first (user_by_id userId) (set_active (Put b))
                            (prisma_user st)),
           mkApiResponse 200 (UserUpdated "User activated successfully"
                                          (select_user (set_active (Put b) x)))))
  /\ (get_prop (body req) "isActive" = JNull
      \/ (exists n, get_prop (body req) "isActive" = JNum n)
      \/ (exists s, get_prop (body req) "isActive" = JStr s)
      \/ (exists l, get_prop (body req) "isActive" = JArray l) ->
      update_user_status userId st req = (st, plain internal_error))
  /\ (find (user_by_id userId) (prisma_user st) = None ->
      fst (update_user_status userId st req) = st
      /\ api_statusCode (snd (update_user_status userId st req)) = 500).
Proof.
  split; [|split; [|split]].
  - intros x Hb Hx. unfold update_user_status, prisma_update_row.
    rewrite Hb. cbn [boolean_arg scalar_arg truthy]. rewrite Hx.
    rewrite (update_first_fixed _ _ _ set_active_keep), with_users_same, set_active_keep.
    reflexivity.
  - intros b x Hb Hx. unfold update_user_status, prisma_update_row.
    rewrite Hb. cbn -[update_first]. now rewrite Hx.
  - intros [Hb|[(n & Hb)|[(t & Hb)|(l & Hb)]]]; unfold update_user_status;
      now rewrite Hb.
  - intros Hx. unfold update_user_status, prisma_update_row. rewrite Hx.
    destruct (boolean_arg _); split; reflexivity.
Qed.

Lemma status_route_edge_cases_witness :
  update_user_status "u-7" (mkStore [sample_admin; nurse] []) (admin_request "t" "" [])
  = (mkStore [sample_admin; nurse] [],
     mkApiResponse 200 (UserUpdated "User deactivated successfully" (select_user nurse)))
  /\ update_user_status "u-7" (mkStore [sample_admin; nurse] [])
       (admin_request "t" "" [("isActive", JObject [("set", JBool false)])])
     = (mkStore [sample_admin; retired_nurse] [],
        mkApiResponse 200 (UserUpdated "User activated successfully"
                                       (select_user retired_nurse)))
  /\ update_user_status "u-7" (mkStore [sample_admin; nurse] [])
       (admin_request "t" "" [("isActive", JStr "false")])
     = (mkStore [sample_admin; nurse] [], plain internal_error).
Proof.
  split; [|split].
  - refine (proj1 (status_route_edge_cases "u-7" (mkStore [sample_admin; nurse] [])
                     (admin_request "t" "" [])) nurse eq_refl eq_refl).
  - refine (proj1 (proj2 (status_route_edge_cases "u-7" (mkStore [sample_admin; nurse] [])
                            (admin_request "t" "" [("isActive", JObject [("set", JBool false)])])))
              false nurse eq_refl eq_refl).
  - apply (proj1 (proj2 (proj2 (status_route_edge_cases "u-7"
                                  (mkStore [sample_admin; nurse] [])
                                  (admin_request "t" "" [("isActive", JStr "false")]))))).
    right. right. left. exists "false". reflexivity.
Defined.

(** ** After a rejection *)

Lemma truthy_text (v : jsval) (a : Arg (option string)) :
  truthy v = true -> nullable_string v = Some a ->
  exists notes,
    a = Put notes
    /\ ((exists s, v = JStr s /\ notes = Some s)
        \/ (exists x, v = JObject [("set", x)]
                      /\ ((x = JNull /\ notes = None)
                          \/ (exists s, x = JStr s /\ notes = Some s)))).
Proof.
  destruct v as [| |b|n|s|l|o]; cbn; try discriminate.
  - intros _ [= <-]. exists (Some s). split; [reflexivity|]. left. now exists s.
  - intros _. destruct o as [|[k x] [|]]; try discriminate.
    destruct (k =? "set")%string eqn:Hk; [|discriminate].
    apply String.eqb_eq in Hk. subst k.
    destruct x as [| |b|n|s|l|o]; cbn; try discriminate; intros [= <-].
    + exists None. split; [reflexivity|]. right. exists JNull. auto.
    + exists (Some s). split; [reflexivity|]. right. exists (JStr s).
      split; [reflexivity|]. right. now exists s.
Qed.

Lemma js_or_truthy (a b : jsval) : truthy b = true -> truthy (js_or a b) = true.
Proof. intros Hb. unfold js_or. destruct (truthy a) eqn:Ha; assumption. Qed.

(** What a successful rejection leaves in the store. *)
Lemma reject_route_success (P : Platform) (env : Env) (st st1 : Store)
    (req : Request) (res : Response) :
  unique_keys st ->
  reject_route P env st req = (st1, res) ->
  statusCode res = 200 ->
  exists r notes,
    findRequest_id st (requestId req) = Some r
    /\ nullable_string (js_or (get_prop (body req) "adminNotes")
                              (get_prop (body req) "reason")) = Some (Put notes)
    /\ truthy (js_or (get_prop (body req) "adminNotes") (get_prop (body req) "reason"))
       = true
    /\ prisma_user st1 = prisma_user st
    /\ findRequest_email st1 (RR.email r)
       = Some (reject_data (now env) Keep (Put notes) r).
Proof.
  intros (_ & _ & _ & Hmails) H Hok. unfold reject_route in H.
  apply gated_route_inv in H.
  destruct H as [[_ [Hs|Hs]]|(admin & _ & _ & _ & H)];
    try (rewrite Hs in Hok; discriminate).
  apply reject_registration_inv in H.
  destruct H as [[_ Hs]|(r & admin' & notes & Hreason & Hr & Hst & _ & Hnotes & -> & _)];
    [contradiction|].
  cbn [set_user requestId body] in *.
  destruct (truthy_text _ _ (js_or_truthy _ _ Hreason) Hnotes) as (o & -> & _).
  exists r, o. split; [exact Hr|]. split; [exact Hnotes|].
  split; [now apply js_or_truthy|]. split; [reflexivity|].
  unfold findRequest_email, findRequest_id in *.
  cbn [with_requests prisma_userRegistrationRequest].
  apply find_update_first_hit.
  - unfold request_by_email. cbn [reject_data RR.email]. apply String.eqb_refl.
  - apply find_by_own_email; [exact Hmails|]. now apply find_some in Hr.
  - exact Hr.
Qed.

(** X13: what the applicant sees after a rejection.  With unique keys,
    after a successful Reject the status route answers, for the address of
    the request, 200 with status REJECTED, the time of the rejection as
    approval time, and as admin notes what the value [adminNotes || reason]
    of the rejection wrote: that value is a string, reported as it is, or
    the update operation [{ set: x }] with [x] a string, reported, or
    [null], reported as no notes. *)
Theorem rejection_is_reported
    (P : Platform) (env : Env) (st st1 : Store) (req req2 : Request) (res : Response) :
  unique_keys st ->
  reject_route P env st req = (st1, res) ->
  statusCode res = 200 ->
  exists r notes,
    findRequest_id st (requestId req) = Some r
    /\ registration_status (RR.email r) st1 req2
       = (st1, mkApiResponse 200
                 (RegistrationState REJECTED (RR.requestedAt r) (Some (now env)) notes))
    /\ let v := if truthy (get_prop (body req) "adminNotes")
                then get_prop (body req) "adminNotes"
                else get_prop (body req) "reason" in
       (exists s, v = JStr s /\ notes = Some s)
       \/ (exists x, v = JObject [("set", x)]
                     /\ ((x = JNull /\ notes = None)
                         \/ (exists s, x = JStr s /\ notes = Some s))).
Proof.
  intros Hu H Hok.
  destruct (reject_route_success P env st st1 req res Hu H Hok)
    as (r & notes & Hr & Hn & Ht & _ & Hr1).
  exists r, notes. split; [exact Hr|]. split.
  - unfold registration_status. rewrite Hr1. reflexivity.
  - destruct (truthy_text _ _ Ht Hn) as (o & [= <-] & Hcases). exact Hcases.
Qed.

Lemma rejection_is_reported_witness :
  exists r notes,
    findRequest_id verified_store
                   (requestId (admin_request "session:u-admin" "r1" reject_body)) = Some r
    /\ registration_status (RR.email r) rejected_store (public_request [])
       = (rejected_store,
          mkApiResponse 200
            (RegistrationState REJECTED (RR.requestedAt r)
                               (Some (now (sample_env 3000 ""))) notes))
    /\ let v := if truthy (get_prop (body (admin_request "session:u-admin" "r1" reject_body))
                                    "adminNotes")
                then get_prop (body (admin_request "session:u-admin" "r1" reject_body))
                              "adminNotes"
                else get_prop (body (admin_request "session:u-admin" "r1" reject_body))
                              "reason" in
       (exists s, v = JStr s /\ notes = Some s)
       \/ (exists x, v = JObject [("set", x)]
                     /\ ((x = JNull /\ notes = None)
                         \/ (exists s, x = JStr s /\ notes = Some s))).
Proof.
  apply (rejection_is_reported sample_platform (sample_env 3000 "") verified_store
           rejected_store (admin_request "session:u-admin" "r1" reject_body)
           (public_request [])
           (mkResponse 200 (Message "Registration request rejected successfully"))).
  - exact verified_store_unique.
  - vm_compute. reflexivity.
  - reflexivity.
Defined.

(** X14: a rejected request cannot be completed.  With unique keys, after
    a successful Reject and through any further workflow calls that do not
    re-open the request, every /complete-registration for its address,
    whatever the password and the token, is refused with status 400 and
    writes nothing; when the body passes the schema the error is
    REQUEST_NOT_APPROVED. *)
Theorem rejected_cannot_complete
    (P : Platform) (env : Env) (st st1 : Store) (req : Request) (res : Response) :
  unique_keys st ->
  reject_route P env st req = (st1, res) ->
  statusCode res = 200 ->
  exists r,
    findRequest_id st (requestId req) = Some r
    /\ forall (cs : list Call) (env2 : Env) (req2 : Request),
         forallb (fun c => negb (reopens (RR.email r) c)) cs = true ->
         get_prop (body req2) "email" = JStr (RR.email r) ->
         fst (complete_registration P env2 (run P st1 cs) req2) = run P st1 cs
         /\ statusCode (snd (complete_registration P env2 (run P st1 cs) req2)) = 400
         /\ (forall value,
               validate (joi_email P) completeRegistrationSchema (body req2) = inr value ->
               snd (complete_registration P env2 (run P st1 cs) req2)
               = request_not_approved).
Proof.
  intros Hu H Hok.
  destruct (reject_route_success P env st st1 req res Hu H Hok)
    as (r & notes & Hr & _ & _ & _ & Hr1).
  exists r. split; [exact Hr|].
  intros cs env2 req2 Hcs He.
  pose proof (rejected_run P (RR.email r) _ cs st1 Hcs Hr1 eq_refl) as Hr2.
  unfold complete_registration.
  destruct (validate (joi_email P) completeRegistrationSchema (body req2))
    as [e|value] eqn:Hv.
  { repeat split. intros value [=]. }
  destruct (validate_complete_inr _ _ _ Hv)
    as (email & pw & tok & -> & He' & Hne & _ & Hp & _ & Ht).
  rewrite He in He'. injection He' as <-.
  cbn [field String.eqb Ascii.eqb Bool.eqb].
  rewrite !is_empty_false by assumption. cbn [orb].
  rewrite Hr2. cbn [reject_data RR.status status_eqb negb fst snd statusCode].
  repeat split.
Qed.

Lemma rejected_cannot_complete_witness :
  exists r,
    findRequest_id verified_store
                   (requestId (admin_request "session:u-admin" "r1" reject_body)) = Some r
    /\ forall (cs : list Call) (env2 : Env) (req2 : Request),
         forallb (fun c => negb (reopens (RR.email r) c)) cs = true ->
         get_prop (body req2) "email" = JStr (RR.email r) ->
         fst (complete_registration sample_platform env2 (run sample_platform rejected_store cs)
                req2) = run sample_platform rejected_store cs
         /\ statusCode (snd (complete_registration sample_platform env2
                               (run sample_platform rejected_store cs) req2)) = 400
         /\ (forall value,
               validate (joi_email sample_platform) completeRegistrationSchema (body req2)
               = inr value ->
               snd (complete_registration sample_platform env2
                      (run sample_platform rejected_store cs) req2)
               = request_not_approved).
Proof.
  apply (rejected_cannot_complete sample_platform (sample_env 3000 "") verified_store
           rejected_store (admin_request "session:u-admin" "r1" reject_body)
           (mkResponse 200 (Message "Registration request rejected successfully"))).
  - exact verified_store_unique.
  - vm_compute. reflexivity.
  - reflexivity.
Defined.

(** ** Login *)

(** X15: what a login can and cannot do.  It never touches the request
    table and never changes anything of a user row but its last-login stamp;
    when it is not answered 200 it writes nothing at all; and an account that
    is found inactive is told ACCOUNT_DEACTIVATED before the password is
    looked at, that is, whatever the password. *)
Theorem login_effect (P : Platform) (env : Env) (st : Store) (req : Request) :
  prisma_userRegistrationRequest (fst (login P env st req))
  = prisma_userRegistrationRequest st
  /\ map credentials (prisma_user (fst (login P env st req)))
     = map credentials (prisma_user st)
  /\ (statusCode (snd (login P env st req)) <> 200 -> fst (login P env st req) = st)
  /\ (forall email password u,
        DATABASE_URL P = true ->
        validate (joi_email P) loginSchema (body req)
        = inr [("email", email); ("password", password)] ->
        findUser_email st (String_toLowerCase P email) = Some u ->
        User.isActive u = false ->
        login P env st req = (st, account_deactivated)).
Proof.
  destruct (login P env st req) as [st' res] eqn:Hl.
  pose proof (login_inv _ _ _ _ _ _ Hl) as Hinv. cbn [fst snd].
  split; [|split; [|split]].
  - destruct Hinv as [[-> _]|(? & ? & ? & _ & _ & _ & _ & _ & -> & _)]; reflexivity.
  - destruct Hinv as [[-> _]|(? & ? & ? & _ & _ & _ & _ & _ & -> & _)]; [reflexivity|].
    cbn [with_users prisma_user]. now apply map_update_first.
  - intros Hne. destruct Hinv as [[-> _]|(? & ? & ? & _ & _ & _ & _ & _ & _ & ->)];
      [reflexivity|]. now cbn in Hne.
  - intros email password u Hdb Hv Hu Hoff. rewrite <- Hl.
    unfold login. rewrite Hdb. cbn [negb]. rewrite Hv.
    cbn [field String.eqb Ascii.eqb Bool.eqb]. rewrite Hu, Hoff. reflexivity.
Qed.

Lemma validate_login_computed (je : string -> bool) (email password : string) :
  validate je loginSchema (login_body email password)
  = if (email =? "")%string then inl (JoiError "email" "string.empty")
    else if negb (je email) then inl (JoiError "email" "string.email")
    else if (password =? "")%string then inl (JoiError "password" "string.empty")
    else if (js_length password <? 6)%nat then inl (JoiError "password" "string.min")
    else inr [("email", email); ("password", password)].
Proof.
  unfold validate, loginSchema, login_body. cbn -[Nat.ltb].
  destruct (email =? "")%string; [reflexivity|].
  unfold check_rules. cbn -[Nat.ltb].
  destruct (je email); cbn -[Nat.ltb]; [|reflexivity].
  destruct (password =? "")%string; [reflexivity|].
  destruct (js_length password <? 6)%nat; reflexivity.
Qed.

(** X16: the login does not look at the case of the typed address.  Two
    login calls whose addresses have the same lower-case form, as the
    engine's [toLowerCase] computes it (both spellings being non-empty and
    accepted as e-mail addresses), have the same outcome: the same store and
    the same response. *)
Theorem login_ignores_case
    (P : Platform) (env : Env) (st : Store) (e1 e2 password : string) :
  String_toLowerCase P e1 = String_toLowerCase P e2 ->
  e1 <> "" -> e2 <> "" ->
  joi_email P e1 = true -> joi_email P e2 = true ->
  login P env st (public_request (login_body e1 password))
  = login P env st (public_request (login_body e2 password)).
Proof.
  intros Hlow N1 N2 H1 H2. unfold login. cbn [public_request body].
  destruct (DATABASE_URL P); cbn [negb]; [|reflexivity].
  rewrite !validate_login_computed, H1, H2. cbn [negb].
  apply String.eqb_neq in N1, N2. rewrite N1, N2.
  destruct (password =? "")%string; [reflexivity|].
  destruct (js_length password <? 6)%nat; [reflexivity|].
  cbn [field String.eqb Ascii.eqb Bool.eqb]. rewrite Hlow. reflexivity.
Qed.

Lemma login_ignores_case_witness :
  login sample_platform (sample_env 5000 "") seeded
        (public_request (login_body "Admin@ChartBreaker.com" "admin123"))
  = login sample_platform (sample_env 5000 "") seeded
          (public_request (login_body "admin@chartbreaker.com" "admin123")).
Proof.
  apply (login_ignores_case sample_platform (sample_env 5000 "") seeded
           "Admin@ChartBreaker.com" "admin@chartbreaker.com" "admin123");
    first [reflexivity | discriminate].
Defined.

(** ** Bodies with unknown keys *)

Lemma validate_unknown_key (je : string -> bool) (keys : ObjectSchema) (o : jsobj)
    (k : string) (v : jsval) :
  In (k, v) o -> includes (map fst keys) k = false ->
  exists e, validate je keys o = inl e.
Proof.
  intros Hin Hout. unfold validate.
  destruct (validate_keys je keys o) as [e|vs]; [now exists e|].
  destruct (find (fun kv => negb (includes (map fst keys) (fst kv))) o) as [[k' v']|] eqn:Hf.
  - eexists. reflexivity.
  - pose proof (find_none _ _ Hf (k, v) Hin) as H. cbn in H. now rewrite Hout in H.
Qed.

(** X17: a body that carries a property its schema does not declare is
    refused as a validation error, whatever the rest of it: Request, Verify
    and Complete answer 400 and write nothing, and so does the login (when
    the database is configured). *)
Theorem unknown_property_refused
    (P : Platform) (env : Env) (st : Store) (req : Request) (k : string) (v : jsval) :
  In (k, v) (body req) ->
  (includes ["email"; "firstName"; "lastName"; "role"] k = false ->
   exists e, request_registration P env st req = (st, mkResponse 400 (ValidationError e)))
  /\ (includes ["email"; "verificationCode"] k = false ->
      exists e, verify_email P env st req = (st, mkResponse 400 (ValidationError e)))
  /\ (includes ["email"; "password"; "token"] k = false ->
      exists e, complete_registration P env st req = (st, mkResponse 400 (ValidationError e)))
  /\ (includes ["email"; "password"] k = false -> DATABASE_URL P = true ->
      exists e, login P env st req = (st, mkResponse 400 (ValidationError e))).
Proof.
  intros Hin. repeat split.
  - intros Hk. unfold request_registration.
    destruct (validate_unknown_key (joi_email P) requestRegistrationSchema _ _ _ Hin Hk)
      as [e ->].
    now exists e.
  - intros Hk. unfold verify_email.
    destruct (validate_unknown_key (joi_email P) verifyEmailSchema _ _ _ Hin Hk) as [e ->].
    now exists e.
  - intros Hk. unfold complete_registration.
    destruct (validate_unknown_key (joi_email P) completeRegistrationSchema _ _ _ Hin Hk)
      as [e ->].
    now exists e.
  - intros Hk Hdb. unfold login. rewrite Hdb. cbn [negb].
    destruct (validate_unknown_key (joi_email P) loginSchema _ _ _ Hin Hk) as [e ->].
    now exists e.
Qed.

Lemma unknown_property_refused_witness :
  exists e,
    request_registration sample_platform (sample_env 1000 "r1") seeded
      (public_request (ann_body ++ [("isActive", JBool true)]))
    = (seeded, mkResponse 400 (ValidationError e)).
Proof.
  refine (proj1 (unknown_property_refused sample_platform (sample_env 1000 "r1") seeded
                   (public_request (ann_body ++ [("isActive", JBool true)]))
                   "isActive" (JBool true) _) eq_refl).
  cbn. auto 10.
Defined.

(** ** One call, one row *)







(** ** Changing a role *)

(** X19: a role change takes effect on the user's next request.  After a
    successful PATCH of a user's role to [s] (one of the five roles), a route
    behind the two gates, called with a token that verifies and names that
    user (active), runs its handler exactly when [s] is in the route's allowed
    list and answers 403 otherwise; the role the user had before, and the
    role in the token, play no part. *)
Theorem role_change_takes_effect
    (P : Platform) (env : Env) (userId s : string) (st st1 : Store)
    (req : Request) (res : ApiResponse) :
  user_role_route P env userId st req = (st1, res) ->
  api_statusCode res = 200 ->
  get_prop (body req) "role" = JStr s ->
  includes allRoles s = true
  /\ exists x,
       find (user_by_id userId) (prisma_user st) = Some x
       /\ forall (env2 : Env) (req2 : Request) (token : string) (claims : jsobj)
                 (roles : list string) (h : Handler),
            User.isActive x = true ->
            token_of (authorization req2) = Some token ->
            token <> "" ->
            jwt_verify P token (now env2) = JwtPayload claims ->
            get_prop claims "userId" = JStr userId ->
            route [authenticateToken P env2; requireRole roles] h st1 req2
            = if includes roles s
              then h st1 (set_user req2 (set_role (Put s) x))
              else (st1, mkResponse 403 (InsufficientPermissions roles s)).
Proof.
  intros H Hok Hbody.
  unfold user_role_route in H. apply gated_api_route_inv in H.
  destruct H as [[_ [Hs|Hs]]|(admin & _ & _ & _ & H)];
    try (rewrite Hs in Hok; discriminate).
  apply update_user_role_inv in H.
  destruct H as [[_ Hs]|(a & x & Ha & Hx & -> & _)];
    [rewrite Hs in Hok; discriminate|].
  cbn [set_user body] in Ha. rewrite Hbody in Ha.
  unfold role_arg, scalar_arg, role_value in Ha.
  destruct (includes allRoles s) eqn:Hin; cbn [option_map] in Ha; [|discriminate].
  injection Ha as <-.
  split; [reflexivity|]. exists x. split; [exact Hx|].
  intros env2 req2 token claims roles h Hact Ht Hne Hv Hc.
  cbn [route]. unfold authenticateToken. rewrite Ht.
  apply String.eqb_neq in Hne. rewrite Hne, Hv, Hc. cbn [findUser_id with_users prisma_user].
  rewrite (find_update_first_same (user_by_id userId) (set_role (Put s)) (prisma_user st) x
             Hx (find_holds _ _ _ Hx)).
  change (User.isActive (set_role (Put s) x)) with (User.isActive x).
  rewrite Hact. cbn [negb].
  unfold requireRole. cbn [set_user user].
  change (User.role (set_role (Put s) x)) with s.
  destruct (includes roles s); reflexivity.
Qed.

Lemma role_change_takes_effect_witness :
  includes allRoles "BILLER" = true
  /\ exists x,
       find (user_by_id "u-admin") (prisma_user seeded) = Some x
       /\ forall (env2 : Env) (req2 : Request) (token : string) (claims : jsobj)
                 (roles : list string) (h : Handler),
            User.isActive x = true ->
            token_of (authorization req2) = Some token ->
            token <> "" ->
            jwt_verify sample_platform token (now env2) = JwtPayload claims ->
            get_prop claims "userId" = JStr "u-admin" ->
            route [authenticateToken sample_platform env2; requireRole roles] h
                  (fst (user_role_route sample_platform (sample_env 1000 "") "u-admin"
                          seeded demote_admin)) req2
            = if includes roles "BILLER"
              then h (fst (user_role_route sample_platform (sample_env 1000 "") "u-admin"
                             seeded demote_admin))
                     (set_user req2 (set_role (Put "BILLER") x))
              else (fst (user_role_route sample_platform (sample_env 1000 "") "u-admin"
                           seeded demote_admin),
                    mkResponse 403 (InsufficientPermissions roles "BILLER")).
Proof.
  apply (role_change_takes_effect sample_platform (sample_env 1000 "") "u-admin" "BILLER"
           seeded _ demote_admin
           (snd (user_role_route sample_platform (sample_env 1000 "") "u-admin"
                   seeded demote_admin))).
  - vm_compute. reflexivity.
  - vm_compute. reflexivity.
  - reflexivity.
Defined.
